(** * taskflow-ai: job and workflow execution model

  A shallow embedding of the asynchronous job / workflow core of the
  application:

  - [app/services/workflow_service.py]        (modules [WorkflowService],
                                               [WorkflowRuns], [WorkflowAdmin])
  - [app/services/processing_service.py]      (module [ProcessingService])
  - [app/api/v1/endpoints/processing.py]      (module [ProcessingEndpoints])
  - [app/services/text_extraction_service.py] (modules [TextExtractionService],
                                               [TextExtractionReaders])
  - [app/tasks/document_tasks.py]             (modules [DocumentTasks],
                                               [ExtractTextTask])

  Python code that threads a SQLAlchemy session and may raise is written
  in a small state-and-exception monad [Exec].  A row loaded through
  [db.query(...).first()] is an object of the session's identity map: the
  model keeps the session's objects in a [gmap] keyed by primary key, an
  attribute assignment updates the object in place, and [db.commit()]
  writes the session's objects to the stored table and records the
  snapshot.  Sessions are created with [autoflush=False], so nothing
  reaches the table before a commit.

  Modelling choices.  [db.commit()] and the queries always succeed,
  except in [WorkflowAdmin], where a request can put [None] into a
  column and the commit asks the database whether it accepts the row.
  Python integers are [Z].  A [datetime] is its number of microseconds
  since the epoch, and the clock is any sequence of readings.  The
  floats of the job runner and of the status report are the rationals
  that their literals and operations denote; the progress of the batch
  task, which goes through [int(...)], is computed in binary64
  ([Float64]), because there the rounding shows: [int((29 / 100) * 100)]
  is 28. *)

From Stdlib Require Import ZArith QArith Qround Lia Lqa.
From Stdlib Require Import SpecFloat.
From stdpp Require Import base gmap strings list fin_maps pretty.

Open Scope Z_scope.
Open Scope string_scope.
Open Scope list_scope.

(** ** Python exceptions and the execution monad *)

Module Py.

(** The exception classes the modelled code raises or catches; all of
    them derive from [Exception]. *)
Inductive Exn : Type :=
| NameError (msg : string)
| TypeError (msg : string)
| ValueError (msg : string)
| FileNotFoundError (msg : string)
| ZeroDivisionError (msg : string)
| OverflowError (msg : string)
| AttributeError (msg : string)
| Retry (msg : string)
| Exception (msg : string).

(** [str(e)] *)
Definition str (e : Exn) : string :=
  match e with
  | NameError m | TypeError m | ValueError m | FileNotFoundError m
  | ZeroDivisionError m | OverflowError m | AttributeError m
  | Retry m | Exception m => m
  end.

(** The result of evaluating a Python expression or call. *)
Inductive Outcome (A : Type) : Type :=
| Return (a : A)
| Raise (e : Exn).
Arguments Return {A} a.
Arguments Raise {A} e.

(** Computations over a state [S] that return or raise. *)
Definition Exec (S A : Type) : Type := S -> Outcome A * S.

Definition ret {S A} (a : A) : Exec S A := fun s => (Return a, s).

Definition raise {S A} (e : Exn) : Exec S A := fun s => (Raise e, s).

Definition bind {S A B} (m : Exec S A) (k : A -> Exec S B) : Exec S B :=
  fun s =>
    match m s with
    | (Return a, s') => k a s'
    | (Raise e, s') => (Raise e, s')
    end.

(** [try: body  except Exception as e: handler] *)
Definition try_except {S A} (body : Exec S A) (handler : Exn -> Exec S A)
  : Exec S A :=
  fun s =>
    match body s with
    | (Return a, s') => (Return a, s')
    | (Raise e, s') => handler e s'
    end.

(** [try: body  finally: cleanup] *)
Definition try_finally {S A} (body : Exec S A) (cleanup : Exec S unit)
  : Exec S A :=
  fun s =>
    match body s with
    | (r, s') =>
        match cleanup s' with
        | (Return _, s'') => (r, s'')
        | (Raise e, s'') => (Raise e, s'')
        end
    end.

(** An effect-free call into a collaborator. *)
Definition lift {S A} (o : Outcome A) : Exec S A := fun s => (o, s).

Definition gets {S A} (f : S -> A) : Exec S A := fun s => (Return (f s), s).

Definition modify {S} (f : S -> S) : Exec S unit := fun s => (Return tt, f s).

(** The state a computation leaves behind, returned or raised. *)
Definition exec {S A} (m : Exec S A) (s : S) : S := snd (m s).

Definition outcome {S A} (m : Exec S A) (s : S) : Outcome A := fst (m s).

(** [for i in range(n): body], counting from [i]. *)
Fixpoint for_range_from {S} (i : Z) (n : nat) (body : Z -> Exec S unit)
  : Exec S unit :=
  match n with
  | O => ret tt
  | Datatypes.S n' =>
      bind (body i) (fun _ => for_range_from (i + 1) n' body)
  end.

Definition for_range {S} (n : nat) (body : Z -> Exec S unit) : Exec S unit :=
  for_range_from 0 n body.

(** How the body of a [for] loop inside a function left the loop: by
    running to the end of the sequence, or by a [return]. *)
Inductive LoopExit : Type := Fallthrough | Returned.

End Py.

Import Py.

Notation "'do' x <- m ; k" := (bind m (fun x => k))
(at level 10, x name, m at level 100, k at level 200,
 format "'[v' 'do'  x  <-  m ; '/' k ']'").
Notation "'do_' m ; k" := (bind m (fun _ => k))
(at level 10, m at level 100, k at level 200,
 format "'[v' 'do_'  m ; '/' k ']'").

(** ** app/services/workflow_service.py *)

Module WorkflowService.

(** [config: Dict[str, Any]]; no handler reads it. *)
Definition Config : Type := gmap string string.

(** One entry of the JSON column [Workflow.steps], as produced by
    [WorkflowStep.dict()].  The runner reads the entries with
    [dict.get], which yields [None] for a missing key. *)
Record StepData : Type := mkStep {
  step_id : option string;
  step_type : option string;
  config : option Config;
  order : option Z
}.

(** The columns of [app.models.document.Workflow] the service touches.
    [steps] is a JSON column: a row can hold JSON [null], which loads as
    [None]. *)
Record Workflow : Type := mkWorkflow {
  name : string;
  steps : option (list StepData);
  is_active : bool;
  total_runs : Z;
  successful_runs : Z;
  failed_runs : Z
}.

Inductive Counter : Type := TotalRuns | SuccessfulRuns | FailedRuns.

(** What a run leaves in the log. *)
Inductive Event : Type :=
| EvIncr (c : Counter) (workflow_id : Z)   (* [workflow.<c> += 1] *)
| EvHandler (step_type : string)           (* a step handler is awaited *)
| EvCommit (table : gmap Z Workflow).      (* [self.db.commit()] *)

(** [self.db]: the objects loaded into the session (identity map, with
    their uncommitted attribute values), the stored table, and the log. *)
Record Db : Type := mkDb {
  session : gmap Z Workflow;
  stored : gmap Z Workflow;
  log : list Event
}.

(** A session just opened on a table ([SessionLocal()]). *)
Definition open_session (table : gmap Z Workflow) : Db :=
  {| session := ∅; stored := table; log := [] |}.

(** The row a query for [workflow_id] sees. *)
Definition view (db : Db) (workflow_id : Z) : option Workflow :=
  match session db !! workflow_id with
  | Some w => Some w
  | None => stored db !! workflow_id
  end.

Definition emit (e : Event) : Exec Db unit :=
  modify (fun db => {| session := session db; stored := stored db;
                       log := log db ++ [e] |}).

(** [self.db.query(Workflow).filter(Workflow.id == workflow_id).first()] *)
Definition query_first (workflow_id : Z) : Exec Db (option Workflow) :=
  fun db =>
    match session db !! workflow_id with
    | Some w => (Return (Some w), db)
    | None =>
        match stored db !! workflow_id with
        | Some w =>
            (Return (Some w),
             {| session := <[workflow_id := w]> (session db);
                stored := stored db; log := log db |})
        | None => (Return None, db)
        end
    end.

Definition bump (c : Counter) (w : Workflow) : Workflow :=
  match c with
  | TotalRuns =>
      {| name := name w; steps := steps w; is_active := is_active w;
         total_runs := total_runs w + 1;
         successful_runs := successful_runs w;
         failed_runs := failed_runs w |}
  | SuccessfulRuns =>
      {| name := name w; steps := steps w; is_active := is_active w;
         total_runs := total_runs w;
         successful_runs := successful_runs w + 1;
         failed_runs := failed_runs w |}
  | FailedRuns =>
      {| name := name w; steps := steps w; is_active := is_active w;
         total_runs := total_runs w;
         successful_runs := successful_runs w;
         failed_runs := failed_runs w + 1 |}
  end.

(** [workflow.<c> += 1] on the loaded object. *)
Definition incr (c : Counter) (workflow_id : Z) : Exec Db unit :=
  do_ modify (fun db => {| session := alter (bump c) workflow_id (session db);
                           stored := stored db; log := log db |});
  emit (EvIncr c workflow_id).

(** [self.db.commit()]: the session's objects are written to the table. *)
Definition commit : Exec Db unit :=
  fun db =>
    let table := session db ∪ stored db in
    (Return tt,
     {| session := session db; stored := table;
        log := log db ++ [EvCommit table] |}).

(** *** Step handlers *)

(** The methods [_execute_*_step] of the service object: each takes the
    step's config and returns a boolean or raises. *)
Record StepHandlers : Type := mkHandlers {
  _execute_text_extraction_step : Config -> Outcome bool;
  _execute_ai_analysis_step : Config -> Outcome bool;
  _execute_categorization_step : Config -> Outcome bool;
  _execute_notification_step : Config -> Outcome bool
}.

(** The names bound at module level in workflow_service.py: its imports
    (lines 5-10) and its one class. *)
Definition module_globals : list string :=
  ["Session"; "List"; "Optional"; "datetime";
   "Workflow"; "WorkflowCreate"; "WorkflowUpdate"; "WorkflowResponse";
   "WorkflowService"].

(** Evaluating a global name that no import binds raises [NameError]. *)
Definition load_global (globals : list string) (x : string) : Outcome unit :=
  if bool_decide (x ∈ globals) then Return tt
  else Raise (NameError ("name '" +:+ x +:+ "' is not defined")).

(** [await asyncio.sleep(seconds)]: the name [asyncio] is looked up in
    the module's globals; the sleep itself only passes time. *)
Definition asyncio_sleep (globals : list string) (seconds : Q)
  : Outcome unit :=
  load_global globals "asyncio".

(** [stmt; rest] on outcomes. *)
Definition and_then {A B} (o : Outcome A) (rest : Outcome B) : Outcome B :=
  match o with
  | Return _ => rest
  | Raise e => Raise e
  end.

(** [_execute_text_extraction_step] (lines 151-156), in a module whose
    globals are [globals]. *)
Definition text_extraction_step (globals : list string) (_ : Config)
  : Outcome bool :=
  and_then (asyncio_sleep globals 1) (Return true).

(** [_execute_ai_analysis_step] (lines 158-163). *)
Definition ai_analysis_step (globals : list string) (_ : Config)
  : Outcome bool :=
  and_then (asyncio_sleep globals 2) (Return true).

(** [_execute_categorization_step] (lines 165-170). *)
Definition categorization_step (globals : list string) (_ : Config)
  : Outcome bool :=
  and_then (asyncio_sleep globals 1) (Return true).

(** [_execute_notification_step] (lines 172-177). *)
Definition notification_step (globals : list string) (_ : Config)
  : Outcome bool :=
  and_then (asyncio_sleep globals (1 # 2)) (Return true).

(** The handlers of class [WorkflowService] in a module whose globals
    are [globals]. *)
Definition handlers_in (globals : list string) : StepHandlers :=
  {| _execute_text_extraction_step := text_extraction_step globals;
     _execute_ai_analysis_step := ai_analysis_step globals;
     _execute_categorization_step := categorization_step globals;
     _execute_notification_step := notification_step globals |}.

(** The handlers as the source module defines them. *)
Definition self : StepHandlers := handlers_in module_globals.

Definition await_handler (step_type : string) (o : Outcome bool)
  : Exec Db bool :=
  do_ emit (EvHandler step_type);
  lift o.

(** [WorkflowService._execute_step] (lines 132-149). *)
Definition _execute_step (self : StepHandlers)
    (step_type : option string) (config : Config) : Exec Db bool :=
  try_except
    (if bool_decide (step_type = Some "text_extraction") then
       await_handler "text_extraction"
         (_execute_text_extraction_step self config)
     else if bool_decide (step_type = Some "ai_analysis") then
       await_handler "ai_analysis" (_execute_ai_analysis_step self config)
     else if bool_decide (step_type = Some "categorization") then
       await_handler "categorization"
         (_execute_categorization_step self config)
     else if bool_decide (step_type = Some "notification") then
       await_handler "notification"
         (_execute_notification_step self config)
     else ret false)
    (fun _ => ret false).

(** The loop of [execute_workflow] (lines 105-119). *)
Fixpoint for_steps (self : StepHandlers) (workflow_id : Z)
    (steps : list StepData) : Exec Db LoopExit :=
  match steps with
  | [] => ret Fallthrough
  | step_data :: rest =>
      let step_type := step_type step_data in
      let config := default ∅ (config step_data) in
      do success <- _execute_step self step_type config;
      if negb success then
        do_ incr FailedRuns workflow_id;
        do_ commit;
        ret Returned
      else for_steps self workflow_id rest
  end.

(** [for step_data in workflow.steps]: iterating [None] raises. *)
Definition iter (steps : option (list StepData)) : Exec Db (list StepData) :=
  match steps with
  | Some l => ret l
  | None => raise (TypeError "'NoneType' object is not iterable")
  end.

(** The [try] block of [execute_workflow] (lines 94-124). *)
Definition execute_workflow_try (self : StepHandlers) (workflow_id : Z)
  : Exec Db unit :=
  do workflow <- query_first workflow_id;
  match workflow with
  | None => ret tt
  | Some workflow =>
      do_ incr TotalRuns workflow_id;
      do steps <- iter (steps workflow);
      do exit <- for_steps self workflow_id steps;
      match exit with
      | Returned => ret tt
      | Fallthrough =>
          do_ incr SuccessfulRuns workflow_id;
          commit
      end
  end.

(** The [except Exception] block (lines 126-130); [workflow] is the
    object the [try] block loaded into the session. *)
Definition execute_workflow_except (workflow_id : Z) (_ : Exn)
  : Exec Db unit :=
  do workflow <- gets (fun db => session db !! workflow_id);
  match workflow with
  | Some _ =>
      do_ incr FailedRuns workflow_id;
      commit
  | None => ret tt
  end.

(** [WorkflowService.execute_workflow] (lines 91-130). *)
Definition execute_workflow (self : StepHandlers) (workflow_id : Z)
  : Exec Db unit :=
  try_except (execute_workflow_try self workflow_id)
             (execute_workflow_except workflow_id).

(** *** Observations on a run *)

(** What [_execute_step] returns for a step of the given type. *)
Definition step_result (self : StepHandlers) (step_type : option string)
    (config : Config) : bool :=
  let ok (o : Outcome bool) :=
    match o with Return b => b | Raise _ => false end in
  if bool_decide (step_type = Some "text_extraction") then
    ok (_execute_text_extraction_step self config)
  else if bool_decide (step_type = Some "ai_analysis") then
    ok (_execute_ai_analysis_step self config)
  else if bool_decide (step_type = Some "categorization") then
    ok (_execute_categorization_step self config)
  else if bool_decide (step_type = Some "notification") then
    ok (_execute_notification_step self config)
  else false.

(** The step types that have a handler. *)
Definition known_step_types : list string :=
  ["text_extraction"; "ai_analysis"; "categorization"; "notification"].

(** The handler invocation a step causes, if any. *)
Definition step_events (step_type : option string) : list Event :=
  match step_type with
  | Some t => if bool_decide (t ∈ known_step_types) then [EvHandler t] else []
  | None => []
  end.

Definition step_ok (self : StepHandlers) (s : StepData) : bool :=
  step_result self (step_type s) (default ∅ (config s)).

Definition steps_events (l : list StepData) : list Event :=
  concat (map (fun s => step_events (step_type s)) l).

Definition add_log (l : list Event) (db : Db) : Db :=
  {| session := session db; stored := stored db; log := log db ++ l |}.

(** The steps the loop executes: up to and including the first one
    that fails. *)
Fixpoint executed (self : StepHandlers) (l : list StepData) : list StepData :=
  match l with
  | [] => []
  | s :: rest => if step_ok self s then s :: executed self rest else [s]
  end.

(** A session that holds [w] under [id]. *)
Definition loaded (id : Z) (w : Workflow) (σ τ : gmap Z Workflow)
    (l : list Event) : Db :=
  {| session := <[id := w]> σ; stored := τ; log := l |}.

(** The same session just after a commit. *)
Definition committed (id : Z) (w : Workflow) (σ τ : gmap Z Workflow)
    (l : list Event) : Db :=
  {| session := <[id := w]> σ; stored := <[id := w]> σ ∪ τ;
     log := l ++ [EvCommit (<[id := w]> σ ∪ τ)] |}.

(** The counter a run bumps after [total_runs], and the steps whose
    turn comes. *)
Definition verdict (self : StepHandlers) (w : Workflow) : Counter :=
  match steps w with
  | Some l => if forallb (step_ok self) l then SuccessfulRuns else FailedRuns
  | None => FailedRuns
  end.

Definition reached (self : StepHandlers) (w : Workflow) : list StepData :=
  match steps w with
  | Some l => executed self l
  | None => []
  end.

Definition run_log (self : StepHandlers) (id : Z) (w : Workflow) : list Event :=
  [EvIncr TotalRuns id] ++ steps_events (reached self w)
  ++ [EvIncr (verdict self w) id].

(** One request to [POST /workflows/{id}/execute]: a service object of
    its own, on a session of its own. *)
Definition attempt (self : StepHandlers) (id : Z) (table : gmap Z Workflow)
  : gmap Z Workflow :=
  stored (exec (execute_workflow self id) (open_session table)).

Definition attempts (selves : list StepHandlers) (id : Z)
    (table : gmap Z Workflow) : gmap Z Workflow :=
  foldl (fun t self => attempt self id t) table selves.

(** The method [_execute_step] dispatches a step type to. *)
Definition handler_of (self : StepHandlers) (step_type : string)
  : option (Config -> Outcome bool) :=
  if bool_decide (step_type = "text_extraction") then
    Some (_execute_text_extraction_step self)
  else if bool_decide (step_type = "ai_analysis") then
    Some (_execute_ai_analysis_step self)
  else if bool_decide (step_type = "categorization") then
    Some (_execute_categorization_step self)
  else if bool_decide (step_type = "notification") then
    Some (_execute_notification_step self)
  else None.

(** Whether a log shows a commit before the first handler invocation
    (vacuously so when no handler is invoked). *)
Fixpoint commit_precedes_handlers (l : list Event) : bool :=
  match l with
  | [] => true
  | EvCommit _ :: _ => true
  | EvHandler _ :: _ => false
  | EvIncr _ _ :: rest => commit_precedes_handlers rest
  end.

(** The step types whose handlers a log shows invoked, in order. *)
Definition handler_calls (l : list Event) : list string :=
  omap (fun e => match e with EvHandler t => Some t | _ => None end) l.

Definition handled (l : list StepData) : list string :=
  handler_calls (steps_events l).

End WorkflowService.

(** ** app/services/processing_service.py *)

Module ProcessingService.

(** [app.schemas.document.JobStatus] *)
Inductive JobStatus : Type := PENDING | RUNNING | COMPLETED | FAILED.

#[global] Instance JobStatus_eq_dec : EqDecision JobStatus.
Proof. solve_decision. Defined.

(** A JSON value of the [output_data] payload. *)
#[warnings="-register-all"]
Inductive Json : Type :=
| JNull
| JStr (s : string)
| JInt (n : Z)
| JNum (q : Q)
| JList (l : list Json).

(** The columns of [app.models.document.ProcessingJob].  Timestamps are
    microseconds since the epoch; [progress] and [duration_seconds] are
    Python floats, modelled as the rationals their literals denote. *)
Record Job : Type := mkJob {
  job_id : string;
  job_type : string;
  status : JobStatus;
  progress : Q;
  output_data : list (string * Json);
  error_message : option string;
  started_at : option Z;
  completed_at : option Z;
  duration_seconds : option Q;
  document_id : option Z;
  workflow_id : option Z;
  created_at : Z
}.

(** [self.db] together with the wall clock: [clock n] is what the
    [n]-th call of [datetime.utcnow()] returns; [commits] are the
    snapshots of the table, oldest first. *)
Record Db : Type := mkDb {
  session : gmap Z Job;
  stored : gmap Z Job;
  commits : list (gmap Z Job);
  clock : nat -> Z;
  ticks : nat
}.

Definition open_session (table : gmap Z Job) (clock : nat -> Z) : Db :=
  {| session := ∅; stored := table; commits := [];
     clock := clock; ticks := 0 |}.

Definition view (db : Db) (id : Z) : option Job :=
  match session db !! id with
  | Some j => Some j
  | None => stored db !! id
  end.

Definition with_session (f : gmap Z Job -> gmap Z Job) (db : Db) : Db :=
  {| session := f (session db); stored := stored db;
     commits := commits db; clock := clock db; ticks := ticks db |}.

(** [self.db.query(ProcessingJob).filter(ProcessingJob.id == id).first()] *)
Definition query_first (id : Z) : Exec Db (option Job) :=
  fun db =>
    match session db !! id with
    | Some j => (Return (Some j), db)
    | None =>
        match stored db !! id with
        | Some j => (Return (Some j), with_session (insert id j) db)
        | None => (Return None, db)
        end
    end.

(** [self.db.commit()] *)
Definition commit : Exec Db unit :=
  fun db =>
    let table := session db ∪ stored db in
    (Return tt,
     {| session := session db; stored := table;
        commits := commits db ++ [table];
        clock := clock db; ticks := ticks db |}).

(** [datetime.utcnow()] *)
Definition utcnow : Exec Db Z :=
  fun db =>
    (Return (clock db (ticks db)),
     {| session := session db; stored := stored db;
        commits := commits db; clock := clock db;
        ticks := Datatypes.S (ticks db) |}).

(** [job.<attr> = v] on the loaded object. *)
Definition setattr (id : Z) (f : Job -> Job) : Exec Db unit :=
  modify (with_session (alter f id)).

(** [job.<attr>]; from the query on the object is in the session, so
    the second branch is never taken. *)
Definition getattr {A} (id : Z) (f : Job -> A) : Exec Db A :=
  do row <- gets (fun db => session db !! id);
  match row with
  | Some j => ret (f j)
  | None => raise (Exception "detached row")
  end.

Definition set_status (v : JobStatus) (j : Job) : Job :=
  {| job_id := job_id j; job_type := job_type j; status := v;
     progress := progress j; output_data := output_data j;
     error_message := error_message j; started_at := started_at j;
     completed_at := completed_at j;
     duration_seconds := duration_seconds j;
     document_id := document_id j; workflow_id := workflow_id j;
     created_at := created_at j |}.

Definition set_progress (v : Q) (j : Job) : Job :=
  {| job_id := job_id j; job_type := job_type j; status := status j;
     progress := v; output_data := output_data j;
     error_message := error_message j; started_at := started_at j;
     completed_at := completed_at j;
     duration_seconds := duration_seconds j;
     document_id := document_id j; workflow_id := workflow_id j;
     created_at := created_at j |}.

Definition set_output_data (v : list (string * Json)) (j : Job) : Job :=
  {| job_id := job_id j; job_type := job_type j; status := status j;
     progress := progress j; output_data := v;
     error_message := error_message j; started_at := started_at j;
     completed_at := completed_at j;
     duration_seconds := duration_seconds j;
     document_id := document_id j; workflow_id := workflow_id j;
     created_at := created_at j |}.

Definition set_error_message (v : option string) (j : Job) : Job :=
  {| job_id := job_id j; job_type := job_type j; status := status j;
     progress := progress j; output_data := output_data j;
     error_message := v; started_at := started_at j;
     completed_at := completed_at j;
     duration_seconds := duration_seconds j;
     document_id := document_id j; workflow_id := workflow_id j;
     created_at := created_at j |}.

Definition set_started_at (v : option Z) (j : Job) : Job :=
  {| job_id := job_id j; job_type := job_type j; status := status j;
     progress := progress j; output_data := output_data j;
     error_message := error_message j; started_at := v;
     completed_at := completed_at j;
     duration_seconds := duration_seconds j;
     document_id := document_id j; workflow_id := workflow_id j;
     created_at := created_at j |}.

Definition set_completed_at (v : option Z) (j : Job) : Job :=
  {| job_id := job_id j; job_type := job_type j; status := status j;
     progress := progress j; output_data := output_data j;
     error_message := error_message j; started_at := started_at j;
     completed_at := v;
     duration_seconds := duration_seconds j;
     document_id := document_id j; workflow_id := workflow_id j;
     created_at := created_at j |}.

Definition set_duration_seconds (v : option Q) (j : Job) : Job :=
  {| job_id := job_id j; job_type := job_type j; status := status j;
     progress := progress j; output_data := output_data j;
     error_message := error_message j; started_at := started_at j;
     completed_at := completed_at j;
     duration_seconds := v;
     document_id := document_id j; workflow_id := workflow_id j;
     created_at := created_at j |}.

(** [ProcessingService.cancel_job] (lines 74-88). *)
Definition cancel_job (id : Z) : Exec Db bool :=
  do job <- query_first id;
  match job with
  | None => ret false
  | Some j =>
      if bool_decide (status j ∈ [PENDING; RUNNING]) then
        do_ setattr id (set_status FAILED);
        do_ setattr id (set_error_message (Some "Job cancelled by user"));
        do now <- utcnow;
        do_ setattr id (set_completed_at (Some now));
        do_ commit;
        ret true
      else ret false
  end.

(** *** System status (lines 90-131) *)

(** [self.db.query(ProcessingJob).filter(...).count()] *)
Definition count (P : Job -> bool) (table : gmap Z Job) : Z :=
  Z.of_nat (length (filter (fun kj => P kj.2 = true) (map_to_list table))).

Definition has_status (v : JobStatus) (j : Job) : bool :=
  bool_decide (status j = v).

(** [round(x, 2)]: to the nearest hundredth, ties to the even one. *)
Definition round_half_even (x : Q) : Z :=
  let f := Qfloor x in
  match (x - inject_Z f ?= 1 # 2)%Q with
  | Lt => f
  | Gt => f + 1
  | Eq => if Z.even f then f else f + 1
  end.

Definition round2 (x : Q) : Q := Qmake (round_half_even (x * 100)) 100.

Definition Qltb (x y : Q) : bool := negb (Qle_bool y x).

Record SystemStatus : Type := mkStatus {
  total_jobs : Z;
  pending_jobs : Z;
  running_jobs : Z;
  completed_jobs : Z;
  failed_jobs : Z;
  success_rate : Q;
  average_duration_seconds : Q;
  recent_jobs_24h : Z;
  system_health : string
}.

(** Microseconds in [timedelta(hours=24)]. *)
Definition hours_24 : Z := 24 * 3600 * 1000000.

Definition sum_durations (jobs : list Job) : Q :=
  foldr (fun j acc => default 0 (duration_seconds j) + acc)%Q 0%Q jobs.

(** [ProcessingService.get_system_status], on a session that holds no
    uncommitted object. *)
Definition get_system_status : Exec Db SystemStatus :=
  do table <- gets stored;
  let total_jobs := Z.of_nat (size table) in
  let pending_jobs := count (has_status PENDING) table in
  let running_jobs := count (has_status RUNNING) table in
  let completed_jobs := count (has_status COMPLETED) table in
  let failed_jobs := count (has_status FAILED) table in
  let success_rate :=
    if bool_decide (total_jobs > 0)
    then (inject_Z completed_jobs / inject_Z total_jobs * 100)%Q
    else 0%Q in
  let completed_jobs_with_duration :=
    filter (fun j => status j = COMPLETED /\ is_Some (duration_seconds j))
           (map_to_list table).*2 in
  let avg_duration :=
    match completed_jobs_with_duration with
    | [] => 0%Q
    | _ :: _ =>
        (sum_durations completed_jobs_with_duration
         / inject_Z (Z.of_nat (length completed_jobs_with_duration)))%Q
    end in
  do now <- utcnow;
  let recent_cutoff := now - hours_24 in
  let recent_jobs :=
    count (fun j => bool_decide (created_at j >= recent_cutoff)) table in
  ret {| total_jobs := total_jobs;
         pending_jobs := pending_jobs;
         running_jobs := running_jobs;
         completed_jobs := completed_jobs;
         failed_jobs := failed_jobs;
         success_rate := round2 success_rate;
         average_duration_seconds := round2 avg_duration;
         recent_jobs_24h := recent_jobs;
         system_health :=
           if Qltb (inject_Z failed_jobs) (inject_Z total_jobs * (1 # 10))
           then "healthy" else "degraded" |}.

(** *** The job runner (lines 133-250) *)

(** [str(x)] of an optional integer column. *)
Definition str_opt (x : option Z) : string :=
  match x with
  | Some n => pretty n
  | None => "None"
  end.

Definition json_opt (x : option Z) : Json :=
  match x with
  | Some n => JInt n
  | None => JNull
  end.

(** [(job.completed_at - job.started_at).total_seconds()]; subtracting
    from or by [None] raises. *)
Definition total_seconds (microseconds : Z) : Q :=
  Qmake microseconds 1000000.

Definition elapsed (id : Z) : Exec Db Q :=
  do completed <- getattr id completed_at;
  do started <- getattr id started_at;
  match completed, started with
  | Some c, Some s => ret (total_seconds (c - s))
  | _, _ => raise (TypeError "unsupported operand type(s) for -")
  end.

(** [_process_text_extraction] (lines 182-197); [asyncio.sleep] only
    passes time. *)
Definition text_extraction_progress (i : Z) : Q := inject_Z ((i + 1) * 20).

Definition text_extraction_output (document_id : option Z)
  : list (string * Json) :=
  [("extracted_text",
    JStr ("Extracted text from document " +:+ str_opt document_id));
   ("word_count", JInt 150);
   ("language", JStr "en")].

Definition _process_text_extraction (id : Z) : Exec Db unit :=
  do_ for_range 5 (fun i =>
        do_ setattr id (set_progress (text_extraction_progress i));
        commit);
  do document_id <- getattr id document_id;
  setattr id (set_output_data (text_extraction_output document_id)).

(** [_process_ai_analysis] (lines 199-215). *)
Definition ai_analysis_progress (i : Z) : Q := inject_Z ((i + 1) * 10).

Definition ai_analysis_output (document_id : option Z)
  : list (string * Json) :=
  [("summary",
    JStr ("AI-generated summary for document " +:+ str_opt document_id));
   ("category", JStr "Business Document");
   ("confidence", JNum (85 # 100));
   ("key_points", JList [JStr "Point 1"; JStr "Point 2"; JStr "Point 3"])].

Definition _process_ai_analysis (id : Z) : Exec Db unit :=
  do_ for_range 10 (fun i =>
        do_ setattr id (set_progress (ai_analysis_progress i));
        commit);
  do document_id <- getattr id document_id;
  setattr id (set_output_data (ai_analysis_output document_id)).

(** [_process_categorization] (lines 217-232). *)
Definition categorization_progress (i : Z) : Q :=
  (inject_Z (i + 1) * (3333 # 100))%Q.

Definition categorization_output : list (string * Json) :=
  [("category", JStr "Technical Document");
   ("confidence", JNum (92 # 100));
   ("subcategories",
    JList [JStr "API Documentation"; JStr "Technical Specification"])].

Definition _process_categorization (id : Z) : Exec Db unit :=
  do_ for_range 3 (fun i =>
        do_ setattr id (set_progress (categorization_progress i));
        commit);
  setattr id (set_output_data categorization_output).

(** [_process_workflow] (lines 234-250). *)
Definition workflow_progress (i : Z) : Q :=
  (inject_Z (i + 1) * (125 # 10))%Q.

Definition workflow_output (workflow_id : option Z) : list (string * Json) :=
  [("workflow_id", json_opt workflow_id);
   ("steps_completed", JInt 5);
   ("total_steps", JInt 5);
   ("execution_time", JNum (64 # 10))].

Definition _process_workflow (id : Z) : Exec Db unit :=
  do_ for_range 8 (fun i =>
        do_ setattr id (set_progress (workflow_progress i));
        commit);
  do workflow_id <- getattr id workflow_id;
  setattr id (set_output_data (workflow_output workflow_id)).

(** The [try] block of [_process_job_async] (lines 136-168). *)
Definition _process_job_async_try (id : Z) : Exec Db unit :=
  do job <- query_first id;
  match job with
  | None => ret tt
  | Some _ =>
      do_ setattr id (set_status RUNNING);
      do now <- utcnow;
      do_ setattr id (set_started_at (Some now));
      do_ setattr id (set_progress 0);
      do_ commit;
      do job_type <- getattr id job_type;
      do_ (if bool_decide (job_type = "text_extraction") then
             _process_text_extraction id
           else if bool_decide (job_type = "ai_analysis") then
             _process_ai_analysis id
           else if bool_decide (job_type = "categorization") then
             _process_categorization id
           else if bool_decide (job_type = "workflow") then
             _process_workflow id
           else raise (ValueError ("Unknown job type: " +:+ job_type)));
      do_ setattr id (set_status COMPLETED);
      do_ setattr id (set_progress 100);
      do now <- utcnow;
      do_ setattr id (set_completed_at (Some now));
      do seconds <- elapsed id;
      do_ setattr id (set_duration_seconds (Some seconds));
      commit
  end.

(** The [except Exception as e] block (lines 170-180). *)
Definition _process_job_async_except (id : Z) (e : Exn) : Exec Db unit :=
  do job <- query_first id;
  match job with
  | Some _ =>
      do_ setattr id (set_status FAILED);
      do_ setattr id (set_error_message (Some (str e)));
      do now <- utcnow;
      do_ setattr id (set_completed_at (Some now));
      do started <- getattr id started_at;
      do_ (match started with
           | Some _ =>
               do seconds <- elapsed id;
               setattr id (set_duration_seconds (Some seconds))
           | None => ret tt
           end);
      commit
  | None => ret tt
  end.

(** [ProcessingService._process_job_async] (lines 133-180). *)
Definition _process_job_async (id : Z) : Exec Db unit :=
  try_except (_process_job_async_try id) (_process_job_async_except id).

(** *** Observations on a run *)


(** A session that holds [j] under [id]. *)
Definition loaded (id : Z) (j : Job) (σ τ : gmap Z Job)
    (cs : list (gmap Z Job)) (clk : nat -> Z) (k : nat) : Db :=
  {| session := <[id := j]> σ; stored := τ; commits := cs;
     clock := clk; ticks := k |}.

(** The table a commit of that session writes. *)
Definition persist (id : Z) (j : Job) (σ τ : gmap Z Job) : gmap Z Job :=
  <[id := j]> σ ∪ τ.

(** The job as [cancel_job] leaves it when it takes effect at [now]. *)
Definition cancelled (now : Z) (j : Job) : Job :=
  set_completed_at (Some now)
    (set_error_message (Some "Job cancelled by user")
       (set_status FAILED j)).

(** The job as the [except] block of the runner leaves it. *)
Definition failed (e : Exn) (now : Z) (j : Job) : Job :=
  let j' := set_completed_at (Some now)
              (set_error_message (Some (str e)) (set_status FAILED j)) in
  match started_at j with
  | Some s => set_duration_seconds (Some (total_seconds (now - s))) j'
  | None => j'
  end.

(** The job as the end of the [try] block leaves it. *)
Definition completed (now : Z) (j : Job) : Job :=
  let j' := set_completed_at (Some now)
              (set_progress 100 (set_status COMPLETED j)) in
  match started_at j with
  | Some s => set_duration_seconds (Some (total_seconds (now - s))) j'
  | None => j'
  end.

(** The tables a session writes when it commits the successive states
    [js] of its job. *)
Fixpoint persist_each (id : Z) (σ τ : gmap Z Job) (js : list Job)
  : list (gmap Z Job) :=
  match js with
  | [] => []
  | j :: rest => persist id j σ τ :: persist_each id σ (persist id j σ τ) rest
  end.

(** The simulated work of a job type: how many progress updates, their
    values, and the output. *)
Definition script (j : Job)
  : option (nat * (Z -> Q) * list (string * Json)) :=
  if bool_decide (job_type j = "text_extraction") then
    Some (5%nat, text_extraction_progress,
          text_extraction_output (document_id j))
  else if bool_decide (job_type j = "ai_analysis") then
    Some (10%nat, ai_analysis_progress, ai_analysis_output (document_id j))
  else if bool_decide (job_type j = "categorization") then
    Some (3%nat, categorization_progress, categorization_output)
  else if bool_decide (job_type j = "workflow") then
    Some (8%nat, workflow_progress, workflow_output (workflow_id j))
  else None.

(** The states a run of [_process_job_async] persists for a job that
    it finds as [j], with the clock at its [k]-th reading. *)
Definition runner_states (clk : nat -> Z) (k : nat) (j : Job) : list Job :=
  let j0 := set_progress 0
              (set_started_at (Some (clk k)) (set_status RUNNING j)) in
  match script j with
  | Some (n, f, out) =>
      let js := (fun i => set_progress (f i) j0) <$> seqZ 0 (Z.of_nat n) in
      [j0] ++ js
      ++ [completed (clk (S k)) (set_output_data out (List.last js j0))]
  | None =>
      [j0;
       failed (ValueError ("Unknown job type: " +:+ job_type j))
              (clk (S k)) j0]
  end.


End ProcessingService.

(** ** Python floats, bit for bit *)

Module Float64.

(** IEEE 754 binary64, the format of a Python [float]. *)
Definition prec : Z := 53.
Definition emax : Z := 1024.

(** [float(n)] *)
Definition of_int (n : Z) : spec_float := binary_normalize prec emax n 0 false.

Definition mul : spec_float -> spec_float -> spec_float := SFmul prec emax.
Definition div : spec_float -> spec_float -> spec_float := SFdiv prec emax.

(** [a / b] on integers below 2^53 (true division). *)
Definition truediv (a b : Z) : Outcome spec_float :=
  if bool_decide (b = 0) then Raise (ZeroDivisionError "division by zero")
  else Return (div (of_int a) (of_int b)).

(** [int(x)]: truncation towards zero. *)
Definition to_int (x : spec_float) : Outcome Z :=
  match x with
  | S754_zero _ => Return 0
  | S754_finite s m e =>
      let magnitude :=
        if bool_decide (0 <= e) then Z.shiftl (Z.pos m) e
        else Z.shiftr (Z.pos m) (- e) in
      Return (if s then - magnitude else magnitude)
  | S754_infinity _ =>
      Raise (OverflowError "cannot convert float infinity to integer")
  | S754_nan => Raise (ValueError "cannot convert float NaN to integer")
  end.

(** A float that is zero, or finite with exponent and magnitude at
    most [hi]. *)
Definition moderate (hi : Z) (x : spec_float) : Prop :=
  match x with
  | S754_zero _ => True
  | S754_finite _ m e => e <= hi /\ Zdigits2 (Z.pos m) + e <= hi + 1
  | _ => False
  end.

End Float64.

(** ** app/services/text_extraction_service.py *)

Module TextExtractionService.

(** The files on disk as the service sees them: [os.path.exists], and
    the text the format-specific readers (PyPDF2, python-docx,
    pytesseract, or the unsupported-type branch) produce or the error
    they raise. *)
Record FileSystem : Type := mkFs {
  path_exists : string -> bool;
  extract_by_extension : string -> Outcome string
}.

(** [TextExtractionService.extract_text] (lines 21-43). *)
Definition extract_text (fs : FileSystem) (file_path : string)
  : Outcome string :=
  if negb (path_exists fs file_path) then
    Raise (FileNotFoundError ("File not found: " +:+ file_path))
  else
    match extract_by_extension fs file_path with
    | Return text => Return text
    | Raise e => Return ("Error extracting text: " +:+ str e)
    end.

End TextExtractionService.

(** ** app/tasks/document_tasks.py *)

Module DocumentTasks.

Import TextExtractionService.

(** The columns of [app.models.document.Document] the task touches. *)
Record Document : Type := mkDocument {
  file_path : string;
  extracted_text : option string;
  status : string;
  processing_progress : Q;
  error_message : option string
}.

(** The [meta] of a [self.update_state(state='PROGRESS', ...)] call. *)
Record Meta : Type := mkMeta {
  progress : Z;
  status_text : string;
  current_document : Z
}.

(** One entry of the returned [results] list. *)
Record Entry : Type := mkEntry {
  entry_document_id : Z;
  entry_status : string;
  text_length : option Z;
  error : option string
}.

(** The returned dictionary. *)
Record BatchResult : Type := mkResult {
  total_documents : Z;
  results : list Entry;
  result_status : string
}.

Inductive Event : Type :=
| EvUpdateState (meta : Meta)      (* [self.update_state] *)
| EvQuery (document_id : Z)        (* [db.query(Document)...first()] *)
| EvExtract (file_path : string)   (* [extract_text(document.file_path)] *)
| EvCommit.                        (* [db.commit()] *)

(** The local variable [document] of the task body: unbound until the
    first query, then whatever the latest query returned. *)
Inductive Local : Type :=
| Unbound
| Bound (document : option Z).

Record Task : Type := mkTask {
  session : gmap Z Document;
  stored : gmap Z Document;
  log : list Event;
  document : Local
}.

Definition start (table : gmap Z Document) : Task :=
  {| session := ∅; stored := table; log := []; document := Unbound |}.

Definition emit (e : Event) : Exec Task unit :=
  modify (fun t => {| session := session t; stored := stored t;
                      log := log t ++ [e]; document := document t |}).

(** [document = db.query(Document).filter(Document.id == id).first()] *)
Definition query_first (id : Z) : Exec Task (option Document) :=
  do_ emit (EvQuery id);
  fun t =>
    match session t !! id with
    | Some d =>
        (Return (Some d),
         {| session := session t; stored := stored t; log := log t;
            document := Bound (Some id) |})
    | None =>
        match stored t !! id with
        | Some d =>
            (Return (Some d),
             {| session := <[id := d]> (session t); stored := stored t;
                log := log t; document := Bound (Some id) |})
        | None =>
            (Return None,
             {| session := session t; stored := stored t; log := log t;
                document := Bound None |})
        end
    end.

Definition setattr (id : Z) (f : Document -> Document) : Exec Task unit :=
  modify (fun t => {| session := alter f id (session t);
                      stored := stored t; log := log t;
                      document := document t |}).

Definition commit : Exec Task unit :=
  do_ modify (fun t => {| session := session t;
                          stored := session t ∪ stored t;
                          log := log t; document := document t |});
  emit EvCommit.

(** [db.close()] *)
Definition close : Exec Task unit :=
  modify (fun t => {| session := ∅; stored := stored t; log := log t;
                      document := document t |}).

Definition set_extracted_text (v : option string) (d : Document) : Document :=
  {| file_path := file_path d; extracted_text := v; status := status d;
     processing_progress := processing_progress d;
     error_message := error_message d |}.

Definition set_status (v : string) (d : Document) : Document :=
  {| file_path := file_path d; extracted_text := extracted_text d;
     status := v; processing_progress := processing_progress d;
     error_message := error_message d |}.

Definition set_processing_progress (v : Q) (d : Document) : Document :=
  {| file_path := file_path d; extracted_text := extracted_text d;
     status := status d; processing_progress := v;
     error_message := error_message d |}.

Definition set_error_message (v : option string) (d : Document) : Document :=
  {| file_path := file_path d; extracted_text := extracted_text d;
     status := status d; processing_progress := processing_progress d;
     error_message := v |}.

(** [int((i / total_documents) * 100)] *)
Definition batch_progress (i total_documents : Z) : Outcome Z :=
  match Float64.truediv i total_documents with
  | Raise e => Raise e
  | Return q => Float64.to_int (Float64.mul q (Float64.of_int 100))
  end.

(** [len(s)] *)
Definition len (s : string) : Z := Z.of_nat (String.length s).

(** The [try] block of the loop body (lines 77-106). *)
Definition process_item_try (fs : FileSystem) (total_documents : Z)
    (i document_id : Z) (results : list Entry) : Exec Task (list Entry) :=
  do progress <- lift (batch_progress i total_documents);
  do_ emit (EvUpdateState
        {| progress := progress;
           status_text := "Processing document " +:+ pretty (i + 1)
                          +:+ "/" +:+ pretty total_documents;
           current_document := document_id |});
  do document <- query_first document_id;
  match document with
  | None =>
      ret (results ++ [{| entry_document_id := document_id;
                          entry_status := "not_found";
                          text_length := None; error := None |}])
  | Some d =>
      do_ emit (EvExtract (file_path d));
      do extracted_text <- lift (extract_text fs (file_path d));
      do_ setattr document_id (set_extracted_text (Some extracted_text));
      do_ setattr document_id (set_status "completed");
      do_ setattr document_id (set_processing_progress 100);
      ret (results ++ [{| entry_document_id := document_id;
                          entry_status := "completed";
                          text_length := Some (len extracted_text);
                          error := None |}])
  end.

(** The [except Exception as e] block of the loop body (lines 108-118). *)
Definition process_item_except (document_id : Z) (results : list Entry)
    (e : Exn) : Exec Task (list Entry) :=
  do local <- gets document;
  do_ (match local with
       | Unbound => ret tt
       | Bound (Some id) =>
           do_ setattr id (set_status "failed");
           setattr id (set_error_message (Some (str e)))
       | Bound None =>
           raise (AttributeError
                    "'NoneType' object has no attribute 'status'")
       end);
  ret (results ++ [{| entry_document_id := document_id;
                      entry_status := "failed";
                      text_length := None; error := Some (str e) |}]).

(** [for i, document_id in enumerate(document_ids)] (lines 75-118). *)
Fixpoint for_documents (fs : FileSystem) (total_documents : Z) (i : Z)
    (document_ids : list Z) (results : list Entry)
  : Exec Task (list Entry) :=
  match document_ids with
  | [] => ret results
  | document_id :: rest =>
      do results' <-
        try_except
          (process_item_try fs total_documents i document_id results)
          (process_item_except document_id results);
      for_documents fs total_documents (i + 1) rest results'
  end.

(** [process_document_batch] (lines 63-133). *)
Definition process_document_batch (fs : FileSystem) (document_ids : list Z)
  : Exec Task BatchResult :=
  try_finally
    (try_except
       (let total_documents := Z.of_nat (length document_ids) in
        do results <- for_documents fs total_documents 0 document_ids [];
        do_ commit;
        ret {| total_documents := total_documents;
               results := results;
               result_status := "completed" |})
       (fun e => raise (Retry (str e))))
    close.

(** *** Observations on a run *)

(** The progress value an iteration reports. *)
Definition reported_progress (i total_documents : Z) : Z :=
  match batch_progress i total_documents with
  | Return p => p
  | Raise _ => 0
  end.

(** The entry an item contributes, given the path of its document. *)
Definition item_entry (fs : FileSystem) (path : option string) (id : Z)
  : Entry :=
  match path with
  | None =>
      {| entry_document_id := id; entry_status := "not_found";
         text_length := None; error := None |}
  | Some p =>
      match extract_text fs p with
      | Return text =>
          {| entry_document_id := id; entry_status := "completed";
             text_length := Some (len text); error := None |}
      | Raise e =>
          {| entry_document_id := id; entry_status := "failed";
             text_length := None; error := Some (str e) |}
      end
  end.

(** What an item leaves in the log. *)
Definition item_events (total_documents i id : Z) (path : option string)
  : list Event :=
  [EvUpdateState
     {| progress := reported_progress i total_documents;
        status_text := "Processing document " +:+ pretty (i + 1)
                       +:+ "/" +:+ pretty total_documents;
        current_document := id |};
   EvQuery id]
  ++ match path with
     | Some p => [EvExtract p]
     | None => []
     end.

Definition path_of (table : gmap Z Document) (id : Z) : option string :=
  file_path <$> table !! id.

Definition batch_entries (fs : FileSystem) (table : gmap Z Document)
    (document_ids : list Z) : list Entry :=
  map (fun id => item_entry fs (path_of table id) id) document_ids.

Fixpoint batch_events (table : gmap Z Document) (total_documents i : Z)
    (document_ids : list Z) : list Event :=
  match document_ids with
  | [] => []
  | id :: rest =>
      item_events total_documents i id (path_of table id)
      ++ batch_events table total_documents (i + 1) rest
  end.

(** The progress values a log shows reported, in order. *)
Definition reported (l : list Event) : list Z :=
  omap (fun e => match e with
                 | EvUpdateState meta => Some (progress meta)
                 | _ => None
                 end) l.

(** While the loop runs nothing is committed, and a loaded document
    keeps the path of its row. *)
Definition consistent (table : gmap Z Document) (t : Task) : Prop :=
  stored t = table /\
  forall id d, session t !! id = Some d ->
    exists d0, table !! id = Some d0 /\ file_path d = file_path d0.

End DocumentTasks.

(** ** Sample records for the scenarios of the specification *)

Module Scenarios.

Import WorkflowService.

Definition step (id type : string) (position : Z) : StepData :=
  {| step_id := Some id; step_type := Some type;
     config := Some ∅; order := Some position |}.

Definition workflow (steps : list StepData) : Workflow :=
  {| name := "pipeline"; steps := Some steps; is_active := true;
     total_runs := 0; successful_runs := 0; failed_runs := 0 |}.

Definition extract_then_notify : Workflow :=
  workflow [step "s1" "text_extraction" 1; step "s2" "notification" 2].

Definition analyse_then_notify : Workflow :=
  workflow [step "s1" "ai_analysis" 1; step "s2" "notification" 2].

Definition with_unknown_step : Workflow :=
  workflow [step "s1" "translate" 1; step "s2" "notification" 2].

Definition workflows : gmap Z Workflow :=
  {[ 1 := extract_then_notify; 2 := analyse_then_notify;
     3 := with_unknown_step ]}.

(** [workflow_service.py] as it would be with [import asyncio]. *)
Definition self_with_asyncio : StepHandlers :=
  handlers_in ("asyncio" :: module_globals).

(** A job as [create_job] persists it. *)
Definition job (type : string) : ProcessingService.Job :=
  {| ProcessingService.job_id := "3f2b6c1e-job";
     ProcessingService.job_type := type;
     ProcessingService.status := ProcessingService.PENDING;
     ProcessingService.progress := 0;
     ProcessingService.output_data := [];
     ProcessingService.error_message := None;
     ProcessingService.started_at := None;
     ProcessingService.completed_at := None;
     ProcessingService.duration_seconds := None;
     ProcessingService.document_id := Some 7;
     ProcessingService.workflow_id := None;
     ProcessingService.created_at := 0 |}.

Definition jobs : gmap Z ProcessingService.Job :=
  {[ 1 := job "text_extraction"; 2 := job "categorization";
     3 := job "archive" ]}.

(** The same job once it has run to completion. *)
Definition finished_job : ProcessingService.Job :=
  ProcessingService.set_status ProcessingService.COMPLETED
    (ProcessingService.set_progress 100 (job "text_extraction")).

Definition archive : gmap Z ProcessingService.Job :=
  {[ 1 := finished_job ]}.


(** A clock that advances one second per reading. *)
Definition seconds (n : nat) : Z := Z.of_nat n * 1000000.

Definition document (path : string) : DocumentTasks.Document :=
  {| DocumentTasks.file_path := path;
     DocumentTasks.extracted_text := None;
     DocumentTasks.status := "uploaded";
     DocumentTasks.processing_progress := 0;
     DocumentTasks.error_message := None |}.

(** Documents 1 and 3 exist, document 2 does not. *)
Definition documents : gmap Z DocumentTasks.Document :=
  {[ 1 := document "uploads/a.txt"; 3 := document "uploads/c.pdf" ]}.

(** A disk that holds both files; the PDF reader fails on the second. *)
Definition disk : TextExtractionService.FileSystem :=
  {| TextExtractionService.path_exists :=
       fun p => bool_decide (p ∈ ["uploads/a.txt"; "uploads/c.pdf"]);
     TextExtractionService.extract_by_extension :=
       fun p => if bool_decide (p = "uploads/a.txt")
                then Return "hello"
                else Raise (Exception "Error reading PDF: EOF") |}.

End Scenarios.

(** ** Sequences of workflow runs *)

Module WorkflowRuns.

Import WorkflowService.

(** One run of [execute_workflow]: the handlers of the service object
    that serves it, and the workflow id. *)
Definition Run : Type := StepHandlers * Z.

(** The table after a run on a session of its own. *)
Definition run (table : gmap Z Workflow) (r : Run) : gmap Z Workflow :=
  attempt r.1 r.2 table.

(** Runs one after the other, each on the table the previous one left. *)
Definition runs (rs : list Run) (table : gmap Z Workflow) : gmap Z Workflow :=
  foldl run table rs.

(** How many of the runs are for workflow [id]. *)
Definition runs_of (id : Z) (rs : list Run) : Z :=
  Z.of_nat (length (filter (fun r : Run => r.2 = id) rs)).

(** Two step entries with the same [step_type] and the same [config]
    as the loop reads them ([step_data.get("config", {})]); their
    [step_id] and [order] may differ. *)
Definition same_work (s1 s2 : StepData) : Prop :=
  step_type s1 = step_type s2 /\
  default (∅ : Config) (config s1) = default ∅ (config s2).

End WorkflowRuns.

(** ** app/schemas/document.py: the job types *)

Module Schemas.


End Schemas.

(** ** app/api/v1/endpoints/processing.py *)

Module ProcessingEndpoints.

Import ProcessingService.

(** What a route function gives back to FastAPI: a body to serialise,
    or an [HTTPException] with its status code and detail. *)
Inductive Response (A : Type) : Type :=
| Body (a : A)
| HTTPException (status_code : Z) (detail : string).
Arguments Body {A} a.
Arguments HTTPException {A} status_code detail.

(** [cancel_processing_job] (lines 90-109).  An [HTTPException] raised
    in the [try] block passes through [except HTTPException: raise];
    any other exception is turned into a 500. *)
Definition cancel_processing_job (job_id : Z)
  : Exec Db (Response (list (string * string))) :=
  try_except
    (do success <- cancel_job job_id;
     if negb success then
       ret (HTTPException 404 "Processing job not found")
     else
       ret (Body [("message", "Processing job cancelled successfully")]))
    (fun e =>
       ret (HTTPException 500
              ("Error cancelling processing job: " +:+ str e))).

End ProcessingEndpoints.

(** ** app/services/text_extraction_service.py: the readers *)

Module TextExtractionReaders.

Import TextExtractionService.

(** What reading a text file as UTF-8 gives: the text, a
    [UnicodeDecodeError], or another exception. *)
Inductive Utf8Read : Type :=
| Utf8Text (text : string)
| UnicodeDecodeError
| Utf8Error (e : Exn).

(** The library calls behind the service: [os.path.exists],
    [os.path.splitext(p)[1].lower()], and the bodies of the four
    format-specific readers (PyPDF2, python-docx, aiofiles,
    PIL + pytesseract). *)
Record Libraries : Type := mkLibraries {
  exists_ : string -> bool;
  file_extension : string -> string;
  read_pdf : string -> Outcome string;
  read_docx : string -> Outcome string;
  read_utf8 : string -> Utf8Read;
  read_latin1 : string -> Outcome string;
  read_image : string -> Outcome string
}.

(** [try: body  except Exception as e: raise Exception(f"<prefix>{e}")] *)
Definition wrap (prefix : string) (o : Outcome string) : Outcome string :=
  match o with
  | Return text => Return text
  | Raise e => Raise (Exception (prefix +:+ str e))
  end.

(** [_extract_from_pdf] (lines 45-58). *)
Definition _extract_from_pdf (lib : Libraries) (file_path : string)
  : Outcome string :=
  wrap "Error reading PDF: " (read_pdf lib file_path).

(** [_extract_from_docx] (lines 60-71). *)
Definition _extract_from_docx (lib : Libraries) (file_path : string)
  : Outcome string :=
  wrap "Error reading DOCX: " (read_docx lib file_path).

(** [_extract_from_txt] (lines 73-86): UTF-8 first, Latin-1 when the
    file does not decode. *)
Definition _extract_from_txt (lib : Libraries) (file_path : string)
  : Outcome string :=
  match read_utf8 lib file_path with
  | Utf8Text text => Return text
  | UnicodeDecodeError =>
      wrap "Error reading TXT file: " (read_latin1 lib file_path)
  | Utf8Error e => Raise (Exception ("Error reading TXT file: " +:+ str e))
  end.

(** [_extract_from_image] (lines 88-99). *)
Definition _extract_from_image (lib : Libraries) (file_path : string)
  : Outcome string :=
  wrap "Error extracting text from image: " (read_image lib file_path).

(** The body of the [try] block of [extract_text] (lines 30-39). *)
Definition dispatch (lib : Libraries) (file_path : string) : Outcome string :=
  let file_extension := file_extension lib file_path in
  if bool_decide (file_extension = ".pdf") then
    _extract_from_pdf lib file_path
  else if bool_decide (file_extension ∈ [".docx"; ".doc"]) then
    _extract_from_docx lib file_path
  else if bool_decide (file_extension = ".txt") then
    _extract_from_txt lib file_path
  else if bool_decide
            (file_extension ∈ [".jpg"; ".jpeg"; ".png"; ".tiff"; ".bmp"]) then
    _extract_from_image lib file_path
  else Raise (ValueError ("Unsupported file type: " +:+ file_extension)).

(** The service on top of these libraries. *)
Definition file_system (lib : Libraries) : FileSystem :=
  {| path_exists := exists_ lib; extract_by_extension := dispatch lib |}.

(** [get_supported_formats] (lines 101-106). *)
Definition get_supported_formats : list string :=
  [".pdf"; ".docx"; ".doc"; ".txt"; ".jpg"; ".jpeg"; ".png"; ".tiff"; ".bmp"].

End TextExtractionReaders.

(** ** app/tasks/document_tasks.py: the single-document task *)

Module ExtractTextTask.

Import TextExtractionService.
Import DocumentTasks.

(** The [meta] of a [self.update_state(state='PROGRESS', ...)] call. *)
Record Meta : Type := mkMeta {
  progress : Z;
  status_text : string
}.

(** The returned dictionary. *)
Record Result : Type := mkResult {
  result_document_id : Z;
  extracted_text_length : Z;
  result_status : string
}.

Inductive Event : Type :=
| EvUpdateState (meta : Meta)
| EvQuery (document_id : Z)
| EvExtract (file_path : string)
| EvCommit.

Record Task : Type := mkTask {
  session : gmap Z Document;
  stored : gmap Z Document;
  log : list Event;
  document : Local
}.

Definition start (table : gmap Z Document) : Task :=
  {| session := ∅; stored := table; log := []; document := Unbound |}.

Definition emit (e : Event) : Exec Task unit :=
  modify (fun t => {| session := session t; stored := stored t;
                      log := log t ++ [e]; document := document t |}).

(** [document = db.query(Document).filter(Document.id == id).first()] *)
Definition query_first (id : Z) : Exec Task (option Document) :=
  do_ emit (EvQuery id);
  fun t =>
    match session t !! id with
    | Some d =>
        (Return (Some d),
         {| session := session t; stored := stored t; log := log t;
            document := Bound (Some id) |})
    | None =>
        match stored t !! id with
        | Some d =>
            (Return (Some d),
             {| session := <[id := d]> (session t); stored := stored t;
                log := log t; document := Bound (Some id) |})
        | None =>
            (Return None,
             {| session := session t; stored := stored t; log := log t;
                document := Bound None |})
        end
    end.

Definition setattr (id : Z) (f : Document -> Document) : Exec Task unit :=
  modify (fun t => {| session := alter f id (session t);
                      stored := stored t; log := log t;
                      document := document t |}).

Definition commit : Exec Task unit :=
  do_ modify (fun t => {| session := session t;
                          stored := session t ∪ stored t;
                          log := log t; document := document t |});
  emit EvCommit.

(** [db.close()] *)
Definition close : Exec Task unit :=
  modify (fun t => {| session := ∅; stored := stored t; log := log t;
                      document := document t |}).

(** [raise self.retry(exc=e, countdown=60, max_retries=3)] in a worker
    whose request has been retried [retries] times: Celery raises
    [Retry], or [exc] itself once the retries are used up. *)
Definition retry {A} (retries : Z) (exc : Exn) : Exec Task A :=
  if bool_decide (retries + 1 > 3) then raise exc
  else raise (Retry (str exc)).

(** The [try] block (lines 19-49). *)
Definition extract_text_from_document_try (fs : FileSystem)
    (document_id : Z) : Exec Task Result :=
  do document <- query_first document_id;
  match document with
  | None =>
      raise (ValueError ("Document " +:+ pretty document_id
                         +:+ " not found"))
  | Some d =>
      do_ emit (EvUpdateState
            {| progress := 10; status_text := "Starting text extraction" |});
      do_ emit (EvExtract (file_path d));
      do extracted_text <- lift (extract_text fs (file_path d));
      do_ emit (EvUpdateState
            {| progress := 80; status_text := "Saving extracted text" |});
      do_ setattr document_id (set_extracted_text (Some extracted_text));
      do_ setattr document_id (set_status "completed");
      do_ setattr document_id (set_processing_progress 100);
      do_ commit;
      do_ emit (EvUpdateState
            {| progress := 100;
               status_text := "Text extraction completed" |});
      ret {| result_document_id := document_id;
             extracted_text_length := len extracted_text;
             result_status := "completed" |}
  end.

(** The [except Exception as e] block (lines 51-58). *)
Definition extract_text_from_document_except (retries : Z) (e : Exn)
  : Exec Task Result :=
  do local <- gets document;
  do_ (match local with
       | Unbound => ret tt
       | Bound (Some id) =>
           do_ setattr id (set_status "failed");
           do_ setattr id (set_error_message (Some (str e)));
           commit
       | Bound None =>
           raise (AttributeError
                    "'NoneType' object has no attribute 'status'")
       end);
  retry retries e.

(** [extract_text_from_document] (lines 13-61). *)
Definition extract_text_from_document (fs : FileSystem) (retries : Z)
    (document_id : Z) : Exec Task Result :=
  try_finally
    (try_except (extract_text_from_document_try fs document_id)
                (extract_text_from_document_except retries))
    close.

(** *** Observations *)

(** The progress values a log shows reported, in order. *)
Definition reported (l : list Event) : list Z :=
  omap (fun e => match e with
                 | EvUpdateState meta => Some (progress meta)
                 | _ => None
                 end) l.

(** A document as either task leaves it after trying to extract its
    text. *)
Definition processed (fs : FileSystem) (d : Document) : Document :=
  match extract_text fs (file_path d) with
  | Return text =>
      set_processing_progress 100
        (set_status "completed" (set_extracted_text (Some text) d))
  | Raise e => set_error_message (Some (str e)) (set_status "failed" d)
  end.

End ExtractTextTask.

(** ** app/services/workflow_service.py: reading and changing workflows *)

Module WorkflowAdmin.

Import WorkflowService (Config, StepData).

(** The columns of [app.models.document.Workflow] (lines 96-120).  A
    column can hold [None] in the Python object whatever its
    declaration says; what the table accepts is checked when the
    session commits. *)
Record Row : Type := mkRow {
  name : option string;
  description : option string;
  trigger_type : option string;
  trigger_config : option Config;
  steps : option (list StepData);
  is_active : option bool;
  total_runs : Z;
  successful_runs : Z;
  failed_runs : Z;
  organization_id : Z;
  created_at : Z;
  updated_at : option Z
}.

(** [self.db] with the wall clock, and the database's own check of a
    row that is written: its NOT NULL and length constraints. *)
Record Db : Type := mkDb {
  session : gmap Z Row;
  stored : gmap Z Row;
  commits : list (gmap Z Row);
  accepts : Row -> bool;
  clock : nat -> Z;
  ticks : nat
}.

Definition open_session (table : gmap Z Row) (accepts : Row -> bool)
    (clock : nat -> Z) : Db :=
  {| session := ∅; stored := table; commits := []; accepts := accepts;
     clock := clock; ticks := 0 |}.

Definition with_session (f : gmap Z Row -> gmap Z Row) (db : Db) : Db :=
  {| session := f (session db); stored := stored db;
     commits := commits db; accepts := accepts db;
     clock := clock db; ticks := ticks db |}.

(** [self.db.query(Workflow).filter(Workflow.id == id).first()] *)
Definition query_first (id : Z) : Exec Db (option Row) :=
  fun db =>
    match session db !! id with
    | Some r => (Return (Some r), db)
    | None =>
        match stored db !! id with
        | Some r => (Return (Some r), with_session (insert id r) db)
        | None => (Return None, db)
        end
    end.

(** [self.db.commit()]: the session's objects are written, unless the
    database refuses one of them; then the commit raises and the table
    stays as it was. *)
Definition commit : Exec Db unit :=
  fun db =>
    if bool_decide (map_Forall (fun _ r => accepts db r = true) (session db))
    then
      let table := session db ∪ stored db in
      (Return tt,
       {| session := session db; stored := table;
          commits := commits db ++ [table]; accepts := accepts db;
          clock := clock db; ticks := ticks db |})
    else (Raise (Exception "IntegrityError"), db).

(** [datetime.utcnow()] *)
Definition utcnow : Exec Db Z :=
  fun db =>
    (Return (clock db (ticks db)),
     {| session := session db; stored := stored db;
        commits := commits db; accepts := accepts db;
        clock := clock db; ticks := Datatypes.S (ticks db) |}).

(** [setattr(workflow, field, value)] on the loaded object. *)
Definition setattr (id : Z) (f : Row -> Row) : Exec Db unit :=
  modify (with_session (alter f id)).

(** The loaded object itself. *)
Definition loaded_object (id : Z) : Exec Db Row :=
  do row <- gets (fun db => session db !! id);
  match row with
  | Some r => ret r
  | None => raise (Exception "detached row")
  end.

Definition set_name (v : option string) (r : Row) : Row :=
  {| name := v; description := description r;
     trigger_type := trigger_type r; trigger_config := trigger_config r;
     steps := steps r; is_active := is_active r;
     total_runs := total_runs r; successful_runs := successful_runs r;
     failed_runs := failed_runs r; organization_id := organization_id r;
     created_at := created_at r; updated_at := updated_at r |}.

Definition set_description (v : option string) (r : Row) : Row :=
  {| name := name r; description := v;
     trigger_type := trigger_type r; trigger_config := trigger_config r;
     steps := steps r; is_active := is_active r;
     total_runs := total_runs r; successful_runs := successful_runs r;
     failed_runs := failed_runs r; organization_id := organization_id r;
     created_at := created_at r; updated_at := updated_at r |}.

Definition set_trigger_type (v : option string) (r : Row) : Row :=
  {| name := name r; description := description r;
     trigger_type := v; trigger_config := trigger_config r;
     steps := steps r; is_active := is_active r;
     total_runs := total_runs r; successful_runs := successful_runs r;
     failed_runs := failed_runs r; organization_id := organization_id r;
     created_at := created_at r; updated_at := updated_at r |}.

Definition set_trigger_config (v : option Config) (r : Row) : Row :=
  {| name := name r; description := description r;
     trigger_type := trigger_type r; trigger_config := v;
     steps := steps r; is_active := is_active r;
     total_runs := total_runs r; successful_runs := successful_runs r;
     failed_runs := failed_runs r; organization_id := organization_id r;
     created_at := created_at r; updated_at := updated_at r |}.

Definition set_steps (v : option (list StepData)) (r : Row) : Row :=
  {| name := name r; description := description r;
     trigger_type := trigger_type r; trigger_config := trigger_config r;
     steps := v; is_active := is_active r;
     total_runs := total_runs r; successful_runs := successful_runs r;
     failed_runs := failed_runs r; organization_id := organization_id r;
     created_at := created_at r; updated_at := updated_at r |}.

Definition set_is_active (v : option bool) (r : Row) : Row :=
  {| name := name r; description := description r;
     trigger_type := trigger_type r; trigger_config := trigger_config r;
     steps := steps r; is_active := v;
     total_runs := total_runs r; successful_runs := successful_runs r;
     failed_runs := failed_runs r; organization_id := organization_id r;
     created_at := created_at r; updated_at := updated_at r |}.

Definition set_updated_at (v : option Z) (r : Row) : Row :=
  {| name := name r; description := description r;
     trigger_type := trigger_type r; trigger_config := trigger_config r;
     steps := steps r; is_active := is_active r;
     total_runs := total_runs r; successful_runs := successful_runs r;
     failed_runs := failed_runs r; organization_id := organization_id r;
     created_at := created_at r; updated_at := v |}.

(** [WorkflowService.get_workflow] (lines 39-45); [from_orm] is
    [WorkflowResponse.from_orm], which validates the object and may
    raise. *)
Definition get_workflow {R} (from_orm : Z -> Row -> Outcome R)
    (workflow_id : Z) : Exec Db (option R) :=
  do workflow <- query_first workflow_id;
  match workflow with
  | None => ret None
  | Some row =>
      do response <- lift (from_orm workflow_id row);
      ret (Some response)
  end.

(** [Workflow.is_active == True] as the database evaluates it: a NULL
    flag does not match. *)
Definition active (kr : Z * Row) : Prop := is_active kr.2 = Some true.

#[global] Instance active_dec kr : Decision (active kr).
Proof. unfold active. apply _. Defined.

(** The rows that
    [self.db.query(Workflow).filter(Workflow.is_active == True).all()]
    selects, with their ids, on a session that holds no uncommitted
    object.  The database fixes no order; the model lists them in the
    order of the map. *)
Definition active_rows (table : gmap Z Row) : list (Z * Row) :=
  filter active (map_to_list table).

(** [[f(x) for x in xs]]: the first call that raises ends the
    comprehension. *)
Fixpoint comprehension {A B} (f : A -> Outcome B) (xs : list A)
  : Outcome (list B) :=
  match xs with
  | [] => Return []
  | x :: rest =>
      match f x with
      | Raise e => Raise e
      | Return y =>
          match comprehension f rest with
          | Raise e => Raise e
          | Return ys => Return (y :: ys)
          end
      end
  end.

(** [WorkflowService.list_workflows] (lines 47-50). *)
Definition list_workflows {R} (from_orm : Z -> Row -> Outcome R)
  : Exec Db (list R) :=
  do table <- gets stored;
  let workflows := active_rows table in
  do_ modify (with_session (fun s => s ∪ list_to_map workflows));
  lift (comprehension (fun kr => from_orm kr.1 kr.2) workflows).

(** An element of [update_data["steps"]]: a [WorkflowStep] model, or
    the plain dict that [WorkflowUpdate.dict()] has already made of
    it (pydantic converts nested models along with the outer one). *)
Inductive StepValue : Type :=
| StepModel (fields : StepData)
| StepDict (fields : StepData).

(** [step.dict()]: a method of the model, not of a dict. *)
Definition dict (step : StepValue) : Outcome StepData :=
  match step with
  | StepModel fields => Return fields
  | StepDict _ =>
      Raise (AttributeError "'dict' object has no attribute 'dict'")
  end.

(** [workflow_update.dict(exclude_unset=True)]: for each field of
    [WorkflowUpdate] (schemas, lines 132-139) either no entry, or the
    value the request gave, which can be [None]. *)
Record UpdateData : Type := mkUpdate {
  upd_name : option (option string);
  upd_description : option (option string);
  upd_trigger_type : option (option string);
  upd_trigger_config : option (option Config);
  upd_steps : option (option (list StepValue));
  upd_is_active : option (option bool)
}.

(** Lines 65-67: a steps entry that is present and truthy is replaced
    by [[step.dict() for step in ...]]. *)
Definition convert_steps (entry : option (option (list StepValue)))
  : Outcome (option (option (list StepData))) :=
  match entry with
  | Some (Some (step :: rest)) =>
      match comprehension dict (step :: rest) with
      | Return l => Return (Some (Some l))
      | Raise e => Raise e
      end
  | Some (Some []) => Return (Some (Some []))
  | Some None => Return (Some None)
  | None => Return None
  end.

(** [update_data.items()] after the conversion, as assignments. *)
Definition items (u : UpdateData)
    (steps : option (option (list StepData))) : list (Row -> Row) :=
  omap (fun x => x)
    [set_name <$> upd_name u;
     set_description <$> upd_description u;
     set_trigger_type <$> upd_trigger_type u;
     set_trigger_config <$> upd_trigger_config u;
     set_steps <$> steps;
     set_is_active <$> upd_is_active u].

(** [for field, value in update_data.items(): setattr(...)] *)
Fixpoint for_items (id : Z) (assignments : list (Row -> Row))
  : Exec Db unit :=
  match assignments with
  | [] => ret tt
  | f :: rest => do_ setattr id f; for_items id rest
  end.

(** [WorkflowService.update_workflow] (lines 52-76), from the point
    where [update_data] has been taken from the request;
    [self.db.refresh] reloads what the commit has just written. *)
Definition update_workflow {R} (from_orm : Z -> Row -> Outcome R)
    (workflow_id : Z) (update_data : UpdateData) : Exec Db (option R) :=
  do workflow <- query_first workflow_id;
  match workflow with
  | None => ret None
  | Some _ =>
      do steps <- lift (convert_steps (upd_steps update_data));
      do_ for_items workflow_id (items update_data steps);
      do now <- utcnow;
      do_ setattr workflow_id (set_updated_at (Some now));
      do_ commit;
      do row <- loaded_object workflow_id;
      do response <- lift (from_orm workflow_id row);
      ret (Some response)
  end.

(** [WorkflowService.delete_workflow] (lines 78-89). *)
Definition delete_workflow (workflow_id : Z) : Exec Db bool :=
  do workflow <- query_first workflow_id;
  match workflow with
  | None => ret false
  | Some _ =>
      do_ setattr workflow_id (set_is_active (Some false));
      do now <- utcnow;
      do_ setattr workflow_id (set_updated_at (Some now));
      do_ commit;
      ret true
  end.

(** *** Observations *)

(** The row as [update_workflow] writes it at time [now]. *)
Definition updated (u : UpdateData)
    (steps : option (option (list StepData))) (now : Z) (r : Row) : Row :=
  set_updated_at (Some now) (foldl (fun r f => f r) r (items u steps)).

(** The row as [delete_workflow] writes it at time [now]. *)
Definition deleted (now : Z) (r : Row) : Row :=
  set_updated_at (Some now) (set_is_active (Some false) r).

(** An update that names no field. *)
Definition no_change : UpdateData :=
  {| upd_name := None; upd_description := None; upd_trigger_type := None;
     upd_trigger_config := None; upd_steps := None; upd_is_active := None |}.

(** The constraints that the model class declares with
    [nullable=False] on columns a request can set to [None]. *)
Definition declared_not_null (r : Row) : bool :=
  bool_decide (is_Some (name r)) && bool_decide (is_Some (trigger_type r)).

End WorkflowAdmin.

(** * Facts about the workflow runner *)

Section WorkflowFacts.

Import WorkflowService.

Implicit Types (self : StepHandlers) (db : Db) (id : Z) (w : Workflow).
Implicit Types (l : list Event) (σ τ : gmap Z Workflow).

Lemma add_log_nil db : add_log [] db = db.
Proof. destruct db; unfold add_log; simpl. by rewrite app_nil_r. Qed.

Lemma add_log_loaded id w σ τ l l' :
  add_log l' (loaded id w σ τ l) = loaded id w σ τ (l ++ l').
Proof. done. Qed.

(** [_execute_step] returns the boolean [step_result] and logs the
    handler it awaited; it never raises. *)
Lemma execute_step_spec self st cfg db :
  _execute_step self st cfg db
  = (Return (step_result self st cfg), add_log (step_events st) db).
Proof.
  unfold _execute_step, step_result, try_except, await_handler, emit.
  destruct st as [t|]; simpl.
  2: { by rewrite add_log_nil. }
  unfold step_events, known_step_types.
  repeat case_bool_decide; simplify_eq; simpl;
    unfold bind, modify, lift, ret, add_log; simpl;
    try match goal with
        | |- context [match ?o with Return _ => _ | Raise _ => _ end] =>
            destruct o; simpl
        end; try done.
  all: try (by rewrite app_nil_r; destruct db).
  all: try match goal with
       | H : _ ∉ _ |- _ => exfalso; apply H; rewrite !elem_of_cons; tauto
       end.
  exfalso. rewrite !elem_of_cons, elem_of_nil in *. intuition congruence.
Qed.

Lemma query_first_view db id :
  query_first id db =
  match view db id with
  | Some w => (Return (Some w), loaded id w (session db) (stored db) (log db))
  | None => (Return None, db)
  end.
Proof.
  unfold query_first, view, loaded.
  destruct (session db !! id) as [w|] eqn:Hs.
  - rewrite insert_id by done. by destruct db.
  - by destruct (stored db !! id).
Qed.

Lemma incr_loaded c id w σ τ l :
  incr c id (loaded id w σ τ l)
  = (Return tt, loaded id (bump c w) σ τ (l ++ [EvIncr c id])).
Proof.
  unfold incr, emit, bind, modify, loaded; simpl.
  by rewrite alter_insert_eq.
Qed.

Lemma commit_loaded id w σ τ l :
  commit (loaded id w σ τ l) = (Return tt, committed id w σ τ l).
Proof. done. Qed.

(** The loop either falls through with every handler awaited, or
    returns at the first failing step after bumping [failed_runs] and
    committing. *)
Lemma for_steps_spec self id steps w σ τ l :
  for_steps self id steps (loaded id w σ τ l) =
  if forallb (step_ok self) steps then
    (Return Fallthrough, loaded id w σ τ (l ++ steps_events steps))
  else
    (Return Returned,
     committed id (bump FailedRuns w) σ τ
       (l ++ steps_events (executed self steps) ++ [EvIncr FailedRuns id])).
Proof.
  revert l. induction steps as [|s rest IH]; intros l; simpl.
  - unfold ret, steps_events; simpl. by rewrite app_nil_r.
  - unfold bind at 1. rewrite execute_step_spec, add_log_loaded.
    fold (step_ok self s). destruct (step_ok self s) eqn:Hok; simpl.
    + rewrite IH. unfold steps_events; simpl.
      destruct (forallb (step_ok self) rest); by rewrite <- !app_assoc.
    + unfold bind. rewrite incr_loaded, commit_loaded.
      unfold ret, steps_events; simpl. by rewrite app_nil_r, <- !app_assoc.
Qed.

Lemma executed_all self (steps : list StepData) :
  forallb (step_ok self) steps = true -> executed self steps = steps.
Proof.
  induction steps as [|s rest IH]; simpl; [done|].
  destruct (step_ok self s); simpl; [|done]. intros H. by rewrite IH.
Qed.

(** The whole of [execute_workflow] in closed form. *)
Lemma execute_workflow_spec self id db :
  execute_workflow self id db =
  match view db id with
  | None => (Return tt, db)
  | Some w =>
      (Return tt,
       committed id (bump (verdict self w) (bump TotalRuns w))
         (session db) (stored db) (log db ++ run_log self id w))
  end.
Proof.
  unfold execute_workflow, execute_workflow_try, try_except.
  unfold bind at 1. rewrite query_first_view.
  destruct (view db id) as [w|]; [|done].
  unfold bind at 1. rewrite incr_loaded.
  unfold bind at 1. unfold iter.
  unfold run_log, verdict, reached.
  destruct (steps w) as [steps|] eqn:Hsteps; simpl.
  - unfold ret at 1. unfold bind at 1.
    fold (loaded id (bump TotalRuns w) (session db) (stored db)
            (log db ++ [EvIncr TotalRuns id])).
    rewrite for_steps_spec.
    destruct (forallb (step_ok self) steps) eqn:Hall.
    + unfold bind. rewrite incr_loaded, commit_loaded.
      rewrite executed_all by done. by rewrite <- !app_assoc.
    + unfold ret. by rewrite <- !app_assoc.
  - unfold execute_workflow_except.
    unfold bind at 1, gets at 1. simpl. rewrite lookup_insert_eq.
    fold (loaded id (bump TotalRuns w) (session db) (stored db)
            (log db ++ [EvIncr TotalRuns id])).
    unfold bind. rewrite incr_loaded, commit_loaded.
    unfold steps_events; simpl. by rewrite <- !app_assoc.
Qed.

Lemma execute_workflow_returns self id db :
  outcome (execute_workflow self id) db = Return tt.
Proof.
  unfold outcome. rewrite execute_workflow_spec.
  by destruct (view db id).
Qed.

Lemma committed_stored id w σ τ l :
  stored (committed id w σ τ l) !! id = Some w.
Proof.
  unfold committed; simpl.
  apply lookup_union_Some_l, lookup_insert_eq.
Qed.

Lemma committed_view id w σ τ l : view (committed id w σ τ l) id = Some w.
Proof. unfold view, committed; simpl. by rewrite lookup_insert_eq. Qed.

Lemma bump_verdict self w0 w :
  let w' := bump (verdict self w0) (bump TotalRuns w) in
  total_runs w' = total_runs w + 1 /\
  (successful_runs w' = successful_runs w + 1 /\
     failed_runs w' = failed_runs w
   \/ successful_runs w' = successful_runs w /\
      failed_runs w' = failed_runs w + 1).
Proof.
  cbv zeta. unfold verdict.
  destruct (steps w0) as [steps|]; [destruct (forallb _ steps)|];
    simpl; tauto.
Qed.

Lemma attempt_lookup self id (table : gmap Z Workflow) w :
  table !! id = Some w ->
  attempt self id table !! id
  = Some (bump (verdict self w) (bump TotalRuns w)).
Proof.
  intros Hw. unfold attempt, exec. rewrite execute_workflow_spec.
  assert (view (open_session table) id = Some w) as ->.
  { unfold view, open_session; simpl. by rewrite lookup_empty. }
  apply committed_stored.
Qed.

Lemma attempts_counters (selves : list StepHandlers) :
  forall id (table : gmap Z Workflow) w,
  table !! id = Some w ->
  exists w', attempts selves id table !! id = Some w' /\
    total_runs w' = total_runs w + Z.of_nat (length selves) /\
    successful_runs w' + failed_runs w'
    = successful_runs w + failed_runs w + Z.of_nat (length selves).
Proof.
  induction selves as [|self rest IH]; intros id table w Hw.
  - exists w. simpl. split; [done|]. lia.
  - simpl. pose proof (attempt_lookup self id table w Hw) as H1.
    destruct (IH id _ _ H1) as (w' & Hw' & Ht & Hs).
    exists w'. split; [done|].
    destruct (bump_verdict self w w) as (Ht1 & Hs1).
    rewrite Ht, Hs. rewrite Ht1. split; [lia|].
    destruct Hs1 as [[-> ->]|[-> ->]]; lia.
Qed.

Lemma handler_calls_app l1 l2 :
  handler_calls (l1 ++ l2) = handler_calls l1 ++ handler_calls l2.
Proof. apply omap_app. Qed.

Lemma steps_events_app (l1 l2 : list StepData) :
  steps_events (l1 ++ l2) = steps_events l1 ++ steps_events l2.
Proof. unfold steps_events. by rewrite map_app, concat_app. Qed.

Lemma executed_first_failure self (pre post : list StepData) s :
  forallb (step_ok self) pre = true -> step_ok self s = false ->
  forallb (step_ok self) (pre ++ s :: post) = false /\
  executed self (pre ++ s :: post) = pre ++ [s].
Proof.
  intros Hpre Hs. induction pre as [|p pre IH]; simpl in *.
  - by rewrite Hs.
  - apply andb_prop in Hpre as [Hp Hpre]. rewrite Hp. simpl.
    destruct (IH Hpre) as [-> ->]. done.
Qed.

Lemma run_log_calls self id w :
  handler_calls (run_log self id w) = handled (reached self w).
Proof.
  unfold run_log, handled. simpl. rewrite handler_calls_app. simpl.
  by rewrite app_nil_r.
Qed.

(** C1. A call of [execute_workflow] returns; for an absent workflow id
    it leaves the session, the table and the log as they were; for a
    present one the committed row has [total_runs] one higher and
    exactly one of [successful_runs], [failed_runs] one higher, the
    other unchanged, so no counter decreases.  From zeroed counters, N
    attempts on an existing workflow leave [total_runs = N] and
    [successful_runs + failed_runs = N]. *)
Theorem execute_workflow_counters
    (self : StepHandlers) (selves : list StepHandlers)
    (db : Db) (table : gmap Z Workflow) (id : Z) :
  let db' := exec (execute_workflow self id) db in
  outcome (execute_workflow self id) db = Return tt /\
  (view db id = None -> db' = db) /\
  (forall w, view db id = Some w ->
     exists w', stored db' !! id = Some w' /\ view db' id = Some w' /\
       total_runs w' = total_runs w + 1 /\
       (successful_runs w' = successful_runs w + 1 /\
          failed_runs w' = failed_runs w
        \/ successful_runs w' = successful_runs w /\
           failed_runs w' = failed_runs w + 1)) /\
  (forall w, table !! id = Some w ->
     total_runs w = 0 -> successful_runs w = 0 -> failed_runs w = 0 ->
     exists w', attempts selves id table !! id = Some w' /\
       total_runs w' = Z.of_nat (length selves) /\
       successful_runs w' + failed_runs w' = Z.of_nat (length selves)).
Proof.
  cbv zeta. split; [apply execute_workflow_returns|].
  unfold exec. rewrite execute_workflow_spec.
  split; [by intros ->|]. split.
  - intros w ->. cbn [snd].
    exists (bump (verdict self w) (bump TotalRuns w)).
    split; [apply committed_stored|]. split; [apply committed_view|].
    apply bump_verdict.
  - intros w Hw Ht Hs Hf.
    destruct (attempts_counters selves id table w Hw) as (w' & ? & ? & ?).
    exists w'. split; [done|]. lia.
Qed.

Lemma execute_workflow_counters_witness :
  let db := open_session Scenarios.workflows in
  let selves := [self; Scenarios.self_with_asyncio; self] in
  (view db 9 = None /\ exec (execute_workflow self 9) db = db) /\
  (view db 1 = Some Scenarios.extract_then_notify /\
   exists w', stored (exec (execute_workflow self 1) db) !! 1 = Some w' /\
     view (exec (execute_workflow self 1) db) 1 = Some w' /\
     total_runs w' = 0 + 1 /\
     (successful_runs w' = 0 + 1 /\ failed_runs w' = 0
      \/ successful_runs w' = 0 /\ failed_runs w' = 0 + 1)) /\
  (Scenarios.workflows !! 1 = Some Scenarios.extract_then_notify /\
   exists w', attempts selves 1 Scenarios.workflows !! 1 = Some w' /\
     total_runs w' = 3 /\ successful_runs w' + failed_runs w' = 3).
Proof.
  cbv zeta. split; [|split].
  - split; [reflexivity|].
    apply (execute_workflow_counters self []
             (open_session Scenarios.workflows) Scenarios.workflows 9).
    reflexivity.
  - split; [reflexivity|].
    destruct (execute_workflow_counters self []
                (open_session Scenarios.workflows) Scenarios.workflows 1)
      as (_ & _ & H & _).
    exact (H Scenarios.extract_then_notify eq_refl).
  - split; [reflexivity|].
    destruct (execute_workflow_counters self
                [self; Scenarios.self_with_asyncio; self]
                (open_session Scenarios.workflows) Scenarios.workflows 1)
      as (_ & _ & _ & H).
    apply (H Scenarios.extract_then_notify); reflexivity.
Defined.

Lemma steps_events_handled (steps : list StepData) :
  steps_events steps = map EvHandler (handled steps).
Proof.
  unfold handled. induction steps as [|s rest IH]; [done|].
  change (steps_events (s :: rest))
    with (step_events (step_type s) ++ steps_events rest).
  rewrite handler_calls_app, map_app, <- IH. f_equal.
  unfold step_events. destruct (step_type s) as [t|]; [|done].
  by case_bool_decide.
Qed.

Lemma handled_known (s : StepData) t :
  step_type s = Some t -> t ∈ known_step_types -> handled [s] = [t].
Proof.
  intros Ht Hk. unfold handled, steps_events, step_events; simpl.
  rewrite Ht, bool_decide_eq_true_2 by done. done.
Qed.

Lemma step_ok_unknown self (s : StepData) :
  (forall t, step_type s = Some t -> t ∉ known_step_types) ->
  step_ok self s = false.
Proof.
  intros Hu. unfold step_ok, step_result.
  repeat case_bool_decide; try done;
    exfalso; eapply Hu; try eassumption;
    unfold known_step_types; rewrite !elem_of_cons; tauto.
Qed.

Lemma forallb_lookup_false {A} (f : A -> bool) (xs : list A) k x :
  xs !! k = Some x -> f x = false -> forallb f xs = false.
Proof.
  revert k. induction xs as [|y ys IH]; intros [|k] Hk Hx; simpl in *;
    simplify_eq.
  - by rewrite Hx.
  - rewrite (IH k) by done. apply andb_false_r.
Qed.

(** C2. The runner goes through the steps in stored order; when the
    steps before [s] succeed and [s] fails (its handler returns false
    or raises, or it has none), the run commits [failed_runs] one
    higher and [successful_runs] unchanged, and the handlers invoked are
    those of the steps up to [s], in order, and of no later step.  For
    steps [ai_analysis (failing); notification] the only handler
    invoked is that of [ai_analysis], and [failed_runs] goes from 0 to
    1. *)
Theorem stop_on_first_failure
    (self : StepHandlers) (db : Db) (id : Z) (w : Workflow)
    (pre post : list StepData) (s : StepData) :
  view db id = Some w ->
  steps w = Some (pre ++ s :: post) ->
  forallb (step_ok self) pre = true ->
  step_ok self s = false ->
  let db' := exec (execute_workflow self id) db in
  (exists w', stored db' !! id = Some w' /\
     total_runs w' = total_runs w + 1 /\
     failed_runs w' = failed_runs w + 1 /\
     successful_runs w' = successful_runs w) /\
  handler_calls (log db')
  = handler_calls (log db) ++ handled pre ++ handled [s] /\
  (forall sn, pre = [] -> post = [sn] ->
     step_type s = Some "ai_analysis" ->
     step_type sn = Some "notification" ->
     failed_runs w = 0 ->
     handler_calls (log db') = handler_calls (log db) ++ ["ai_analysis"] /\
     exists w', stored db' !! id = Some w' /\ failed_runs w' = 1 /\
       successful_runs w' = successful_runs w).
Proof.
  intros Hview Hsteps Hpre Hs. cbv zeta.
  destruct (executed_first_failure self pre post s Hpre Hs) as [Hall Hex].
  unfold exec. rewrite execute_workflow_spec, Hview. cbn [snd].
  assert (verdict self w = FailedRuns) as Hv.
  { unfold verdict. by rewrite Hsteps, Hall. }
  assert (reached self w = pre ++ [s]) as Hr.
  { unfold reached. by rewrite Hsteps. }
  rewrite Hv.
  assert (handler_calls
            (log (committed id (bump FailedRuns (bump TotalRuns w))
                    (session db) (stored db) (log db ++ run_log self id w)))
          = handler_calls (log db) ++ handled pre ++ handled [s]) as Hcalls.
  { unfold committed; cbn [log].
    rewrite !handler_calls_app, run_log_calls, Hr. simpl.
    rewrite app_nil_r. f_equal. unfold handled.
    by rewrite steps_events_app, handler_calls_app. }
  split; [|split].
  - eexists. split; [apply committed_stored|]. done.
  - exact Hcalls.
  - intros sn -> -> Hts Htn Hf. split.
    + rewrite Hcalls. f_equal. simpl. apply handled_known; [done|].
      unfold known_step_types. rewrite !elem_of_cons. tauto.
    + eexists. split; [apply committed_stored|]. simpl. split; [lia|done].
Qed.

Lemma stop_on_first_failure_witness :
  let db' := exec (execute_workflow self 2) (open_session Scenarios.workflows) in
  handler_calls (log db') = ["ai_analysis"] /\
  exists w', stored db' !! 2 = Some w' /\ failed_runs w' = 1 /\
    successful_runs w' = 0.
Proof.
  destruct (stop_on_first_failure self (open_session Scenarios.workflows) 2
              Scenarios.analyse_then_notify []
              [Scenarios.step "s2" "notification" 2]
              (Scenarios.step "s1" "ai_analysis" 1)
              eq_refl eq_refl eq_refl eq_refl) as (_ & _ & H).
  exact (H (Scenarios.step "s2" "notification" 2)
           eq_refl eq_refl eq_refl eq_refl eq_refl).
Defined.

(** C5, as stated, fails: running the workflow [text_extraction;
    notification] on a fresh session, the handler of the first step is
    invoked before any commit. *)
Lemma no_commit_before_first_step :
  commit_precedes_handlers
    (log (exec (execute_workflow self 1) (open_session Scenarios.workflows)))
  = false.
Proof. reflexivity. Qed.

(** C5, amended.  [execute_workflow] bumps [total_runs] on the loaded
    row at entry, before any handler is invoked, without committing it:
    the log of the run is that bump, the handler invocations, the bump
    of [successful_runs] or [failed_runs], and then the one commit of
    the run, which stores [total_runs] one higher. *)
Theorem total_runs_committed_at_end
    (self : StepHandlers) (db : Db) (id : Z) (w : Workflow) :
  view db id = Some w ->
  let db' := exec (execute_workflow self id) db in
  exists (calls : list string) (c : Counter) (w' : Workflow),
    log db' = log db ++ [EvIncr TotalRuns id] ++ map EvHandler calls
              ++ [EvIncr c id; EvCommit (stored db')] /\
    c <> TotalRuns /\
    stored db' !! id = Some w' /\
    total_runs w' = total_runs w + 1.
Proof.
  intros Hview. cbv zeta. unfold exec.
  rewrite execute_workflow_spec, Hview. cbn [snd].
  exists (handled (reached self w)), (verdict self w),
    (bump (verdict self w) (bump TotalRuns w)).
  split; [|split; [|split]].
  - unfold committed, run_log; cbn [log stored].
    rewrite steps_events_handled. by rewrite <- !app_assoc.
  - unfold verdict.
    destruct (steps w) as [steps|]; [destruct (forallb _ steps)|]; done.
  - apply committed_stored.
  - apply bump_verdict.
Qed.

Lemma total_runs_committed_at_end_witness :
  let db' := exec (execute_workflow self 1) (open_session Scenarios.workflows) in
  exists (calls : list string) (c : Counter) (w' : Workflow),
    log db' = [] ++ [EvIncr TotalRuns 1] ++ map EvHandler calls
              ++ [EvIncr c 1; EvCommit (stored db')] /\
    c <> TotalRuns /\
    stored db' !! 1 = Some w' /\
    total_runs w' = 0 + 1.
Proof.
  exact (total_runs_committed_at_end self
           (open_session Scenarios.workflows) 1
           Scenarios.extract_then_notify eq_refl).
Defined.

(** C6, on the code as it is.  The handlers evaluate [asyncio.sleep]
    in a module that never imports [asyncio]: the first handler raises
    [NameError], [_execute_step] turns it into [False], and the run of
    [text_extraction; notification] ends with [total_runs = 1],
    [successful_runs = 0], [failed_runs = 1] and the notification
    handler never invoked.  With [asyncio] bound the same run ends with
    1, 1, 0. *)
Theorem extract_then_notify_fails :
  let db' := exec (execute_workflow self 1) (open_session Scenarios.workflows) in
  let fixed := exec (execute_workflow Scenarios.self_with_asyncio 1)
                    (open_session Scenarios.workflows) in
  _execute_text_extraction_step self ∅
  = Raise (NameError "name 'asyncio' is not defined") /\
  (total_runs <$> stored db' !! 1) = Some 1 /\
  (successful_runs <$> stored db' !! 1) = Some 0 /\
  (failed_runs <$> stored db' !! 1) = Some 1 /\
  handler_calls (log db') = ["text_extraction"] /\
  (total_runs <$> stored fixed !! 1) = Some 1 /\
  (successful_runs <$> stored fixed !! 1) = Some 1 /\
  (failed_runs <$> stored fixed !! 1) = Some 0 /\
  handler_calls (log fixed) = ["text_extraction"; "notification"].
Proof. cbv zeta. repeat split; reflexivity. Qed.

(** C7. [_execute_step] never raises: it returns what the handler
    returns, [False] when the handler raises, and [False] with no
    handler invoked when the step type is none of the four known ones.
    A workflow with a step of unknown type at any position [k] ends its
    run with [failed_runs] one higher and [successful_runs]
    unchanged. *)
Theorem step_errors_become_false
    (self : StepHandlers) (db : Db) (step_type_ : option string)
    (config_ : Config) (id : Z) (w : Workflow)
    (l : list StepData) (k : nat) (s : StepData) :
  outcome (_execute_step self step_type_ config_) db
  = Return (step_result self step_type_ config_) /\
  (forall t h, step_type_ = Some t -> handler_of self t = Some h ->
     match h config_ with
     | Return b => step_result self step_type_ config_ = b
     | Raise _ => step_result self step_type_ config_ = false
     end) /\
  ((forall t, step_type_ = Some t -> t ∉ known_step_types) ->
     _execute_step self step_type_ config_ db = (Return false, db)) /\
  (view db id = Some w -> steps w = Some l -> l !! k = Some s ->
   (forall t, step_type s = Some t -> t ∉ known_step_types) ->
   let db' := exec (execute_workflow self id) db in
   exists w', stored db' !! id = Some w' /\
     failed_runs w' = failed_runs w + 1 /\
     successful_runs w' = successful_runs w).
Proof.
  split; [|split; [|split]].
  - unfold outcome. by rewrite execute_step_spec.
  - intros t h -> Hh. unfold handler_of in Hh. unfold step_result.
    repeat case_bool_decide; simplify_eq; by case_match.
  - intros Hu. rewrite execute_step_spec.
    assert (step_result self step_type_ config_ = false) as ->.
    { apply (step_ok_unknown self
               {| step_id := None; step_type := step_type_;
                  config := Some config_; order := None |}), Hu. }
    assert (step_events step_type_ = []) as ->; [|by rewrite add_log_nil].
    unfold step_events. destruct step_type_ as [t|]; [|done].
    rewrite bool_decide_eq_false_2; [done|]. by apply Hu.
  - intros Hview Hsteps Hk Hu. cbv zeta. unfold exec.
    rewrite execute_workflow_spec, Hview. cbn [snd].
    assert (verdict self w = FailedRuns) as ->.
    { unfold verdict. rewrite Hsteps.
      by rewrite (forallb_lookup_false _ _ _ _ Hk (step_ok_unknown self s Hu)). }
    eexists. split; [apply committed_stored|]. done.
Qed.

Lemma step_errors_become_false_witness :
  let db := open_session Scenarios.workflows in
  let db' := exec (execute_workflow Scenarios.self_with_asyncio 3) db in
  step_result self (Some "ai_analysis") ∅ = false /\
  _execute_step Scenarios.self_with_asyncio (Some "translate") ∅ db
  = (Return false, db) /\
  exists w', stored db' !! 3 = Some w' /\
    failed_runs w' = 0 + 1 /\ successful_runs w' = 0.
Proof.
  cbv zeta.
  assert (forall t, Some "translate" = Some t -> t ∉ known_step_types) as Hu.
  { intros t [= <-]. unfold known_step_types.
    rewrite !elem_of_cons, elem_of_nil. intuition discriminate. }
  split; [|split].
  - destruct (step_errors_become_false self
                (open_session Scenarios.workflows) (Some "ai_analysis") ∅ 3
                Scenarios.with_unknown_step [] 0%nat
                (Scenarios.step "s1" "translate" 1))
      as (_ & H2 & _).
    exact (H2 "ai_analysis" (_execute_ai_analysis_step self)
             eq_refl eq_refl).
  - destruct (step_errors_become_false Scenarios.self_with_asyncio
                (open_session Scenarios.workflows) (Some "translate") ∅ 3
                Scenarios.with_unknown_step [] 0%nat
                (Scenarios.step "s1" "translate" 1))
      as (_ & _ & H3 & _).
    exact (H3 Hu).
  - destruct (step_errors_become_false Scenarios.self_with_asyncio
                (open_session Scenarios.workflows) (Some "translate") ∅ 3
                Scenarios.with_unknown_step
                [Scenarios.step "s1" "translate" 1;
                 Scenarios.step "s2" "notification" 2]
                0%nat (Scenarios.step "s1" "translate" 1))
      as (_ & _ & _ & H4).
    exact (H4 eq_refl eq_refl eq_refl Hu).
Defined.

End WorkflowFacts.

(** * Facts about binary64 arithmetic *)

Section Float64Facts.

Lemma digits2_pos_size p : digits2_pos p = Pos.size p.
Proof. induction p; simpl; congruence. Qed.

(** [Zdigits2 m] is the bit length of [m]. *)
Lemma Zdigits2_le (m k : Z) :
  0 <= m -> 0 <= k -> (Zdigits2 m <= k <-> m < 2 ^ k).
Proof.
  intros Hm Hk. destruct m as [|p|p]; [|clear Hm|lia].
  - simpl. split; [intros _; apply Z.pow_pos_nonneg; lia|lia].
  - assert (Zdigits2 (Z.pos p) = Z.log2 (Z.pos p) + 1) as ->.
    { destruct p; simpl; rewrite ?digits2_pos_size; lia. }
    rewrite (Z.log2_lt_pow2 (Z.pos p) k) by lia. lia.
Qed.

Lemma Zdigits2_nonneg m : 0 <= Zdigits2 m.
Proof. destruct m; simpl; lia. Qed.

Lemma Zdigits2_lt m : 0 <= m -> m < 2 ^ Zdigits2 m.
Proof.
  intros Hm. apply Zdigits2_le; [done|apply Zdigits2_nonneg|lia].
Qed.

Lemma Zdigits2_mono m n : 0 <= m <= n -> Zdigits2 m <= Zdigits2 n.
Proof.
  intros H. apply Zdigits2_le; [lia|apply Zdigits2_nonneg|].
  pose proof (Zdigits2_lt n). lia.
Qed.

Lemma Zdigits2_succ m : 0 <= m -> Zdigits2 (m + 1) <= Zdigits2 m + 1.
Proof.
  intros Hm. pose proof (Zdigits2_nonneg m).
  apply Zdigits2_le; [lia|lia|].
  pose proof (Zdigits2_lt m Hm). rewrite Z.pow_add_r by lia. lia.
Qed.

Lemma Zdigits2_mul m n :
  0 <= m -> 0 <= n -> Zdigits2 (m * n) <= Zdigits2 m + Zdigits2 n.
Proof.
  intros Hm Hn. pose proof (Zdigits2_nonneg m). pose proof (Zdigits2_nonneg n).
  apply Zdigits2_le; [lia|lia|].
  pose proof (Zdigits2_lt m Hm). pose proof (Zdigits2_lt n Hn).
  rewrite Z.pow_add_r by lia. nia.
Qed.

Lemma shr_1_digits mrs :
  0 <= shr_m mrs ->
  0 <= shr_m (shr_1 mrs) /\
  Zdigits2 (shr_m (shr_1 mrs)) = Z.max (Zdigits2 (shr_m mrs) - 1) 0.
Proof.
  destruct mrs as [m r s]. simpl shr_m at 1. intros Hm.
  destruct m as [|[p|p|]|]; simpl; lia.
Qed.

Lemma iter_shr_1_digits n : forall mrs,
  0 <= shr_m mrs ->
  0 <= shr_m (SpecFloat.iter_pos shr_1 n mrs) /\
  Zdigits2 (shr_m (SpecFloat.iter_pos shr_1 n mrs))
  = Z.max (Zdigits2 (shr_m mrs) - Z.pos n) 0.
Proof.
  induction n as [n IH|n IH|]; intros mrs Hm.
  - change (SpecFloat.iter_pos shr_1 n~1 mrs)
      with (SpecFloat.iter_pos shr_1 n
              (SpecFloat.iter_pos shr_1 n (shr_1 mrs))).
    destruct (shr_1_digits mrs Hm) as [H1 E1].
    destruct (IH _ H1) as [H2 E2]. destruct (IH _ H2) as [H3 E3].
    split; [done|]. rewrite E3, E2, E1. lia.
  - change (SpecFloat.iter_pos shr_1 n~0 mrs)
      with (SpecFloat.iter_pos shr_1 n (SpecFloat.iter_pos shr_1 n mrs)).
    destruct (IH _ Hm) as [H2 E2]. destruct (IH _ H2) as [H3 E3].
    split; [done|]. rewrite E3, E2. lia.
  - change (SpecFloat.iter_pos shr_1 1 mrs) with (shr_1 mrs).
    destruct (shr_1_digits mrs Hm) as [H1 E1]. split; [done|]. lia.
Qed.

Lemma shr_record_of_loc_m m l : shr_m (shr_record_of_loc m l) = m.
Proof. by destruct l as [|[]]. Qed.

(** A right shift to the format's exponent keeps the mantissa
    non-negative and does not raise its magnitude. *)
Lemma shr_fexp_bounds m e l :
  0 <= m ->
  let r := shr_fexp Float64.prec Float64.emax m e l in
  0 <= shr_m (fst r) /\
  e <= snd r /\
  snd r <= Z.max e (Z.max (Zdigits2 m + e - 53) (-1074)) /\
  Zdigits2 (shr_m (fst r)) + snd r <= Z.max (Zdigits2 m + e) (snd r).
Proof.
  intros Hm. cbv zeta. unfold shr_fexp, shr, fexp, emin.
  unfold Float64.prec, Float64.emax.
  pose proof (Zdigits2_nonneg m).
  destruct (Z.max (Zdigits2 m + e - 53) (3 - 1024 - 53) - e) as [|p|p] eqn:E;
    cbn [fst snd]; rewrite ?shr_record_of_loc_m; try lia.
  destruct (iter_shr_1_digits p (shr_record_of_loc m l)) as [H1 H2].
  { by rewrite shr_record_of_loc_m. }
  rewrite shr_record_of_loc_m in H2. lia.
Qed.

Lemma round_nearest_even_bounds m l :
  0 <= m ->
  0 <= round_nearest_even m l /\
  Zdigits2 (round_nearest_even m l) <= Zdigits2 m + 1.
Proof.
  intros Hm. pose proof (Zdigits2_succ m Hm).
  unfold round_nearest_even.
  destruct l as [|[]]; try destruct (Z.even m); lia.
Qed.

(** Rounding a non-negative mantissa of moderate magnitude gives a
    zero or a finite float, never an infinity or a NaN. *)
Lemma binary_round_aux_bounded s m e l B :
  0 <= m -> -1074 <= B <= 971 -> e <= B -> Zdigits2 m + e <= B ->
  binary_round_aux Float64.prec Float64.emax s m e l = S754_zero s \/
  exists m' e',
    binary_round_aux Float64.prec Float64.emax s m e l
    = S754_finite s m' e' /\
    e <= e' <= B /\ Zdigits2 (Z.pos m') + e' <= B + 1.
Proof.
  intros Hm HB He Hd. unfold binary_round_aux.
  pose proof (shr_fexp_bounds m e l Hm) as H1. cbv zeta in H1.
  destruct (shr_fexp Float64.prec Float64.emax m e l) as [mrs1 e1].
  cbn [fst snd] in H1. destruct H1 as (Hm1 & Hlo1 & Hhi1 & Hd1).
  destruct (round_nearest_even_bounds (shr_m mrs1)
              (loc_of_shr_record mrs1) Hm1) as [Hr Hrd].
  set (m1 := round_nearest_even (shr_m mrs1) (loc_of_shr_record mrs1)) in *.
  pose proof (shr_fexp_bounds m1 e1 loc_Exact Hr) as H2. cbv zeta in H2.
  destruct (shr_fexp Float64.prec Float64.emax m1 e1 loc_Exact)
    as [mrs2 e2].
  cbn [fst snd] in H2. destruct H2 as (Hm2 & Hlo2 & Hhi2 & Hd2).
  destruct (shr_m mrs2) as [|p|p] eqn:E; [by left| |lia].
  right. exists p, e2.
  assert (e2 <= B) by lia.
  unfold Float64.emax, Float64.prec.
  rewrite (proj2 (Z.leb_le e2 (1024 - 53))) by lia.
  split; [done|]. lia.
Qed.

Lemma digits2_pos_iter_xO m d :
  Z.pos (digits2_pos (Pos.iter xO m d)) = Z.pos (digits2_pos m) + Z.pos d.
Proof.
  induction d as [|d IH] using Pos.peano_ind.
  - simpl. lia.
  - rewrite Pos.iter_succ. simpl digits2_pos. lia.
Qed.

Lemma binary_round_aux_moderate s m e l B :
  0 <= m -> -1074 <= B <= 971 -> e <= B -> Zdigits2 m + e <= B ->
  Float64.moderate B (binary_round_aux Float64.prec Float64.emax s m e l).
Proof.
  intros Hm HB He Hd.
  destruct (binary_round_aux_bounded s m e l B Hm HB He Hd)
    as [->|(m' & e' & -> & ? & ?)]; unfold Float64.moderate; [done|lia].
Qed.

(** A mantissa that already fits the format is left as it is. *)
Lemma binary_round_aux_canonical s m e :
  Z.max (Zdigits2 (Z.pos m) + e - 53) (-1074) <= e -> e <= 971 ->
  binary_round_aux Float64.prec Float64.emax s (Z.pos m) e loc_Exact
  = S754_finite s m e.
Proof.
  intros Hc He.
  assert (shr_fexp Float64.prec Float64.emax (Z.pos m) e loc_Exact
          = ({| shr_m := Z.pos m; shr_r := false; shr_s := false |}, e))
    as Hshr.
  { unfold shr_fexp, shr, fexp, emin, Float64.prec, Float64.emax.
    destruct (Z.max (Zdigits2 (Z.pos m) + e - 53) (3 - 1024 - 53) - e)
      eqn:E; try done. lia. }
  unfold binary_round_aux. rewrite Hshr.
  cbn [shr_m loc_of_shr_record round_nearest_even]. rewrite Hshr.
  cbn [shr_m]. unfold Float64.prec, Float64.emax.
  by rewrite (proj2 (Z.leb_le e (1024 - 53))) by lia.
Qed.

(** [float(n)] of a positive integer below 2^53 is finite. *)
Lemma of_int_finite p :
  Z.pos p < 2 ^ 53 ->
  exists m e,
    Float64.of_int (Z.pos p) = S754_finite false m e /\
    -52 <= e <= 0 /\ Zdigits2 (Z.pos m) + e <= 53.
Proof.
  intros Hp. unfold Float64.of_int, binary_normalize, binary_round.
  assert (Z.pos (digits2_pos p) <= 53) as Hd.
  { apply (Zdigits2_le (Z.pos p) 53); lia. }
  unfold shl_align, fexp, emin, Float64.prec, Float64.emax.
  destruct (Z.max (Z.pos (digits2_pos p) + 0 - 53) (3 - 1024 - 53) - 0)
    as [|d|d] eqn:E; [|lia|].
  - eexists p, 0.
    split; [apply binary_round_aux_canonical; simpl; lia|]. simpl. lia.
  - pose proof (digits2_pos_iter_xO p d) as Hi.
    eexists (Pos.iter xO p d), _.
    split; [apply binary_round_aux_canonical; simpl; lia|]. simpl. lia.
Qed.

Lemma of_int_moderate n :
  0 <= n < 2 ^ 53 -> Float64.moderate 53 (Float64.of_int n).
Proof.
  intros Hn. destruct n as [|p|p]; [done| |lia].
  destruct (of_int_finite p) as (m & e & -> & ? & ?); [lia|].
  unfold Float64.moderate. lia.
Qed.

Lemma div_moderate x sy my ey :
  Float64.moderate 53 x -> -52 <= ey ->
  Float64.moderate 106 (Float64.div x (S754_finite sy my ey)).
Proof.
  intros Hx Hey. destruct x as [sx| |  |sx mx ex]; try done.
  destruct Hx as [Hex Hmx]. unfold Float64.div, SFdiv, SFdiv_core_binary.
  set (e' := Z.min _ _).
  assert (e' <= ex - ey) as He' by (subst e'; lia).
  set (m' := match ex - ey - e' with
             | Z.pos _ => Z.shiftl (Z.pos mx) (ex - ey - e')
             | 0 => Z.pos mx
             | Z.neg _ => 0
             end).
  assert (0 <= m' /\ Zdigits2 m' <= Zdigits2 (Z.pos mx) + (ex - ey - e'))
    as [Hm' Hd'].
  { subst m'. destruct (ex - ey - e') as [|s|s] eqn:Es; [lia| |lia].
    rewrite Z.shiftl_mul_pow2 by lia.
    pose proof (Zdigits2_lt (Z.pos mx)). pose proof (Zdigits2_nonneg (Z.pos mx)).
    assert (0 < 2 ^ Z.pos s) by (apply Z.pow_pos_nonneg; lia).
    split; [lia|]. apply Zdigits2_le; [lia|lia|].
    rewrite Z.pow_add_r by lia. nia. }
  pose proof (Z.div_mod m' (Z.pos my)) as Hdm.
  pose proof (Z.mod_pos_bound m' (Z.pos my)) as Hmod.
  unfold Z.div, Z.modulo in Hdm, Hmod.
  destruct (Z.div_eucl m' (Z.pos my)) as [q r].
  assert (0 <= q <= m') as Hq by nia.
  apply binary_round_aux_moderate; [lia|lia|lia|].
  pose proof (Zdigits2_mono q m' Hq). lia.
Qed.

Lemma mul_moderate a b x y :
  Float64.moderate a x -> Float64.moderate b y -> -1076 <= a + b <= 969 ->
  Float64.moderate (a + b + 2) (Float64.mul x y).
Proof.
  intros Hx Hy Hab.
  destruct x as [sx| | |sx mx ex], y as [sy| | |sy my ey]; try done.
  destruct Hx as [Hex Hmx], Hy as [Hey Hmy].
  unfold Float64.mul, SFmul.
  pose proof (Zdigits2_mul (Z.pos mx) (Z.pos my)) as Hd.
  rewrite <- Pos2Z.inj_mul in Hd.
  apply binary_round_aux_moderate; lia.
Qed.

Lemma to_int_moderate hi x :
  Float64.moderate hi x -> exists z, Float64.to_int x = Return z.
Proof. destruct x; simpl; try done; eauto. Qed.

(** The progress computation of the batch task returns an integer for
    every index into a list of fewer than 2^53 documents. *)
Lemma batch_progress_returns (i total : Z) :
  0 <= i < 2 ^ 53 -> 0 < total < 2 ^ 53 ->
  exists p, DocumentTasks.batch_progress i total = Return p.
Proof.
  intros Hi Ht. unfold DocumentTasks.batch_progress, Float64.truediv.
  rewrite bool_decide_eq_false_2 by lia.
  destruct total as [|t|t]; try lia.
  destruct (of_int_finite t) as (m & e & -> & He & Hm); [lia|].
  apply (to_int_moderate 161). apply (mul_moderate 106 53); [| |lia].
  - apply div_moderate; [by apply of_int_moderate|lia].
  - apply of_int_moderate. lia.
Qed.
End Float64Facts.

(** * Facts about the job runner *)

Section ProcessingFacts.

Import ProcessingService.

Implicit Types (db : Db) (id : Z) (j : Job) (σ τ : gmap Z Job).
Implicit Types (cs : list (gmap Z Job)) (clk : nat -> Z) (k : nat).

Lemma job_query_first_view db id :
  query_first id db =
  match view db id with
  | Some j =>
      (Return (Some j),
       loaded id j (session db) (stored db) (commits db) (clock db) (ticks db))
  | None => (Return None, db)
  end.
Proof.
  unfold query_first, view, loaded, with_session.
  destruct (session db !! id) as [j|] eqn:Hs.
  - rewrite insert_id by done. by destruct db.
  - by destruct (stored db !! id).
Qed.

Lemma job_query_first_loaded id j σ τ cs clk k :
  query_first id (loaded id j σ τ cs clk k)
  = (Return (Some j), loaded id j σ τ cs clk k).
Proof.
  rewrite job_query_first_view. unfold view, loaded; simpl.
  rewrite lookup_insert_eq. by rewrite insert_insert_eq.
Qed.

Lemma job_setattr_loaded id f j σ τ cs clk k :
  setattr id f (loaded id j σ τ cs clk k)
  = (Return tt, loaded id (f j) σ τ cs clk k).
Proof.
  unfold setattr, modify, with_session, loaded; simpl.
  by rewrite alter_insert_eq.
Qed.

Lemma job_getattr_loaded {A} id (f : Job -> A) j σ τ cs clk k :
  getattr id f (loaded id j σ τ cs clk k)
  = (Return (f j), loaded id j σ τ cs clk k).
Proof.
  unfold getattr, bind, gets, loaded; simpl. by rewrite lookup_insert_eq.
Qed.

Lemma job_utcnow_loaded id j σ τ cs clk k :
  utcnow (loaded id j σ τ cs clk k)
  = (Return (clk k), loaded id j σ τ cs clk (S k)).
Proof. done. Qed.

Lemma job_commit_loaded id j σ τ cs clk k :
  commit (loaded id j σ τ cs clk k)
  = (Return tt,
     loaded id j σ (persist id j σ τ) (cs ++ [persist id j σ τ]) clk k).
Proof. done. Qed.

Lemma persist_lookup id j σ τ : persist id j σ τ !! id = Some j.
Proof. apply lookup_union_Some_l, lookup_insert_eq. Qed.

Lemma job_view_loaded id j σ τ cs clk k :
  view (loaded id j σ τ cs clk k) id = Some j.
Proof. unfold view, loaded; simpl. by rewrite lookup_insert_eq. Qed.

(** One step of symbolic execution on a loaded session. *)
Ltac run_step :=
  unfold bind at 1;
  first [ rewrite job_setattr_loaded
        | rewrite job_getattr_loaded
        | rewrite job_utcnow_loaded
        | rewrite job_commit_loaded
        | rewrite job_query_first_loaded ].

Lemma last_cons {A} (x d : A) (xs : list A) :
  List.last (x :: xs) d = List.last xs x.
Proof.
  revert x d. induction xs as [|y ys IH]; intros x d; [done|].
  change (List.last (x :: y :: ys) d) with (List.last (y :: ys) d).
  by rewrite !IH.
Qed.


Lemma persist_each_app id σ τ (js1 js2 : list Job) :
  persist_each id σ τ (js1 ++ js2)
  = persist_each id σ τ js1
    ++ persist_each id σ (List.last (persist_each id σ τ js1) τ) js2.
Proof.
  revert τ. induction js1 as [|j js1 IH]; intros τ; [done|].
  simpl persist_each at 1 2. rewrite IH.
  change (persist_each id σ τ (j :: js1))
    with (persist id j σ τ :: persist_each id σ (persist id j σ τ) js1).
  by rewrite last_cons.
Qed.

(** A simulated-work loop persists one state per iteration. *)
Lemma progress_loop_loaded (f : Z -> Q) (n : nat) :
  forall i id j σ τ cs clk k,
  for_range_from i n
    (fun i => do_ setattr id (set_progress (f i)); commit)
    (loaded id j σ τ cs clk k)
  = let js := (fun m => set_progress (f m) j) <$> seqZ i (Z.of_nat n) in
    let tables := persist_each id σ τ js in
    (Return tt,
     loaded id (List.last js j) σ (List.last tables τ) (cs ++ tables) clk k).
Proof.
  induction n as [|n IH]; intros i id j σ τ cs clk k.
  - simpl. by rewrite app_nil_r.
  - cbv zeta. rewrite seqZ_cons by lia.
    replace (Z.pred (Z.of_nat (S n))) with (Z.of_nat n) by lia.
    simpl for_range_from. unfold bind at 1. unfold bind at 1.
    rewrite job_setattr_loaded, job_commit_loaded, IH. cbv zeta.
    change (fun m => set_progress (f m) (set_progress (f i) j))
      with (fun m => set_progress (f m) j).
    rewrite fmap_cons. simpl persist_each.
    rewrite !last_cons, <- app_assoc. done.
Qed.

Lemma process_text_extraction_loaded id j σ τ cs clk k :
  _process_text_extraction id (loaded id j σ τ cs clk k)
  = let js := (fun m => set_progress (text_extraction_progress m) j)
              <$> seqZ 0 (Z.of_nat 5) in
    let tables := persist_each id σ τ js in
    (Return tt,
     loaded id
       (set_output_data (text_extraction_output (document_id j))
          (List.last js j))
       σ (List.last tables τ) (cs ++ tables) clk k).
Proof.
  unfold _process_text_extraction, for_range. unfold bind at 1.
  rewrite progress_loop_loaded. cbv zeta. run_step.
  by rewrite job_setattr_loaded.
Qed.

Lemma process_ai_analysis_loaded id j σ τ cs clk k :
  _process_ai_analysis id (loaded id j σ τ cs clk k)
  = let js := (fun m => set_progress (ai_analysis_progress m) j)
              <$> seqZ 0 (Z.of_nat 10) in
    let tables := persist_each id σ τ js in
    (Return tt,
     loaded id
       (set_output_data (ai_analysis_output (document_id j))
          (List.last js j))
       σ (List.last tables τ) (cs ++ tables) clk k).
Proof.
  unfold _process_ai_analysis, for_range. unfold bind at 1.
  rewrite progress_loop_loaded. cbv zeta. run_step.
  by rewrite job_setattr_loaded.
Qed.

Lemma process_categorization_loaded id j σ τ cs clk k :
  _process_categorization id (loaded id j σ τ cs clk k)
  = let js := (fun m => set_progress (categorization_progress m) j)
              <$> seqZ 0 (Z.of_nat 3) in
    let tables := persist_each id σ τ js in
    (Return tt,
     loaded id (set_output_data categorization_output (List.last js j))
       σ (List.last tables τ) (cs ++ tables) clk k).
Proof.
  unfold _process_categorization, for_range. unfold bind at 1.
  rewrite progress_loop_loaded. cbv beta iota zeta.
  by rewrite job_setattr_loaded.
Qed.

Lemma process_workflow_loaded id j σ τ cs clk k :
  _process_workflow id (loaded id j σ τ cs clk k)
  = let js := (fun m => set_progress (workflow_progress m) j)
              <$> seqZ 0 (Z.of_nat 8) in
    let tables := persist_each id σ τ js in
    (Return tt,
     loaded id
       (set_output_data (workflow_output (workflow_id j)) (List.last js j))
       σ (List.last tables τ) (cs ++ tables) clk k).
Proof.
  unfold _process_workflow, for_range. unfold bind at 1.
  rewrite progress_loop_loaded. cbv zeta. run_step.
  by rewrite job_setattr_loaded.
Qed.

(** The end of the [try] block, from "Mark as completed" on. *)
Lemma mark_completed_loaded id j s σ τ cs clk k :
  started_at j = Some s ->
  (do_ setattr id (set_status COMPLETED);
   do_ setattr id (set_progress 100);
   do now <- utcnow;
   do_ setattr id (set_completed_at (Some now));
   do seconds <- elapsed id;
   do_ setattr id (set_duration_seconds (Some seconds));
   commit) (loaded id j σ τ cs clk k)
  = (Return tt,
     loaded id (completed (clk k) j) σ
       (persist id (completed (clk k) j) σ τ)
       (cs ++ [persist id (completed (clk k) j) σ τ]) clk (S k)).
Proof.
  intros Hs. do 4 run_step. unfold bind at 1. unfold elapsed.
  do 2 run_step. cbn [completed_at started_at set_completed_at
                      set_progress set_status]. rewrite Hs.
  unfold ret at 1. run_step. rewrite job_commit_loaded.
  unfold completed. by rewrite Hs.
Qed.

(** The [except] block in closed form: it never raises. *)
Lemma process_job_async_except_loaded id e j σ τ cs clk k :
  _process_job_async_except id e (loaded id j σ τ cs clk k)
  = (Return tt,
     loaded id (failed e (clk k) j) σ
       (persist id (failed e (clk k) j) σ τ)
       (cs ++ [persist id (failed e (clk k) j) σ τ]) clk (S k)).
Proof.
  unfold _process_job_async_except. do 6 run_step.
  cbn [started_at set_completed_at set_error_message set_status].
  unfold failed. destruct (started_at j) as [s|] eqn:Hs.
  - unfold bind at 1. unfold bind at 1. unfold elapsed.
    do 2 run_step. cbn [completed_at started_at set_completed_at
                        set_error_message set_status]. rewrite Hs.
    unfold ret at 1. rewrite job_setattr_loaded, job_commit_loaded. done.
  - unfold bind at 1. unfold ret at 1. by rewrite job_commit_loaded.
Qed.

(** The states a run persists, put end to end. *)
Lemma loaded_after_run id σ τ cs clk k j j0 (js : list Job) jf :
  let τ0 := persist id j0 σ τ in
  let τ1 := List.last (persist_each id σ τ0 js) τ0 in
  let states := [j0] ++ js ++ [jf] in
  loaded id jf σ (persist id jf σ τ1)
    (((cs ++ [τ0]) ++ persist_each id σ τ0 js) ++ [persist id jf σ τ1])
    clk k
  = loaded id (List.last states j) σ
      (List.last (persist_each id σ τ states) τ)
      (cs ++ persist_each id σ τ states) clk k.
Proof.
  cbv zeta.
  change ([j0] ++ js ++ [jf]) with (j0 :: (js ++ [jf])).
  change (persist_each id σ τ (j0 :: js ++ [jf]))
    with (persist id j0 σ τ
            :: persist_each id σ (persist id j0 σ τ) (js ++ [jf])).
  rewrite persist_each_app.
  change (persist_each id σ ?t [jf]) with [persist id jf σ t].
  rewrite !last_cons, !last_last, <- !app_assoc. done.
Qed.

(** The whole of [_process_job_async] in closed form. *)
Lemma process_job_async_spec db id :
  _process_job_async id db =
  match view db id with
  | None => (Return tt, db)
  | Some j =>
      let states := runner_states (clock db) (ticks db) j in
      let tables := persist_each id (session db) (stored db) states in
      (Return tt,
       loaded id (List.last states j) (session db)
         (List.last tables (stored db)) (commits db ++ tables)
         (clock db) (S (S (ticks db))))
  end.
Proof.
  unfold _process_job_async, _process_job_async_try, try_except.
  unfold bind at 1. rewrite job_query_first_view.
  destruct (view db id) as [j|]; [|done].
  do 5 run_step. run_step.
  cbn [job_type set_progress set_started_at set_status].
  unfold runner_states, script.
  set (j0 := set_progress 0
               (set_started_at (Some (clock db (ticks db)))
                  (set_status RUNNING j))).
  assert (started_at j0 = Some (clock db (ticks db))) as Hs0 by done.
  unfold bind at 1.
  repeat case_bool_decide.
  - rewrite process_text_extraction_loaded. cbv beta iota zeta.
    erewrite mark_completed_loaded by done.
    f_equal. apply loaded_after_run.
  - rewrite process_ai_analysis_loaded. cbv beta iota zeta.
    erewrite mark_completed_loaded by done.
    f_equal. apply loaded_after_run.
  - rewrite process_categorization_loaded. cbv beta iota zeta.
    erewrite mark_completed_loaded by done.
    f_equal. apply loaded_after_run.
  - rewrite process_workflow_loaded. cbv beta iota zeta.
    erewrite mark_completed_loaded by done.
    f_equal. apply loaded_after_run.
  - unfold raise at 1. cbv beta iota zeta.
    rewrite process_job_async_except_loaded.
    f_equal. unfold loaded. simpl. by rewrite <- app_assoc.
Qed.




Lemma runner_states_nonempty clk k j : runner_states clk k j <> [].
Proof. unfold runner_states. by destruct (script j) as [[[n f] out]|]. Qed.








(** The whole of [cancel_job] in closed form. *)
Lemma cancel_job_spec db id :
  cancel_job id db =
  match view db id with
  | None => (Return false, db)
  | Some j =>
      let σ := session db in
      if bool_decide (status j = PENDING \/ status j = RUNNING) then
        let j' := cancelled (clock db (ticks db)) j in
        (Return true,
         loaded id j' σ (persist id j' σ (stored db))
           (commits db ++ [persist id j' σ (stored db)])
           (clock db) (S (ticks db)))
      else
        (Return false,
         loaded id j σ (stored db) (commits db) (clock db) (ticks db))
  end.
Proof.
  unfold cancel_job. unfold bind at 1. rewrite job_query_first_view.
  destruct (view db id) as [j|]; [|done]. cbv zeta.
  destruct (status j) eqn:Hst; simpl; try done.
  all: repeat run_step; done.
Qed.

(** C4, as stated, fails on the message: cancelling the pending job 1
    takes effect and stores [error_message = "Job cancelled by user"],
    not ["cancelled"]. *)
Lemma cancel_message_is_not_cancelled :
  let db := open_session Scenarios.jobs Scenarios.seconds in
  outcome (cancel_job 1) db = Return true /\
  (error_message <$> stored (exec (cancel_job 1) db) !! 1)
  = Some (Some "Job cancelled by user") /\
  (error_message <$> stored (exec (cancel_job 1) db) !! 1)
  <> Some (Some "cancelled").
Proof. cbv zeta. split; [|split]; [reflexivity|reflexivity|discriminate]. Qed.

(** C4, amended.  [cancel_job] returns [False] and changes no record
    and commits nothing when the job is absent or its status is
    completed or failed; when the status is pending or running it
    returns [True] and commits the job with [status = failed],
    [error_message = "Job cancelled by user"] and [completed_at] the
    current time, its other fields unchanged. *)
Theorem cancel_job_effect (db : Db) (id : Z) :
  let db' := exec (cancel_job id) db in
  (view db id = None -> cancel_job id db = (Return false, db)) /\
  (forall j, view db id = Some j ->
     status j = COMPLETED \/ status j = FAILED ->
     outcome (cancel_job id) db = Return false /\
     view db' id = Some j /\ stored db' = stored db /\
     commits db' = commits db /\ ticks db' = ticks db) /\
  (forall j, view db id = Some j ->
     status j = PENDING \/ status j = RUNNING ->
     let j' := cancelled (clock db (ticks db)) j in
     outcome (cancel_job id) db = Return true /\
     view db' id = Some j' /\ stored db' !! id = Some j' /\
     status j' = FAILED /\
     error_message j' = Some "Job cancelled by user" /\
     completed_at j' = Some (clock db (ticks db))).
Proof.
  cbv zeta. unfold exec, outcome. rewrite cancel_job_spec.
  split; [by intros ->|]. split.
  - intros j -> Hst. cbv zeta.
    rewrite bool_decide_eq_false_2
      by (destruct Hst as [-> | ->]; intros [|]; discriminate).
    cbn [fst snd]. split; [done|]. split; [apply job_view_loaded|]. done.
  - intros j -> Hst. cbv zeta. rewrite bool_decide_eq_true_2 by done.
    cbn [fst snd]. split; [done|]. split; [apply job_view_loaded|].
    split; [apply persist_lookup|]. done.
Qed.

Lemma cancel_job_effect_witness :
  let db := open_session Scenarios.jobs Scenarios.seconds in
  let old := open_session Scenarios.archive Scenarios.seconds in
  let j' := cancelled 0 (Scenarios.job "text_extraction") in
  cancel_job 9 db = (Return false, db) /\
  (outcome (cancel_job 1) old = Return false /\
   view (exec (cancel_job 1) old) 1 = Some Scenarios.finished_job /\
   stored (exec (cancel_job 1) old) = stored old /\
   commits (exec (cancel_job 1) old) = commits old /\
   ticks (exec (cancel_job 1) old) = ticks old) /\
  (outcome (cancel_job 1) db = Return true /\
   view (exec (cancel_job 1) db) 1 = Some j' /\
   stored (exec (cancel_job 1) db) !! 1 = Some j' /\
   status j' = FAILED /\
   error_message j' = Some "Job cancelled by user" /\
   completed_at j' = Some 0).
Proof.
  cbv zeta. split; [|split].
  - apply (cancel_job_effect
             (open_session Scenarios.jobs Scenarios.seconds) 9).
    reflexivity.
  - destruct (cancel_job_effect
                (open_session Scenarios.archive Scenarios.seconds) 1)
      as (_ & H & _).
    exact (H Scenarios.finished_job eq_refl (or_introl eq_refl)).
  - destruct (cancel_job_effect
                (open_session Scenarios.jobs Scenarios.seconds) 1)
      as (_ & _ & H).
    exact (H (Scenarios.job "text_extraction") eq_refl (or_introl eq_refl)).
Defined.

(** *** System status *)









End ProcessingFacts.

(** * Facts about the batch task *)

Section BatchFacts.

Import TextExtractionService DocumentTasks.

Implicit Types (fs : FileSystem) (table : gmap Z Document) (t : Task).

Lemma consistent_start table : consistent table (start table).
Proof.
  split; [done|]. intros id d. unfold start; cbn [session].
  by rewrite lookup_empty.
Qed.

Lemma consistent_alter table t id (f : Document -> Document) :
  (forall d, file_path (f d) = file_path d) ->
  consistent table t ->
  consistent table
    {| session := alter f id (session t); stored := stored t;
       log := log t; document := document t |}.
Proof.
  intros Hf [Hst Hs]. split; [done|]. cbn [session]. intros id' d'.
  rewrite lookup_alter. case_decide as Hid; [subst id'|by apply Hs].
  destruct (session t !! id) as [d|] eqn:Hd; [|done].
  intros [= <-]. destruct (Hs id d Hd) as (d0 & ? & ?).
  exists d0. by rewrite Hf.
Qed.

(** One iteration of the loop appends the entry of its item and the
    events of its item, whatever the earlier items did. *)
Lemma process_item_spec fs table total i id (results : list Entry) t :
  consistent table t ->
  0 <= i < 2 ^ 53 -> 0 < total < 2 ^ 53 ->
  exists t',
    try_except (process_item_try fs total i id results)
               (process_item_except id results) t
    = (Return (results ++ [item_entry fs (path_of table id) id]), t') /\
    consistent table t' /\
    log t' = log t ++ item_events total i id (path_of table id).
Proof.
  intros Hc Hi Ht. pose proof Hc as [Hst Hs].
  destruct (batch_progress_returns i total Hi Ht) as [p Hp].
  unfold try_except, process_item_try, item_events, reported_progress.
  rewrite Hp. unfold bind at 1, lift at 1. unfold bind at 1, emit at 1.
  unfold modify at 1. unfold bind at 1, query_first at 1.
  unfold bind at 1, emit at 1, modify at 1. cbn [session stored log document].
  unfold path_of.
  destruct (session t !! id) as [d|] eqn:Hd.
  - destruct (Hs id d Hd) as (d0 & -> & Hpath). cbn [fmap option_fmap option_map].
    rewrite <- Hpath. unfold item_entry.
    unfold bind at 1, emit at 1, modify at 1.
    unfold bind at 1, lift at 1.
    destruct (extract_text fs (file_path d)) as [text|e].
    + eexists. split; [reflexivity|]. split.
      * do 3 (apply consistent_alter; [done|]).
        split; [done|]. exact Hs.
      * cbn [log]. by rewrite <- !app_assoc.
    + eexists. split; [reflexivity|]. split.
      * do 2 (apply consistent_alter; [done|]).
        split; [done|]. exact Hs.
      * cbn [log]. by rewrite <- !app_assoc.
  - rewrite Hst. destruct (table !! id) as [d0|] eqn:Hd0.
    + cbn [fmap option_fmap option_map]. unfold item_entry.
      unfold bind at 1, emit at 1, modify at 1.
      unfold bind at 1, lift at 1.
      assert (consistent table
                {| session := <[id := d0]> (session t); stored := stored t;
                   log := log t; document := document t |}) as Hc'.
      { split; [done|]. cbn [session]. intros id' d'.
        rewrite lookup_insert. case_decide; [|by apply Hs].
        intros [= <-]. subst id'. by exists d0. }
      destruct Hc' as [_ Hs'].
      destruct (extract_text fs (file_path d0)) as [text|e].
      * eexists. split; [reflexivity|]. split.
        -- do 3 (apply consistent_alter; [done|]).
           split; [done|]. exact Hs'.
        -- cbn [log]. by rewrite <- !app_assoc.
      * eexists. split; [reflexivity|]. split.
        -- do 2 (apply consistent_alter; [done|]).
           split; [done|]. exact Hs'.
        -- cbn [log]. by rewrite <- !app_assoc.
    + eexists. split; [reflexivity|]. split.
      * split; [done|]. exact Hs.
      * cbn [log]. by rewrite <- !app_assoc.
Qed.

(** The loop appends one entry per id, in order. *)
Lemma for_documents_spec fs table total (ids : list Z) :
  forall i (results : list Entry) t,
  consistent table t ->
  0 <= i -> i + Z.of_nat (length ids) <= total -> total < 2 ^ 53 ->
  exists t',
    for_documents fs total i ids results t
    = (Return (results ++ batch_entries fs table ids), t') /\
    consistent table t' /\
    log t' = log t ++ batch_events table total i ids.
Proof.
  induction ids as [|id rest IH]; intros i results t Hc Hi Hlen Ht.
  - exists t. unfold batch_entries; simpl. by rewrite !app_nil_r.
  - cbn [length] in Hlen. cbn [for_documents]. unfold bind at 1.
    destruct (process_item_spec fs table total i id results t Hc)
      as (t1 & -> & Hc1 & Hl1); [lia|lia|].
    destruct (IH (i + 1) (results ++ [item_entry fs (path_of table id) id])
                t1 Hc1) as (t2 & -> & Hc2 & Hl2); [lia|lia|lia|].
    exists t2. split; [|split; [done|]].
    + unfold batch_entries. cbn [map]. by rewrite <- app_assoc.
    + rewrite Hl2, Hl1. cbn [batch_events]. by rewrite <- app_assoc.
Qed.

(** The whole task in closed form. *)
Lemma process_document_batch_spec fs table (ids : list Z) :
  Z.of_nat (length ids) < 2 ^ 53 ->
  exists t',
    process_document_batch fs ids (start table)
    = (Return {| total_documents := Z.of_nat (length ids);
                 results := batch_entries fs table ids;
                 result_status := "completed" |}, t') /\
    log t'
    = batch_events table (Z.of_nat (length ids)) 0 ids ++ [EvCommit].
Proof.
  intros Hlen. unfold process_document_batch, try_finally, try_except.
  cbv zeta. unfold bind at 1.
  destruct (for_documents_spec fs table (Z.of_nat (length ids)) ids 0 []
              (start table) (consistent_start table))
    as (t1 & -> & Hc1 & Hl1); [lia|lia|lia|].
  eexists. split; [reflexivity|]. cbn [log]. by rewrite Hl1.
Qed.

Lemma reported_app l1 l2 : reported (l1 ++ l2) = reported l1 ++ reported l2.
Proof. apply omap_app. Qed.

Lemma batch_entries_lookup fs table (ids : list Z) (k : nat) id :
  ids !! k = Some id ->
  batch_entries fs table ids !! k = Some (item_entry fs (path_of table id) id).
Proof. intros H. unfold batch_entries. by rewrite list_lookup_fmap, H. Qed.

(** Binary rounding shows through the truncation: 29 / 100 * 100 is
    just below 29. *)
Lemma batch_progress_29_of_100 : batch_progress 29 100 = Return 28.
Proof. by vm_compute. Qed.

(** C9, as stated, fails on the progress value: for three documents
    the second update reports the integer 33, not 1 / 3 * 100. *)
Lemma batch_progress_is_truncated :
  reported (log (exec (process_document_batch Scenarios.disk [1; 2; 3])
                      (start Scenarios.documents)))
  = [0; 33; 66] /\
  ~ (inject_Z 33 == inject_Z 1 / inject_Z 3 * 100)%Q.
Proof.
  split; [by vm_compute|]. intros H. vm_compute in H. discriminate.
Qed.

Lemma reported_batch_events table total (ids : list Z) : forall i,
  reported (batch_events table total i ids)
  = (fun k => reported_progress k total) <$> seqZ i (Z.of_nat (length ids)).
Proof.
  induction ids as [|id rest IH]; intros i; [done|].
  cbn [batch_events length]. rewrite seqZ_cons by lia.
  replace (Z.pred (Z.of_nat (S (length rest)))) with (Z.of_nat (length rest))
    by lia.
  rewrite reported_app, IH, fmap_cons.
  replace (Z.succ i) with (i + 1) by lia.
  unfold item_events. by destruct (path_of table id).
Qed.

Lemma item_entry_status fs table id :
  let entry := item_entry fs (path_of table id) id in
  entry_document_id entry = id /\
  (table !! id = None -> entry_status entry = "not_found") /\
  (forall d, table !! id = Some d ->
     entry_status entry
     = if path_exists fs (file_path d) then "completed" else "failed").
Proof.
  cbv zeta. unfold item_entry, path_of, extract_text.
  destruct (table !! id) as [d|]; cbn [fmap option_fmap option_map].
  - split; [|split; [done|]].
    + destruct (path_exists fs (file_path d)); cbn [negb];
        [by destruct (extract_by_extension fs (file_path d))|done].
    + intros d' [= <-].
      destruct (path_exists fs (file_path d)); cbn [negb];
        [by destruct (extract_by_extension fs (file_path d))|done].
  - split; [done|]. split; [done|]. by intros d.
Qed.

(** C9, amended.  For a list of fewer than 2^53 document ids the task
    returns the number of ids and one entry per id, in the order of the
    ids and with the id of its item: "not_found" when the table has no
    such document, "completed" when it has one whose file exists,
    "failed" when the file is missing, each whatever happened to the
    other items.  The log shows the items handled one after the other,
    each preceded by a progress update that reports
    [int((index / total) * 100)], a truncated integer, and one commit
    at the end.  For ids [1; 2; 3] with documents 1 and 3 present with
    their files and document 2 absent, the statuses are completed,
    not_found, completed and the progress values are 0, 33, 66. *)
Theorem batch_outcomes (fs : FileSystem) (table : gmap Z Document)
    (ids : list Z) :
  Z.of_nat (length ids) < 2 ^ 53 ->
  let total := Z.of_nat (length ids) in
  let t' := exec (process_document_batch fs ids) (start table) in
  exists res,
    outcome (process_document_batch fs ids) (start table) = Return res /\
    total_documents res = total /\
    length (results res) = length ids /\
    (forall (k : nat) id, ids !! k = Some id ->
       exists entry, results res !! k = Some entry /\
         entry_document_id entry = id /\
         (table !! id = None -> entry_status entry = "not_found") /\
         (forall d, table !! id = Some d ->
            entry_status entry
            = if path_exists fs (file_path d)
              then "completed" else "failed")) /\
    log t' = batch_events table total 0 ids ++ [EvCommit] /\
    reported (log t')
    = (fun k => reported_progress k total) <$> seqZ 0 total /\
    (forall k, 0 <= k < total ->
       batch_progress k total = Return (reported_progress k total)) /\
    (forall d1 d3, ids = [1; 2; 3] ->
       table !! 1 = Some d1 -> path_exists fs (file_path d1) = true ->
       table !! 2 = None ->
       table !! 3 = Some d3 -> path_exists fs (file_path d3) = true ->
       entry_status <$> results res
       = ["completed"; "not_found"; "completed"] /\
       reported (log t') = [0; 33; 66]).
Proof.
  intros Hlen. cbv zeta. unfold exec, outcome.
  destruct (process_document_batch_spec fs table ids Hlen)
    as (t' & -> & Hlog).
  cbn [fst snd]. eexists. split; [reflexivity|].
  cbn [total_documents results].
  assert (reported (log t')
          = (fun k => reported_progress k (Z.of_nat (length ids)))
            <$> seqZ 0 (Z.of_nat (length ids))) as Hrep.
  { rewrite Hlog, reported_app, reported_batch_events.
    cbn. by rewrite app_nil_r. }
  split; [done|]. split; [apply length_map|].
  split; [|split; [done|split; [done|split]]].
  - intros k id Hk. eexists.
    split; [by apply batch_entries_lookup|]. apply item_entry_status.
  - intros k Hk. unfold reported_progress.
    destruct (batch_progress_returns k (Z.of_nat (length ids)))
      as [p ->]; [lia|lia|done].
  - intros d1 d3 -> H1 He1 H2 H3 He3. split.
    + unfold batch_entries. cbn [map fmap list_fmap].
      destruct (item_entry_status fs table 1) as (_ & _ & E1).
      destruct (item_entry_status fs table 2) as (_ & E2 & _).
      destruct (item_entry_status fs table 3) as (_ & _ & E3).
      rewrite (E1 d1 H1), (E2 H2), (E3 d3 H3), He1, He3. done.
    + rewrite Hrep. by vm_compute.
Qed.

Lemma batch_outcomes_witness :
  let run := process_document_batch Scenarios.disk [1; 2; 3] in
  exists res,
    outcome run (start Scenarios.documents) = Return res /\
    total_documents res = 3 /\
    (exists entry, results res !! 1%nat = Some entry /\
       entry_document_id entry = 2 /\ entry_status entry = "not_found") /\
    entry_status <$> results res
    = ["completed"; "not_found"; "completed"] /\
    reported (log (exec run (start Scenarios.documents))) = [0; 33; 66].
Proof.
  cbv zeta.
  destruct (batch_outcomes Scenarios.disk Scenarios.documents [1; 2; 3])
    as (res & Hout & Htotal & _ & Hitem & _ & _ & _ & H); [reflexivity|].
  exists res. split; [exact Hout|]. split; [exact Htotal|]. split.
  - destruct (Hitem 1%nat 2 eq_refl) as (entry & He & Hid & Hnone & _).
    exists entry. split; [exact He|]. split; [exact Hid|].
    apply Hnone. reflexivity.
  - exact (H (Scenarios.document "uploads/a.txt")
             (Scenarios.document "uploads/c.pdf")
             eq_refl eq_refl eq_refl eq_refl eq_refl eq_refl).
Defined.

End BatchFacts.

(** * More facts about the workflow runner *)

Section WorkflowRunFacts.

Import WorkflowService WorkflowRuns.

Implicit Types (self : StepHandlers) (db : Db) (id : Z) (w : Workflow).
Implicit Types (l : list Event) (σ τ : gmap Z Workflow).

Lemma committed_frame id w σ τ l :
  stored (committed id w σ τ l) = <[id := w]> (σ ∪ τ).
Proof. unfold committed; cbn [stored]. by rewrite insert_union_l. Qed.

Lemma bump_keeps c w :
  name (bump c w) = name w /\ steps (bump c w) = steps w /\
  is_active (bump c w) = is_active w.
Proof. by destruct c. Qed.

Lemma run_calls self db id w :
  view db id = Some w ->
  handler_calls (log (exec (execute_workflow self id) db))
  = handler_calls (log db) ++ handled (reached self w).
Proof.
  intros Hv. unfold exec. rewrite execute_workflow_spec, Hv.
  unfold committed; cbn [snd log].
  rewrite !handler_calls_app, run_log_calls. cbn. by rewrite app_nil_r.
Qed.

Lemma run_stored self db id w :
  view db id = Some w ->
  stored (exec (execute_workflow self id) db)
  = <[id := bump (verdict self w) (bump TotalRuns w)]>
      (session db ∪ stored db).
Proof.
  intros Hv. unfold exec. rewrite execute_workflow_spec, Hv.
  cbn [snd]. apply committed_frame.
Qed.

Lemma attempt_table self id (table : gmap Z Workflow) :
  attempt self id table =
  match table !! id with
  | Some w => <[id := bump (verdict self w) (bump TotalRuns w)]> table
  | None => table
  end.
Proof.
  unfold attempt.
  assert (view (open_session table) id = table !! id) as Hv.
  { unfold view, open_session; cbn [session stored].
    by rewrite lookup_empty. }
  destruct (table !! id) as [w|] eqn:Hw.
  - rewrite (run_stored self _ id w Hv). unfold open_session.
    cbn [session stored]. by rewrite (left_id_L ∅ (∪)).
  - unfold exec. by rewrite execute_workflow_spec, Hv.
Qed.

(** A run on a session of its own touches the row of its workflow
    and no other: the table it leaves is the table it found with that
    one row replaced, and in that row the name, the steps and the
    activity flag are as they were, so that of these columns and the
    counters only the counters change.  A run for an id that the table
    does not hold leaves the table as it is. *)
Theorem run_changes_counters_only
    (self : StepHandlers) (table : gmap Z Workflow) (id : Z) :
  (forall w, table !! id = Some w ->
     exists w',
       attempt self id table = <[id := w']> table /\
       name w' = name w /\ steps w' = steps w /\
       is_active w' = is_active w /\
       (forall id', id' <> id ->
          attempt self id table !! id' = table !! id')) /\
  (table !! id = None -> attempt self id table = table).
Proof.
  rewrite attempt_table. split.
  - intros w ->. eexists. split; [reflexivity|].
    destruct (bump_keeps (verdict self w) (bump TotalRuns w))
      as (-> & -> & ->).
    destruct (bump_keeps TotalRuns w) as (-> & -> & ->).
    do 3 (split; [done|]).
    intros id' Hne. by rewrite lookup_insert_ne.
  - by intros ->.
Qed.

Lemma run_changes_counters_only_witness :
  (exists w',
     attempt self 1 Scenarios.workflows = <[1 := w']> Scenarios.workflows /\
     name w' = "pipeline" /\
     steps w' = steps Scenarios.extract_then_notify /\
     is_active w' = true /\
     (forall id', id' <> 1 ->
        attempt self 1 Scenarios.workflows !! id'
        = Scenarios.workflows !! id')) /\
  attempt self 9 Scenarios.workflows = Scenarios.workflows.
Proof.
  split.
  - exact (proj1 (run_changes_counters_only self Scenarios.workflows 1)
             Scenarios.extract_then_notify eq_refl).
  - exact (proj2 (run_changes_counters_only self Scenarios.workflows 9)
             eq_refl).
Defined.

(** A workflow whose list of steps is empty succeeds without a handler
    being awaited; a workflow whose [steps] column holds JSON null is
    counted as a failed run, again without a handler being awaited. *)
Theorem run_without_steps
    (self : StepHandlers) (db : Db) (id : Z) (w : Workflow) :
  view db id = Some w ->
  steps w = Some [] \/ steps w = None ->
  let db' := exec (execute_workflow self id) db in
  handler_calls (log db') = handler_calls (log db) /\
  exists w', stored db' !! id = Some w' /\
    total_runs w' = total_runs w + 1 /\
    (steps w = Some [] ->
       successful_runs w' = successful_runs w + 1 /\
       failed_runs w' = failed_runs w) /\
    (steps w = None ->
       successful_runs w' = successful_runs w /\
       failed_runs w' = failed_runs w + 1).
Proof.
  intros Hv Hs. cbv zeta. rewrite (run_calls self db id w Hv).
  rewrite (run_stored self db id w Hv), lookup_insert_eq.
  unfold reached, verdict.
  destruct Hs as [Hs|Hs]; rewrite Hs; cbn.
  - rewrite app_nil_r. split; [done|]. eexists. split; [reflexivity|].
    cbn. split; [done|]. split; [done|]. by intros.
  - rewrite app_nil_r. split; [done|]. eexists. split; [reflexivity|].
    cbn. split; [done|]. split; [by intros|done].
Qed.

Lemma run_without_steps_witness :
  let w := Scenarios.workflow [] in
  let db := open_session {[ 4 := w ]} in
  let db' := exec (execute_workflow self 4) db in
  handler_calls (log db') = handler_calls (log db) /\
  exists w', stored db' !! 4 = Some w' /\
    total_runs w' = 0 + 1 /\
    (steps w = Some [] ->
       successful_runs w' = 0 + 1 /\ failed_runs w' = 0) /\
    (steps w = None ->
       successful_runs w' = 0 /\ failed_runs w' = 0 + 1).
Proof.
  exact (run_without_steps self (open_session {[ 4 := Scenarios.workflow [] ]})
           4 (Scenarios.workflow []) eq_refl (or_introl eq_refl)).
Defined.

Lemma steps_events_cons (s : StepData) (rest : list StepData) :
  steps_events (s :: rest) = step_events (step_type s) ++ steps_events rest.
Proof. done. Qed.

Lemma same_work_step self (s1 s2 : StepData) :
  same_work s1 s2 ->
  step_ok self s1 = step_ok self s2 /\
  step_events (step_type s1) = step_events (step_type s2).
Proof. unfold step_ok. by intros [-> ->]. Qed.

Lemma same_work_steps self (l1 l2 : list StepData) :
  Forall2 same_work l1 l2 ->
  forallb (step_ok self) l1 = forallb (step_ok self) l2 /\
  steps_events (executed self l1) = steps_events (executed self l2).
Proof.
  induction 1 as [|s1 s2 r1 r2 Hs _ [IH1 IH2]]; [done|].
  destruct (same_work_step self s1 s2 Hs) as [Hok Hev].
  cbn [forallb executed]. rewrite <- Hok, IH1. split; [done|].
  destruct (step_ok self s1).
  - by rewrite !steps_events_cons, Hev, IH2.
  - by rewrite !steps_events_cons, Hev.
Qed.

(** The outcome of a run depends only on the types and the configs of
    the steps, in their stored order: two workflows whose steps agree
    on these have the same counter bumped and the same handlers
    awaited, whatever their names, their [is_active] flags and the
    [step_id] and [order] entries of their steps.  In particular a
    workflow that was soft-deleted ([is_active] false) runs like any
    other, and [order] does not reorder the steps. *)
Theorem run_depends_on_step_types_only
    (self : StepHandlers) (db1 db2 : Db) (id : Z) (w1 w2 : Workflow)
    (l1 l2 : list StepData) :
  view db1 id = Some w1 -> view db2 id = Some w2 ->
  steps w1 = Some l1 -> steps w2 = Some l2 ->
  Forall2 same_work l1 l2 ->
  let db1' := exec (execute_workflow self id) db1 in
  let db2' := exec (execute_workflow self id) db2 in
  exists (c : Counter) (calls : list string),
    c <> TotalRuns /\
    stored db1' !! id = Some (bump c (bump TotalRuns w1)) /\
    stored db2' !! id = Some (bump c (bump TotalRuns w2)) /\
    handler_calls (log db1') = handler_calls (log db1) ++ calls /\
    handler_calls (log db2') = handler_calls (log db2) ++ calls.
Proof.
  intros Hv1 Hv2 Hs1 Hs2 Hsame. cbv zeta.
  destruct (same_work_steps self l1 l2 Hsame) as [Hall Hev].
  rewrite (run_calls self db1 id w1 Hv1), (run_calls self db2 id w2 Hv2).
  rewrite (run_stored self db1 id w1 Hv1), (run_stored self db2 id w2 Hv2).
  rewrite !lookup_insert_eq.
  exists (verdict self w1), (handled (reached self w1)).
  assert (verdict self w2 = verdict self w1) as ->.
  { unfold verdict. by rewrite Hs1, Hs2, Hall. }
  assert (handled (reached self w2) = handled (reached self w1)) as ->.
  { unfold handled, reached. by rewrite Hs1, Hs2, Hev. }
  split; [|done]. unfold verdict. rewrite Hs1.
  by destruct (forallb (step_ok self) l1).
Qed.

Lemma run_depends_on_step_types_only_witness :
  let w1 := Scenarios.analyse_then_notify in
  let w2 := {| name := "archived";
               steps := Some [Scenarios.step "b" "ai_analysis" 9;
                              Scenarios.step "a" "notification" 1];
               is_active := false;
               total_runs := 5; successful_runs := 0; failed_runs := 5 |} in
  let db1 := open_session {[ 2 := w1 ]} in
  let db2 := open_session {[ 2 := w2 ]} in
  let db1' := exec (execute_workflow Scenarios.self_with_asyncio 2) db1 in
  let db2' := exec (execute_workflow Scenarios.self_with_asyncio 2) db2 in
  exists (c : Counter) (calls : list string),
    c <> TotalRuns /\
    stored db1' !! 2 = Some (bump c (bump TotalRuns w1)) /\
    stored db2' !! 2 = Some (bump c (bump TotalRuns w2)) /\
    handler_calls (log db1') = handler_calls (log db1) ++ calls /\
    handler_calls (log db2') = handler_calls (log db2) ++ calls.
Proof.
  cbv zeta.
  eapply (run_depends_on_step_types_only Scenarios.self_with_asyncio);
    [reflexivity|reflexivity|reflexivity|reflexivity|].
  repeat constructor.
Defined.

Lemma step_ok_self (s : StepData) : step_ok self s = false.
Proof.
  unfold step_ok, step_result. repeat case_bool_decide; by vm_compute.
Qed.

(** With the handlers as the module defines them (no [import asyncio]),
    a run is counted as successful exactly when the workflow has an
    empty list of steps; a workflow with at least one step is counted
    as failed, and only the handler of its first step, if that step has
    one, is ever awaited. *)
Theorem only_empty_workflows_succeed (db : Db) (id : Z) (w : Workflow) :
  view db id = Some w ->
  let db' := exec (execute_workflow self id) db in
  exists w', stored db' !! id = Some w' /\
    (successful_runs w' = successful_runs w + 1 <-> steps w = Some []) /\
    (failed_runs w' = failed_runs w + 1 <-> steps w <> Some []) /\
    (forall s rest, steps w = Some (s :: rest) ->
       handler_calls (log db') = handler_calls (log db) ++ handled [s]).
Proof.
  intros Hv. cbv zeta. rewrite (run_calls self db id w Hv).
  rewrite (run_stored self db id w Hv), lookup_insert_eq.
  eexists. split; [reflexivity|].
  unfold verdict, reached. destruct (steps w) as [[|s rest]|]; cbn.
  - split; [by split|]. split; [|by intros]. split; [lia|done].
  - rewrite !step_ok_self. cbn.
    split; [split; [lia|done]|]. split; [by split|].
    by intros s' rest' [= <- <-].
  - split; [split; [lia|done]|]. split; [by split|]. by intros.
Qed.

Lemma only_empty_workflows_succeed_witness :
  let db := open_session Scenarios.workflows in
  let db' := exec (execute_workflow self 2) db in
  exists w', stored db' !! 2 = Some w' /\
    (successful_runs w' = 0 + 1
     <-> steps Scenarios.analyse_then_notify = Some []) /\
    (failed_runs w' = 0 + 1
     <-> steps Scenarios.analyse_then_notify <> Some []) /\
    (forall s rest, steps Scenarios.analyse_then_notify = Some (s :: rest) ->
       handler_calls (log db') = handler_calls (log db) ++ handled [s]).
Proof.
  exact (only_empty_workflows_succeed (open_session Scenarios.workflows) 2
           Scenarios.analyse_then_notify eq_refl).
Defined.

Lemma runs_of_cons id (r : Run) (rs : list Run) :
  runs_of id (r :: rs)
  = (if decide (r.2 = id) then 1 else 0) + runs_of id rs.
Proof.
  unfold runs_of. rewrite filter_cons.
  case_decide; cbn [length]; lia.
Qed.

(** Over any sequence of runs, for whatever workflows and with whatever
    handlers, [total_runs] of a workflow grows by the number of runs
    made for it, and so does [successful_runs + failed_runs]: the
    difference between [total_runs] and the two outcome counters never
    changes.  The runs of other workflows leave the row alone, and no
    run adds or removes a row. *)
Theorem runs_keep_counters_balanced
    (rs : list Run) (table : gmap Z Workflow) (id : Z) :
  (forall w, table !! id = Some w ->
     exists w', runs rs table !! id = Some w' /\
       total_runs w' = total_runs w + runs_of id rs /\
       successful_runs w' + failed_runs w'
       = successful_runs w + failed_runs w + runs_of id rs /\
       name w' = name w /\ steps w' = steps w /\
       is_active w' = is_active w) /\
  (table !! id = None -> runs rs table !! id = None).
Proof.
  revert table. induction rs as [|r rs IH]; intros table.
  - split; [|done]. intros w Hw. exists w. unfold runs_of; cbn.
    split; [done|]. split; [lia|]. split; [lia|done].
  - unfold runs. cbn [foldl]. fold (runs rs (run table r)).
    unfold run. rewrite attempt_table, runs_of_cons.
    destruct (IH (match table !! r.2 with
                  | Some w0 =>
                      <[r.2 := bump (verdict r.1 w0) (bump TotalRuns w0)]> table
                  | None => table
                  end)) as [IHs IHn].
    split.
    + intros w Hw. case_decide as Hid.
      * rewrite Hid in *. rewrite Hw in *.
        destruct (IHs _ (lookup_insert_eq _ _ _))
          as (w' & Hw' & Ht & Hsf & Hn & Hst & Ha).
        exists w'. split; [done|].
        destruct (bump_keeps (verdict r.1 w) (bump TotalRuns w))
          as (Hn1 & Hs1 & Ha1).
        destruct (bump_keeps TotalRuns w) as (Hn2 & Hs2 & Ha2).
        destruct (bump_verdict r.1 w w) as [Ht' Hsf'].
        cbv zeta in Ht', Hsf'.
        split; [lia|]. split; [lia|]. split; [congruence|].
        split; congruence.
      * assert (match table !! r.2 with
                | Some w0 =>
                    <[r.2 := bump (verdict r.1 w0) (bump TotalRuns w0)]> table
                | None => table
                end !! id = Some w) as Hw1.
        { destruct (table !! r.2); [by rewrite lookup_insert_ne|done]. }
        destruct (IHs _ Hw1) as (w' & Hw' & Ht & Hsf & Hrest).
        exists w'. split; [done|]. split; [lia|]. split; [lia|done].
    + intros Hnone. apply IHn.
      destruct (table !! r.2) eqn:Hr; [|done].
      rewrite lookup_insert_ne; [done|]. intros Heq. rewrite Heq in Hr.
      congruence.
Qed.

Lemma runs_keep_counters_balanced_witness :
  let rs := [(self, 1); (Scenarios.self_with_asyncio, 2);
             (Scenarios.self_with_asyncio, 1); (self, 7)] in
  (exists w', runs rs Scenarios.workflows !! 1 = Some w' /\
     total_runs w' = 0 + runs_of 1 rs /\
     successful_runs w' + failed_runs w' = 0 + 0 + runs_of 1 rs /\
     name w' = "pipeline" /\
     steps w' = steps Scenarios.extract_then_notify /\
     is_active w' = true) /\
  runs rs Scenarios.workflows !! 7 = None.
Proof.
  cbv zeta. split.
  - exact (proj1 (runs_keep_counters_balanced
                    [(self, 1); (Scenarios.self_with_asyncio, 2);
                     (Scenarios.self_with_asyncio, 1); (self, 7)]
                    Scenarios.workflows 1)
             Scenarios.extract_then_notify eq_refl).
  - exact (proj2 (runs_keep_counters_balanced
                    [(self, 1); (Scenarios.self_with_asyncio, 2);
                     (Scenarios.self_with_asyncio, 1); (self, 7)]
                    Scenarios.workflows 7) eq_refl).
Defined.

End WorkflowRunFacts.

(** * More facts about the job runner, cancellation and the status report *)

Section JobLifecycleFacts.

Import ProcessingService ProcessingEndpoints.

Implicit Types (db : Db) (id : Z) (j : Job) (σ τ : gmap Z Job).
Implicit Types (clk : nat -> Z) (k : nat).

Lemma persist_frame id j σ τ : persist id j σ τ = <[id := j]> (σ ∪ τ).
Proof. unfold persist. by rewrite insert_union_l. Qed.

Lemma persist_persist id j j' σ τ :
  persist id j σ (persist id j' σ τ) = persist id j σ τ.
Proof.
  rewrite !persist_frame. apply map_eq. intros i.
  destruct (decide (i = id)) as [->|Hne].
  - by rewrite !lookup_insert_eq.
  - rewrite !lookup_insert_ne by done.
    rewrite !lookup_union, lookup_insert_ne by done.
    rewrite lookup_union. by destruct (σ !! i), (τ !! i).
Qed.

Lemma last_persist_each_frame id σ (js : list Job) : forall τ d,
  js <> [] ->
  List.last (persist_each id σ τ js) τ = persist id (List.last js d) σ τ.
Proof.
  induction js as [|x xs IH]; intros τ d Hne; [done|].
  cbn [persist_each]. rewrite !last_cons.
  destruct xs as [|y ys]; [done|].
  rewrite (IH _ x) by done. apply persist_persist.
Qed.


Lemma view_open_session (table : gmap Z Job) clk id :
  view (open_session table clk) id = table !! id.
Proof. unfold view, open_session; cbn. by rewrite lookup_empty. Qed.






Lemma persist_each_frame id σ (js : list Job) : forall τ,
  Forall (fun t => exists s, t = persist id s σ τ) (persist_each id σ τ js).
Proof.
  induction js as [|x xs IH]; intros τ; [constructor|].
  cbn [persist_each]. constructor; [by exists x|].
  eapply Forall_impl; [apply IH|]. cbv beta. intros t [s ->].
  exists s. apply persist_persist.
Qed.

Lemma persist_fresh id j (table : gmap Z Job) :
  persist id j ∅ table = <[id := j]> table.
Proof. by rewrite persist_frame, (left_id_L ∅ (∪)). Qed.

(** Both the runner and [cancel_job], on a session of their own, write
    one row: every table they commit on the way, and the table they
    leave, is the table they found with the row of their job replaced.
    For an id that the table does not hold neither of them commits or
    changes anything, and neither reads the clock. *)
Theorem job_commits_touch_one_row
    (table : gmap Z Job) (clk : nat -> Z) (id : Z) :
  let run := exec (_process_job_async id) (open_session table clk) in
  let cancel := exec (cancel_job id) (open_session table clk) in
  (forall j, table !! id = Some j ->
     Forall (fun t => exists s, t = <[id := s]> table) (commits run) /\
     (exists s, stored run = <[id := s]> table) /\
     Forall (fun t => exists s, t = <[id := s]> table) (commits cancel) /\
     (exists s, stored cancel = <[id := s]> table)) /\
  (table !! id = None ->
     run = open_session table clk /\ cancel = open_session table clk).
Proof.
  cbv zeta. unfold exec.
  rewrite process_job_async_spec, cancel_job_spec, view_open_session.
  split.
  - intros j Hj. rewrite Hj. cbv zeta. unfold loaded, open_session.
    cbn [snd commits stored session app].
    split; [|split].
    + eapply Forall_impl; [apply persist_each_frame|]. cbv beta.
      intros t [s ->]. exists s. apply persist_fresh.
    + eexists. rewrite (last_persist_each_frame _ _ _ _ j)
        by apply runner_states_nonempty.
      apply persist_fresh.
    + destruct (decide (status j = PENDING \/ status j = RUNNING)) as [Hs|Hs].
      * rewrite bool_decide_eq_true_2 by done. cbn [snd commits stored].
        split; [|eexists; apply persist_fresh].
        repeat constructor. eexists. apply persist_fresh.
      * rewrite bool_decide_eq_false_2 by done. cbn [snd commits stored].
        split; [constructor|]. exists j. by rewrite insert_id.
  - by intros ->.
Qed.

Lemma job_commits_touch_one_row_witness :
  let run := exec (_process_job_async 1)
               (open_session Scenarios.jobs Scenarios.seconds) in
  let cancel := exec (cancel_job 1)
                  (open_session Scenarios.jobs Scenarios.seconds) in
  (Forall (fun t => exists s, t = <[1 := s]> Scenarios.jobs) (commits run) /\
   (exists s, stored run = <[1 := s]> Scenarios.jobs) /\
   Forall (fun t => exists s, t = <[1 := s]> Scenarios.jobs)
     (commits cancel) /\
   (exists s, stored cancel = <[1 := s]> Scenarios.jobs)) /\
  exec (_process_job_async 9) (open_session Scenarios.jobs Scenarios.seconds)
  = open_session Scenarios.jobs Scenarios.seconds.
Proof.
  cbv zeta. split.
  - exact (proj1 (job_commits_touch_one_row Scenarios.jobs Scenarios.seconds 1)
             (Scenarios.job "text_extraction") eq_refl).
  - exact (proj1 (proj2 (job_commits_touch_one_row Scenarios.jobs
                           Scenarios.seconds 9) eq_refl)).
Defined.

Lemma cancel_job_fresh (table : gmap Z Job) clk id j :
  table !! id = Some j ->
  status j = PENDING \/ status j = RUNNING ->
  cancel_job id (open_session table clk)
  = (Return true,
     loaded id (cancelled (clk 0%nat) j) ∅
       (<[id := cancelled (clk 0%nat) j]> table)
       [<[id := cancelled (clk 0%nat) j]> table] clk 1).
Proof.
  intros Hj Hst. rewrite cancel_job_spec, view_open_session, Hj. cbv zeta.
  rewrite bool_decide_eq_true_2 by done.
  unfold open_session; cbn [session stored commits clock ticks app].
  by rewrite persist_fresh.
Qed.



Lemma cancel_processing_job_spec db id :
  cancel_processing_job id db =
  match cancel_job id db with
  | (Return true, db') =>
      (Return (Body [("message", "Processing job cancelled successfully")]),
       db')
  | (Return false, db') =>
      (Return (HTTPException 404 "Processing job not found"), db')
  | (Raise e, db') =>
      (Return (HTTPException 500
                 ("Error cancelling processing job: " +:+ str e)), db')
  end.
Proof.
  unfold cancel_processing_job, try_except, bind.
  by destruct (cancel_job id db) as [[[]|] ?].
Qed.

Lemma cancel_processing_job_fresh (table : gmap Z Job) clk id :
  cancel_processing_job id (open_session table clk) =
  match table !! id with
  | None =>
      (Return (HTTPException 404 "Processing job not found"),
       open_session table clk)
  | Some j =>
      if bool_decide (status j = PENDING \/ status j = RUNNING) then
        (Return (Body [("message",
                        "Processing job cancelled successfully")]),
         loaded id (cancelled (clk 0%nat) j) ∅
           (<[id := cancelled (clk 0%nat) j]> table)
           [<[id := cancelled (clk 0%nat) j]> table] clk 1)
      else
        (Return (HTTPException 404 "Processing job not found"),
         loaded id j ∅ table [] clk 0)
  end.
Proof.
  rewrite cancel_processing_job_spec.
  destruct (table !! id) as [j|] eqn:Hj.
  - destruct (decide (status j = PENDING \/ status j = RUNNING)) as [Hst|Hst].
    + rewrite (cancel_job_fresh table clk id j Hj Hst).
      by rewrite bool_decide_eq_true_2.
    + rewrite cancel_job_spec, view_open_session, Hj. cbv zeta.
      by rewrite bool_decide_eq_false_2.
  - by rewrite cancel_job_spec, view_open_session, Hj.
Qed.

(** [POST /jobs/{id}/cancel], on the session of its request, answers
    with the success message exactly when the job exists and is
    pending or running, and then stores it as cancelled; it answers
    404 "Processing job not found" exactly when there is no such job or
    the job is already completed or failed, and then leaves the table
    as it is.  Whatever the first answer was, a second request for the
    same job is answered 404. *)
Theorem cancel_endpoint_replies
    (table : gmap Z Job) (clk clk' : nat -> Z) (id : Z) :
  let cancelled_ok : Outcome (Response (list (string * string))) :=
    Return (Body [("message", "Processing job cancelled successfully")]) in
  let not_found : Outcome (Response (list (string * string))) :=
    Return (HTTPException 404 "Processing job not found") in
  let reply := outcome (cancel_processing_job id) (open_session table clk) in
  let table' :=
    stored (exec (cancel_processing_job id) (open_session table clk)) in
  (reply = cancelled_ok <->
     exists j, table !! id = Some j /\
       (status j = PENDING \/ status j = RUNNING)) /\
  (reply = not_found <->
     table !! id = None \/
     exists j, table !! id = Some j /\
       (status j = COMPLETED \/ status j = FAILED)) /\
  (forall j, table !! id = Some j ->
     status j = PENDING \/ status j = RUNNING ->
     table' = <[id := cancelled (clk 0%nat) j]> table) /\
  (reply = not_found -> table' = table) /\
  outcome (cancel_processing_job id) (open_session table' clk') = not_found.
Proof.
  cbv zeta. unfold outcome, exec.
  rewrite (cancel_processing_job_fresh table clk id).
  destruct (table !! id) as [j|] eqn:Hj.
  - destruct (decide (status j = PENDING \/ status j = RUNNING)) as [Hst|Hst].
    + rewrite bool_decide_eq_true_2 by done.
      unfold loaded; cbn [fst snd stored].
      rewrite cancel_processing_job_fresh, lookup_insert_eq.
      rewrite bool_decide_eq_false_2
        by (unfold cancelled; cbn; intros [?|?]; discriminate).
      cbn [fst]. split; [split; [by exists j|done]|].
      split; [split; [done|]|].
      { intros [?|(j' & [= <-] & [?|?])]; [done|..];
          destruct Hst as [?|?]; congruence. }
      split; [by intros j' [= <-]|]. split; [done|done].
    + rewrite bool_decide_eq_false_2 by done.
      unfold loaded; cbn [fst snd stored].
      rewrite cancel_processing_job_fresh, Hj.
      rewrite bool_decide_eq_false_2 by done. cbn [fst].
      split; [split; [done|]|].
      { intros (j' & [= <-] & ?). done. }
      split; [split; [intros _; right; exists j; split; [done|]|done]|].
      { destruct (status j); tauto. }
      split; [|done]. intros j' [= <-] ?. done.
  - cbn [fst snd]. change (stored (open_session table clk)) with table.
    rewrite cancel_processing_job_fresh, Hj. cbn [fst].
    split; [split; [done|by intros (j & ? & _)]|].
    split; [split; [by left|done]|]. split; [by intros j|done].
Qed.



(** *** The status report *)

Lemma get_system_status_fields db :
  exists st,
    get_system_status db
    = (Return st,
       {| session := session db; stored := stored db;
          commits := commits db; clock := clock db;
          ticks := S (ticks db) |}) /\
    total_jobs st = Z.of_nat (size (stored db)) /\
    pending_jobs st = count (has_status PENDING) (stored db) /\
    running_jobs st = count (has_status RUNNING) (stored db) /\
    completed_jobs st = count (has_status COMPLETED) (stored db) /\
    failed_jobs st = count (has_status FAILED) (stored db) /\
    recent_jobs_24h st
    = count (fun j => bool_decide
                        (created_at j >= clock db (ticks db) - hours_24))
            (stored db) /\
    success_rate st
    = round2 (if bool_decide (total_jobs st > 0)
              then (inject_Z (completed_jobs st) / inject_Z (total_jobs st)
                    * 100)%Q
              else 0%Q).
Proof.
  unfold get_system_status, bind, gets, utcnow, ret. cbn [fst snd].
  eexists. split; [reflexivity|]. cbn. done.
Qed.

Lemma count_bounds (P : Job -> bool) (table : gmap Z Job) :
  0 <= count P table <= Z.of_nat (size table).
Proof.
  unfold count. rewrite <- length_map_to_list.
  pose proof (length_filter (fun kj : Z * Job => P kj.2 = true)
                (map_to_list table)).
  lia.
Qed.

Lemma round_half_even_bounds (x : Q) (lo hi : Z) :
  (inject_Z lo <= x)%Q -> (x <= inject_Z hi)%Q ->
  lo <= round_half_even x <= hi.
Proof.
  intros Hlo Hhi. unfold round_half_even.
  pose proof (Qfloor_le x) as Hf.
  assert (lo <= Qfloor x) as Hlo'.
  { rewrite <- (Qfloor_Z lo). by apply Qfloor_resp_le. }
  assert (Qfloor x <= hi) as Hhi'.
  { rewrite <- (Qfloor_Z hi). by apply Qfloor_resp_le. }
  destruct (x - inject_Z (Qfloor x) ?= 1 # 2)%Q eqn:Hc.
  - apply Qeq_alt in Hc.
    assert (Qfloor x < hi) by (rewrite Zlt_Qlt; lra).
    destruct (Z.even (Qfloor x)); lia.
  - lia.
  - apply Qgt_alt in Hc.
    assert (Qfloor x < hi) by (rewrite Zlt_Qlt; lra). lia.
Qed.

Lemma round2_percentage (x : Q) :
  (0 <= x)%Q -> (x <= 100)%Q -> (0 <= round2 x)%Q /\ (round2 x <= 100)%Q.
Proof.
  intros Hlo Hhi.
  destruct (round_half_even_bounds (x * 100) 0 10000) as [H0 H1].
  { change (inject_Z 0) with 0%Q. lra. }
  { change (inject_Z 10000) with 10000%Q. lra. }
  unfold round2, Qle; cbn. lia.
Qed.

Lemma success_rate_bounds (completed total : Z) :
  0 <= completed <= total ->
  let rate :=
    round2 (if bool_decide (total > 0)
            then (inject_Z completed / inject_Z total * 100)%Q
            else 0%Q) in
  (0 <= rate)%Q /\ (rate <= 100)%Q.
Proof.
  intros Hc. cbv zeta. apply round2_percentage.
  - case_bool_decide; [|done].
    assert (0 < inject_Z total)%Q
      by (change 0%Q with (inject_Z 0); rewrite <- Zlt_Qlt; lia).
    assert (0 <= inject_Z completed)%Q
      by (change 0%Q with (inject_Z 0); rewrite <- Zle_Qle; lia).
    assert (0 <= inject_Z completed / inject_Z total)%Q
      by (apply Qle_shift_div_l; [done|lra]).
    lra.
  - case_bool_decide; [|done].
    assert (0 < inject_Z total)%Q
      by (change 0%Q with (inject_Z 0); rewrite <- Zlt_Qlt; lia).
    assert (inject_Z completed <= inject_Z total)%Q
      by (rewrite <- Zle_Qle; lia).
    assert (inject_Z completed / inject_Z total <= 1)%Q
      by (apply Qle_shift_div_r; [done|lra]).
    lra.
Qed.

(** The status report only reads: it returns, commits nothing and
    leaves the session and the table as they are.  Every count it
    gives, the 24-hour count included, lies between 0 and the total,
    and the success rate is a percentage between 0 and 100. *)
Theorem status_report_is_bounded (db : Db) :
  exists st,
    outcome get_system_status db = Return st /\
    session (exec get_system_status db) = session db /\
    stored (exec get_system_status db) = stored db /\
    commits (exec get_system_status db) = commits db /\
    0 <= total_jobs st /\
    0 <= pending_jobs st <= total_jobs st /\
    0 <= running_jobs st <= total_jobs st /\
    0 <= completed_jobs st <= total_jobs st /\
    0 <= failed_jobs st <= total_jobs st /\
    0 <= recent_jobs_24h st <= total_jobs st /\
    (0 <= success_rate st)%Q /\ (success_rate st <= 100)%Q.
Proof.
  destruct (get_system_status_fields db)
    as (st & Hrun & Ht & Hp & Hr & Hc & Hf & Hrec & Hrate).
  exists st. unfold outcome, exec. rewrite Hrun. cbn [fst snd].
  do 4 (split; [done|]).
  rewrite Hrate, Hp, Hr, Hc, Hf, Hrec, Ht.
  split; [lia|]. do 5 (split; [apply count_bounds|]).
  apply success_rate_bounds, count_bounds.
Qed.




End JobLifecycleFacts.

(** * More facts about text extraction and the document tasks *)

Section ReaderFacts.

Import TextExtractionService TextExtractionReaders.

Implicit Types (lib : Libraries) (p : string).

Lemma wrap_cases prefix (o : Outcome string) :
  (exists text, wrap prefix o = Return text /\ o = Return text) \/
  (exists e, wrap prefix o = Raise (Exception (prefix +:+ str e)) /\
             o = Raise e).
Proof. destruct o as [text|e]; [left|right]; by eexists. Qed.

Lemma dispatch_reader_outcome lib p :
  file_extension lib p ∈ get_supported_formats ->
  (exists text, dispatch lib p = Return text) \/
  (exists msg, dispatch lib p = Raise (Exception msg)).
Proof.
  intros Hin. unfold dispatch. cbv zeta.
  repeat case_bool_decide.
  - unfold _extract_from_pdf.
    destruct (wrap_cases "Error reading PDF: " (read_pdf lib p))
      as [(? & -> & _)|(? & -> & _)]; [left|right]; by eexists.
  - unfold _extract_from_docx.
    destruct (wrap_cases "Error reading DOCX: " (read_docx lib p))
      as [(? & -> & _)|(? & -> & _)]; [left|right]; by eexists.
  - unfold _extract_from_txt. destruct (read_utf8 lib p).
    + left; by eexists.
    + destruct (wrap_cases "Error reading TXT file: " (read_latin1 lib p))
        as [(? & -> & _)|(? & -> & _)]; [left|right]; by eexists.
    + right; by eexists.
  - unfold _extract_from_image.
    destruct (wrap_cases "Error extracting text from image: "
                (read_image lib p))
      as [(? & -> & _)|(? & -> & _)]; [left|right]; by eexists.
  - exfalso. unfold get_supported_formats in Hin.
    rewrite !elem_of_cons, elem_of_nil in *. intuition congruence.
Qed.

Lemma dispatch_unsupported lib p :
  file_extension lib p ∉ get_supported_formats ->
  dispatch lib p
  = Raise (ValueError ("Unsupported file type: " +:+ file_extension lib p)).
Proof.
  intros Hout. unfold dispatch. cbv zeta.
  repeat case_bool_decide; try done.
  all: exfalso; apply Hout; unfold get_supported_formats.
  all: rewrite !elem_of_cons, ?elem_of_nil in *; intuition congruence.
Qed.

(** The extensions that [get_supported_formats] lists are exactly the
    ones that [extract_text] hands to a reader: for a listed extension
    the dispatch returns text or raises an [Exception] of one of the
    readers, and it raises the [ValueError] "Unsupported file type"
    exactly for the extensions that are not listed. *)
Theorem supported_formats_match_dispatch (lib : Libraries) (p : string) :
  let ext := file_extension lib p in
  (ext ∈ get_supported_formats ->
     (exists text, dispatch lib p = Return text) \/
     (exists msg, dispatch lib p = Raise (Exception msg))) /\
  (dispatch lib p = Raise (ValueError ("Unsupported file type: " +:+ ext))
   <-> ext ∉ get_supported_formats).
Proof.
  cbv zeta. split; [apply dispatch_reader_outcome|]. split.
  - intros Hd Hin.
    destruct (dispatch_reader_outcome lib p Hin) as [[? H]|[? H]];
      rewrite H in Hd; discriminate.
  - apply dispatch_unsupported.
Qed.

Lemma supported_formats_match_dispatch_witness :
  let lib := {| exists_ := fun _ => true;
                file_extension := fun _ => ".csv";
                read_pdf := fun _ => Return "";
                read_docx := fun _ => Return "";
                read_utf8 := fun _ => Utf8Text "";
                read_latin1 := fun _ => Return "";
                read_image := fun _ => Return "" |} in
  dispatch lib "data.csv"
  = Raise (ValueError "Unsupported file type: .csv").
Proof.
  cbv zeta.
  apply (proj2 (proj2 (supported_formats_match_dispatch
                         {| exists_ := fun _ => true;
                            file_extension := fun _ => ".csv";
                            read_pdf := fun _ => Return "";
                            read_docx := fun _ => Return "";
                            read_utf8 := fun _ => Utf8Text "";
                            read_latin1 := fun _ => Return "";
                            read_image := fun _ => Return "" |}
                         "data.csv"))).
  apply (bool_decide_unpack _); vm_compute; exact I.
Defined.

(** [extract_text] raises only for a missing file, and then
    [FileNotFoundError]; for a file that exists it always returns.  An
    unsupported extension and a failing reader are reported in the
    returned text: "Error extracting text: Unsupported file type:
    <ext>", or "Error extracting text: " followed by the reader's own
    message, such as "Error reading PDF: <cause>".  A text file that
    is not valid UTF-8 is read again as Latin-1. *)
Theorem extraction_errors_become_text (lib : Libraries) (p : string) :
  let fs := file_system lib in
  let ext := file_extension lib p in
  (exists_ lib p = false <->
     extract_text fs p = Raise (FileNotFoundError ("File not found: " +:+ p))) /\
  (exists_ lib p = true <-> exists text, extract_text fs p = Return text) /\
  (exists_ lib p = true -> ext ∉ get_supported_formats ->
     extract_text fs p
     = Return ("Error extracting text: Unsupported file type: " +:+ ext)) /\
  (forall e, exists_ lib p = true -> ext = ".pdf" -> read_pdf lib p = Raise e ->
     extract_text fs p
     = Return ("Error extracting text: Error reading PDF: " +:+ str e)) /\
  (forall text, exists_ lib p = true -> ext = ".txt" ->
     read_utf8 lib p = UnicodeDecodeError ->
     read_latin1 lib p = Return text ->
     extract_text fs p = Return text).
Proof.
  cbv zeta. unfold extract_text, file_system; cbn [path_exists extract_by_extension].
  destruct (exists_ lib p) eqn:He; cbn [negb].
  - split; [split; [done|by destruct (dispatch lib p)]|].
    split; [split; [intros _|done]|].
    { destruct (dispatch lib p); by eexists. }
    split; [|split].
    + intros _ Hout. by rewrite (dispatch_unsupported lib p Hout).
    + intros e _ Hext Hr. unfold dispatch. cbv zeta.
      rewrite bool_decide_eq_true_2 by done.
      unfold _extract_from_pdf. by rewrite Hr.
    + intros text _ Hext Hu Hl. unfold dispatch. cbv zeta. rewrite Hext.
      repeat (case_bool_decide;
              [exfalso;
               rewrite ?elem_of_cons, ?elem_of_nil in *; intuition congruence
              |]).
      rewrite bool_decide_eq_true_2 by done.
      unfold _extract_from_txt. by rewrite Hu, Hl.
  - split; [done|]. split; [split; [done|by intros [? ?]]|].
    split; [done|]. split; [done|done].
Qed.

Lemma extraction_errors_become_text_witness :
  let lib := {| exists_ := fun p => bool_decide (p = "scan.pdf");
                file_extension := fun _ => ".pdf";
                read_pdf := fun _ => Raise (TypeError "a bytes-like object is required");
                read_docx := fun _ => Return "";
                read_utf8 := fun _ => Utf8Text "";
                read_latin1 := fun _ => Return "";
                read_image := fun _ => Return "" |} in
  extract_text (file_system lib) "scan.pdf"
  = Return ("Error extracting text: Error reading PDF: "
            +:+ "a bytes-like object is required") /\
  extract_text (file_system lib) "lost.pdf"
  = Raise (FileNotFoundError "File not found: lost.pdf").
Proof.
  cbv zeta.
  set (lib := {| exists_ := fun p => bool_decide (p = "scan.pdf");
                 file_extension := fun _ => ".pdf";
                 read_pdf := fun _ => Raise (TypeError "a bytes-like object is required");
                 read_docx := fun _ => Return "";
                 read_utf8 := fun _ => Utf8Text "";
                 read_latin1 := fun _ => Return "";
                 read_image := fun _ => Return "" |}).
  split.
  - destruct (extraction_errors_become_text lib "scan.pdf")
      as (_ & _ & _ & H & _).
    exact (H (TypeError "a bytes-like object is required")
             eq_refl eq_refl eq_refl).
  - destruct (extraction_errors_become_text lib "lost.pdf") as (H & _).
    exact (proj1 H eq_refl).
Defined.

End ReaderFacts.

Section ExtractTaskFacts.

Import TextExtractionService DocumentTasks ExtractTextTask.

Implicit Types (fs : FileSystem) (table : gmap Z Document) (d : Document).

Lemma processed_found fs d text :
  extract_text fs (file_path d) = Return text ->
  processed fs d
  = set_processing_progress 100
      (set_status "completed" (set_extracted_text (Some text) d)).
Proof. unfold processed. by intros ->. Qed.

Lemma processed_failed fs d e :
  extract_text fs (file_path d) = Raise e ->
  processed fs d = set_error_message (Some (str e)) (set_status "failed" d).
Proof. unfold processed. by intros ->. Qed.

Lemma extract_text_missing fs p :
  path_exists fs p = false ->
  extract_text fs p = Raise (FileNotFoundError ("File not found: " +:+ p)).
Proof. unfold extract_text. by intros ->. Qed.

Lemma extract_text_present fs p :
  path_exists fs p = true -> exists text, extract_text fs p = Return text.
Proof.
  unfold extract_text. intros ->. cbn [negb].
  destruct (extract_by_extension fs p); by eexists.
Qed.

(** The task in closed form. *)
Lemma extract_text_from_document_spec fs retries table id :
  extract_text_from_document fs retries id (start table) =
  match table !! id with
  | None =>
      (Raise (AttributeError "'NoneType' object has no attribute 'status'"),
       {| session := ∅; stored := table; log := [EvQuery id];
          document := Bound None |})
  | Some d =>
      let begun :=
        [EvQuery id;
         EvUpdateState {| progress := 10;
                          status_text := "Starting text extraction" |};
         EvExtract (file_path d)] in
      match extract_text fs (file_path d) with
      | Return text =>
          (Return {| result_document_id := id;
                     extracted_text_length := len text;
                     result_status := "completed" |},
           {| session := ∅; stored := <[id := processed fs d]> table;
              log := begun
                     ++ [EvUpdateState
                           {| progress := 80;
                              status_text := "Saving extracted text" |};
                         EvCommit;
                         EvUpdateState
                           {| progress := 100;
                              status_text := "Text extraction completed" |}];
              document := Bound (Some id) |})
      | Raise e =>
          (Raise (if bool_decide (retries + 1 > 3) then e
                  else Retry (str e)),
           {| session := ∅; stored := <[id := processed fs d]> table;
              log := begun ++ [EvCommit];
              document := Bound (Some id) |})
      end
  end.
Proof.
  unfold extract_text_from_document, try_finally, try_except.
  unfold extract_text_from_document_try.
  unfold bind at 1, query_first at 1.
  unfold bind at 1, emit at 1, modify at 1, start.
  cbn [session stored log document]. rewrite lookup_empty.
  destruct (table !! id) as [d|] eqn:Hd.
  - unfold bind at 1, emit at 1, modify at 1.
    unfold bind at 1, emit at 1, modify at 1.
    unfold bind at 1, lift at 1. cbv zeta.
    destruct (extract_text fs (file_path d)) as [text|e] eqn:Hext.
    + cbv beta iota zeta delta
        [bind emit setattr commit modify ret close
         session stored log document fst snd].
      rewrite !alter_insert_eq, <- insert_union_l, (left_id_L ∅ (∪)).
      by rewrite (processed_found fs d text Hext).
    + cbv beta iota zeta delta
        [extract_text_from_document_except retry raise
         bind gets emit setattr commit modify ret close
         session stored log document fst snd].
      rewrite !alter_insert_eq, <- insert_union_l, (left_id_L ∅ (∪)).
      rewrite (processed_failed fs d e Hext).
      by case_bool_decide.
  - by cbv beta iota zeta delta
      [extract_text_from_document_except retry raise
       bind gets emit setattr commit modify ret close
       session stored log document fst snd].
Qed.

(** For a document id that the table does not hold, the task does not
    end with the [ValueError] "Document <id> not found" it raises, nor
    does it ask for a retry: the [except] block finds the local
    [document] bound to [None], assigns to its attribute and so raises
    [AttributeError], whatever the number of earlier retries.  No
    progress is reported and nothing is written. *)
Theorem missing_document_masks_the_error
    (fs : FileSystem) (retries : Z) (table : gmap Z Document) (id : Z) :
  table !! id = None ->
  let run := extract_text_from_document fs retries id in
  outcome run (start table)
  = Raise (AttributeError "'NoneType' object has no attribute 'status'") /\
  stored (exec run (start table)) = table /\
  session (exec run (start table)) = ∅ /\
  log (exec run (start table)) = [EvQuery id].
Proof.
  intros Hd. cbv zeta. unfold outcome, exec.
  by rewrite extract_text_from_document_spec, Hd.
Qed.

Lemma missing_document_masks_the_error_witness :
  let run := extract_text_from_document Scenarios.disk 0 2 in
  outcome run (start Scenarios.documents)
  = Raise (AttributeError "'NoneType' object has no attribute 'status'") /\
  stored (exec run (start Scenarios.documents)) = Scenarios.documents /\
  session (exec run (start Scenarios.documents)) = ∅ /\
  log (exec run (start Scenarios.documents)) = [EvQuery 2].
Proof.
  exact (missing_document_masks_the_error Scenarios.disk 0
           Scenarios.documents 2 eq_refl).
Defined.

(** For a document that the table holds, the task writes that one row
    and closes its session.  When the file exists it reports progress
    10, 80 and 100, stores the extracted text with status "completed"
    and progress 100, and returns the length of the text.  When the
    file is missing it reports progress 10 only, stores status
    "failed" with the message "File not found: <path>", and then asks
    for a retry, or raises the [FileNotFoundError] itself once three
    retries are used up. *)
Theorem extract_task_outcomes
    (fs : FileSystem) (retries : Z) (table : gmap Z Document)
    (id : Z) (d : Document) :
  table !! id = Some d ->
  let run := extract_text_from_document fs retries id in
  let t' := exec run (start table) in
  stored t' = <[id := processed fs d]> table /\
  session t' = ∅ /\
  file_path (processed fs d) = file_path d /\
  (path_exists fs (file_path d) = true ->
     exists text,
       extract_text fs (file_path d) = Return text /\
       outcome run (start table)
       = Return {| result_document_id := id;
                   extracted_text_length := len text;
                   result_status := "completed" |} /\
       reported (log t') = [10; 80; 100] /\
       extracted_text (processed fs d) = Some text /\
       DocumentTasks.status (processed fs d) = "completed" /\
       (processing_progress (processed fs d) == 100)%Q /\
       DocumentTasks.error_message (processed fs d)
       = DocumentTasks.error_message d) /\
  (path_exists fs (file_path d) = false ->
     let e := FileNotFoundError ("File not found: " +:+ file_path d) in
     outcome run (start table)
     = Raise (if bool_decide (retries + 1 > 3) then e else Retry (str e)) /\
     reported (log t') = [10] /\
     DocumentTasks.status (processed fs d) = "failed" /\
     DocumentTasks.error_message (processed fs d)
     = Some ("File not found: " +:+ file_path d) /\
     extracted_text (processed fs d) = extracted_text d).
Proof.
  intros Hd. cbv zeta. unfold outcome, exec.
  rewrite extract_text_from_document_spec, Hd. cbv zeta.
  assert (file_path (processed fs d) = file_path d) as Hpath.
  { unfold processed. by destruct (extract_text fs (file_path d)). }
  destruct (path_exists fs (file_path d)) eqn:He.
  - destruct (extract_text_present fs _ He) as [text Hext].
    rewrite Hext. cbn [fst snd stored session log].
    do 3 (split; [done|]). split; [|done]. intros _.
    exists text. rewrite (processed_found fs d text Hext).
    do 3 (split; [done|]). by cbn.
  - rewrite (extract_text_missing fs _ He). cbn [fst snd stored session log].
    do 3 (split; [done|]). split; [done|]. intros _.
    rewrite (processed_failed fs d _ (extract_text_missing fs _ He)).
    by cbn.
Qed.

Lemma extract_task_outcomes_witness :
  let run := extract_text_from_document Scenarios.disk 3 1 in
  let d := Scenarios.document "uploads/a.txt" in
  let t' := exec run (start Scenarios.documents) in
  stored t' = <[1 := processed Scenarios.disk d]> Scenarios.documents /\
  outcome run (start Scenarios.documents)
  = Return {| result_document_id := 1; extracted_text_length := 5;
              result_status := "completed" |} /\
  reported (log t') = [10; 80; 100].
Proof.
  cbv zeta.
  destruct (extract_task_outcomes Scenarios.disk 3 Scenarios.documents 1
              (Scenarios.document "uploads/a.txt") eq_refl)
    as (Hs & _ & _ & Hok & _).
  split; [exact Hs|].
  destruct (Hok eq_refl) as (text & Hext & Hout & Hrep & _).
  injection Hext as <-. split; [exact Hout|exact Hrep].
Defined.

End ExtractTaskFacts.

Section BatchEffectFacts.

Import TextExtractionService DocumentTasks.

Implicit Types (fs : FileSystem) (table : gmap Z Document) (t : Task).
Implicit Types (d : Document) (seen : list Z).

Lemma processed_idem fs d :
  ExtractTextTask.processed fs (ExtractTextTask.processed fs d)
  = ExtractTextTask.processed fs d.
Proof.
  unfold ExtractTextTask.processed.
  destruct (extract_text fs (file_path d)) as [text|e] eqn:Hext;
    cbn [file_path set_processing_progress set_status set_extracted_text
         set_error_message];
    by rewrite Hext.
Qed.

Lemma processed_path fs d :
  file_path (ExtractTextTask.processed fs d) = file_path d.
Proof.
  unfold ExtractTextTask.processed.
  by destruct (extract_text fs (file_path d)).
Qed.

(** How one item moves the session: the object of its document, if
    the table has one, becomes [processed]; every other object stays. *)
Lemma session_step fs table seen id (σ σ' : gmap Z Document) :
  (forall k, k ∈ seen ->
     σ !! k = ExtractTextTask.processed fs <$> table !! k) ->
  (forall k, k ∉ seen -> σ !! k = None) ->
  σ' !! id = ExtractTextTask.processed fs <$> table !! id ->
  (forall k, k <> id -> σ' !! k = σ !! k) ->
  (forall k, k ∈ seen ++ [id] ->
     σ' !! k = ExtractTextTask.processed fs <$> table !! k) /\
  (forall k, k ∉ seen ++ [id] -> σ' !! k = None).
Proof.
  intros Hin Hout Hid Hframe. split.
  - intros k Hk. destruct (decide (k = id)) as [->|Hne]; [done|].
    rewrite Hframe by done. apply Hin.
    apply elem_of_app in Hk as [Hk|Hk]; [done|].
    by apply list_elem_of_singleton in Hk.
  - intros k Hk. rewrite elem_of_app, list_elem_of_singleton in Hk.
    rewrite Hframe by tauto. apply Hout. tauto.
Qed.

Lemma process_item_session fs table total i id (results : list Entry) t seen :
  stored t = table ->
  (forall k, k ∈ seen ->
     session t !! k = ExtractTextTask.processed fs <$> table !! k) ->
  (forall k, k ∉ seen -> session t !! k = None) ->
  0 <= i < 2 ^ 53 -> 0 < total < 2 ^ 53 ->
  exists t' results',
    try_except (process_item_try fs total i id results)
               (process_item_except id results) t
    = (Return results', t') /\
    stored t' = table /\
    (forall k, k ∈ seen ++ [id] ->
       session t' !! k = ExtractTextTask.processed fs <$> table !! k) /\
    (forall k, k ∉ seen ++ [id] -> session t' !! k = None).
Proof.
  intros Hst Hin Hout Hi Ht.
  destruct (batch_progress_returns i total Hi Ht) as [p Hp].
  unfold try_except, process_item_try. rewrite Hp.
  unfold bind at 1, lift at 1. unfold bind at 1, emit at 1.
  unfold modify at 1. unfold bind at 1, query_first at 1.
  unfold bind at 1, emit at 1, modify at 1. cbn [session stored log document].
  destruct (session t !! id) as [d|] eqn:Hd.
  - assert (exists d0, table !! id = Some d0 /\
                       d = ExtractTextTask.processed fs d0)
      as (d0 & Hd0 & ->).
    { destruct (decide (id ∈ seen)) as [Hs|Hs].
      - rewrite (Hin id Hs) in Hd. destruct (table !! id) as [d0|]; [|done].
        exists d0. split; [done|]. by injection Hd as <-.
      - by rewrite (Hout id Hs) in Hd. }
    unfold bind at 1, emit at 1, modify at 1.
    unfold bind at 1, lift at 1.
    destruct (extract_text fs (file_path (ExtractTextTask.processed fs d0)))
      as [text|e] eqn:Hext.
    + cbv beta iota zeta delta [bind emit setattr modify ret fst snd].
      cbn [session stored log document].
      eexists _, _. split; [reflexivity|]. split; [done|].
      apply (session_step fs table seen id (session t)); [done|done|..];
        cbn [session].
      * rewrite !lookup_alter_eq, Hd, Hd0. cbn.
        rewrite <- (processed_found _ _ _ Hext).
        by rewrite processed_idem.
      * intros k Hk. by rewrite !lookup_alter_ne.
    + cbv beta iota zeta delta
        [process_item_except bind gets emit setattr modify ret fst snd].
      cbn [session stored log document].
      eexists _, _. split; [reflexivity|]. split; [done|].
      apply (session_step fs table seen id (session t)); [done|done|..];
        cbn [session].
      * rewrite !lookup_alter_eq, Hd, Hd0. cbn.
        rewrite <- (processed_failed _ _ _ Hext).
        by rewrite processed_idem.
      * intros k Hk. by rewrite !lookup_alter_ne.
  - rewrite Hst. destruct (table !! id) as [d0|] eqn:Hd0.
    + unfold bind at 1, emit at 1, modify at 1.
      unfold bind at 1, lift at 1.
      destruct (extract_text fs (file_path d0)) as [text|e] eqn:Hext.
      * cbv beta iota zeta delta [bind emit setattr modify ret fst snd].
        cbn [session stored log document].
        eexists _, _. split; [reflexivity|]. split; [done|].
        apply (session_step fs table seen id (session t)); [done|done|..];
        cbn [session].
        -- rewrite !lookup_alter_eq, lookup_insert_eq, Hd0. cbn.
           by rewrite <- (processed_found _ _ _ Hext).
        -- intros k Hk. by rewrite !lookup_alter_ne, lookup_insert_ne.
      * cbv beta iota zeta delta
          [process_item_except bind gets emit setattr modify ret fst snd].
        cbn [session stored log document].
        eexists _, _. split; [reflexivity|]. split; [done|].
        apply (session_step fs table seen id (session t)); [done|done|..];
        cbn [session].
        -- rewrite !lookup_alter_eq, lookup_insert_eq, Hd0. cbn.
           by rewrite <- (processed_failed _ _ _ Hext).
        -- intros k Hk. by rewrite !lookup_alter_ne, lookup_insert_ne.
    + cbv beta iota zeta delta [bind emit setattr modify ret fst snd].
      cbn [session stored log document].
      eexists _, _. split; [reflexivity|]. split; [done|].
      apply (session_step fs table seen id (session t)); [done|done|..];
        cbn [session]; [|done].
      cbn [session]. by rewrite Hd, Hd0.
Qed.

Lemma for_documents_session fs table total (ids : list Z) :
  forall i (results : list Entry) t seen,
  stored t = table ->
  (forall k, k ∈ seen ->
     session t !! k = ExtractTextTask.processed fs <$> table !! k) ->
  (forall k, k ∉ seen -> session t !! k = None) ->
  0 <= i -> i + Z.of_nat (length ids) <= total -> total < 2 ^ 53 ->
  exists t' results',
    for_documents fs total i ids results t = (Return results', t') /\
    stored t' = table /\
    (forall k, k ∈ seen ++ ids ->
       session t' !! k = ExtractTextTask.processed fs <$> table !! k) /\
    (forall k, k ∉ seen ++ ids -> session t' !! k = None).
Proof.
  induction ids as [|id rest IH]; intros i results t seen Hst Hin Hout Hi Hlen Ht.
  - exists t, results. rewrite app_nil_r. by cbn.
  - cbn [length] in Hlen. cbn [for_documents]. unfold bind at 1.
    destruct (process_item_session fs table total i id results t seen
                Hst Hin Hout) as (t1 & r1 & -> & Hst1 & Hin1 & Hout1);
      [lia|lia|].
    destruct (IH (i + 1) r1 t1 (seen ++ [id]) Hst1 Hin1 Hout1)
      as (t2 & r2 & -> & Hst2 & Hin2 & Hout2); [lia|lia|lia|].
    exists t2, r2. rewrite <- app_assoc in Hin2, Hout2. by cbn in *.
Qed.

(** What the batch task leaves in the table.  For a list of fewer than
    2^53 ids, every listed document that the table holds is stored as
    [processed]: with the extracted text, status "completed" and
    progress 100 when its file exists, with status "failed" and the
    message "File not found: <path>" when it does not.  Every document
    that is not listed is stored as it was, no row is added for an id
    without a document, and the session is closed.  Listing an id
    twice changes nothing. *)
Theorem batch_stores_processed_documents
    (fs : FileSystem) (table : gmap Z Document) (ids : list Z) :
  Z.of_nat (length ids) < 2 ^ 53 ->
  let t' := exec (process_document_batch fs ids) (start table) in
  session t' = ∅ /\
  (forall k, k ∈ ids ->
     stored t' !! k = ExtractTextTask.processed fs <$> table !! k) /\
  (forall k, k ∉ ids -> stored t' !! k = table !! k) /\
  (forall k d, k ∈ ids -> table !! k = Some d ->
     path_exists fs (file_path d) = true ->
     exists d' text,
       stored t' !! k = Some d' /\
       extract_text fs (file_path d) = Return text /\
       extracted_text d' = Some text /\ status d' = "completed" /\
       (processing_progress d' == 100)%Q) /\
  (forall k d, k ∈ ids -> table !! k = Some d ->
     path_exists fs (file_path d) = false ->
     exists d',
       stored t' !! k = Some d' /\ status d' = "failed" /\
       error_message d' = Some ("File not found: " +:+ file_path d) /\
       extracted_text d' = extracted_text d).
Proof.
  intros Hlen. cbv zeta.
  destruct (for_documents_session fs table (Z.of_nat (length ids)) ids 0 []
              (start table) [])
    as (t1 & r1 & Hrun & Hst & Hin & Hout);
    [done|by intros k Hk; apply elem_of_nil in Hk|done|lia|lia|lia|].
  assert (exec (process_document_batch fs ids) (start table)
          = {| session := ∅; stored := session t1 ∪ stored t1;
               log := log t1 ++ [EvCommit]; document := document t1 |})
    as ->.
  { unfold exec, process_document_batch, try_finally, try_except.
    cbv beta iota zeta delta [bind emit commit close modify ret].
    rewrite Hrun. by cbn. }
  cbn [session stored].
  cbn [app] in Hin, Hout.
  assert (forall k, k ∈ ids ->
            (session t1 ∪ stored t1) !! k
            = ExtractTextTask.processed fs <$> table !! k) as Hlisted.
  { intros k Hk. rewrite lookup_union, (Hin k Hk), Hst.
    by destruct (table !! k). }
  split; [done|]. split; [exact Hlisted|]. split.
  { intros k Hk. rewrite lookup_union, (Hout k Hk), Hst.
    by destruct (table !! k). }
  split.
  - intros k d Hk Hd He. rewrite (Hlisted k Hk), Hd.
    destruct (extract_text_present fs _ He) as [text Hext].
    eexists _, text. split; [reflexivity|].
    rewrite (processed_found fs d text Hext). by cbn.
  - intros k d Hk Hd He. rewrite (Hlisted k Hk), Hd.
    eexists. split; [reflexivity|].
    rewrite (processed_failed fs d _
               (extract_text_missing fs _ He)).
    by cbn.
Qed.

Lemma batch_stores_processed_documents_witness :
  let t' := exec (process_document_batch Scenarios.disk [1; 2; 1])
                 (start Scenarios.documents) in
  session t' = ∅ /\
  stored t' !! 1
  = Some (ExtractTextTask.processed Scenarios.disk
            (Scenarios.document "uploads/a.txt")) /\
  stored t' !! 2 = None /\
  stored t' !! 3 = Some (Scenarios.document "uploads/c.pdf").
Proof.
  cbv zeta.
  destruct (batch_stores_processed_documents Scenarios.disk
              Scenarios.documents [1; 2; 1])
    as (Hs & Hin & Hout & _); [reflexivity|].
  split; [exact Hs|]. split; [|split].
  - apply (Hin 1). apply (bool_decide_unpack _); vm_compute; exact I.
  - apply (Hin 2). apply (bool_decide_unpack _); vm_compute; exact I.
  - apply (Hout 3). apply (bool_decide_unpack _); vm_compute; exact I.
Defined.

End BatchEffectFacts.

(** * Facts about reading and changing workflows *)

Section WorkflowAdminFacts.

Import WorkflowAdmin.

Implicit Types (table : gmap Z Row) (acc : Row -> bool) (clk : nat -> Z).
Implicit Types (id : Z) (r : Row) (u : UpdateData).

(** A session that holds [r] under [id] and nothing else. *)
Lemma query_first_fresh table acc clk id :
  query_first id (open_session table acc clk) =
  match table !! id with
  | Some r =>
      (Return (Some r),
       {| session := {[ id := r ]}; stored := table; commits := [];
          accepts := acc; clock := clk; ticks := 0 |})
  | None => (Return None, open_session table acc clk)
  end.
Proof.
  unfold query_first, open_session; cbn [session stored].
  rewrite lookup_empty. destruct (table !! id); [|done].
  unfold with_session; cbn. by rewrite insert_empty.
Qed.

Lemma setattr_single id (f : Row -> Row) r table cs acc clk k :
  setattr id f {| session := {[ id := r ]}; stored := table; commits := cs;
                  accepts := acc; clock := clk; ticks := k |}
  = (Return tt,
     {| session := {[ id := f r ]}; stored := table; commits := cs;
        accepts := acc; clock := clk; ticks := k |}).
Proof.
  unfold setattr, modify, with_session; cbn. by rewrite alter_singleton_eq.
Qed.

Lemma commit_single id r table cs acc clk k :
  commit {| session := {[ id := r ]}; stored := table; commits := cs;
            accepts := acc; clock := clk; ticks := k |}
  = if acc r then
      (Return tt,
       {| session := {[ id := r ]}; stored := <[id := r]> table;
          commits := cs ++ [<[id := r]> table];
          accepts := acc; clock := clk; ticks := k |})
    else
      (Raise (Exception "IntegrityError"),
       {| session := {[ id := r ]}; stored := table; commits := cs;
          accepts := acc; clock := clk; ticks := k |}).
Proof.
  unfold commit; cbn [session stored commits accepts clock ticks].
  destruct (acc r) eqn:Hr.
  - rewrite bool_decide_eq_true_2 by by apply map_Forall_singleton.
    by rewrite <- insert_union_singleton_l.
  - rewrite bool_decide_eq_false_2; [done|].
    rewrite map_Forall_singleton. congruence.
Qed.

Lemma for_items_single id (fs : list (Row -> Row)) : forall r table cs acc clk k,
  for_items id fs {| session := {[ id := r ]}; stored := table; commits := cs;
                     accepts := acc; clock := clk; ticks := k |}
  = (Return tt,
     {| session := {[ id := foldl (fun r f => f r) r fs ]}; stored := table;
        commits := cs; accepts := acc; clock := clk; ticks := k |}).
Proof.
  induction fs as [|f fs IH]; intros r table cs acc clk k; [done|].
  cbn [for_items foldl]. unfold bind. rewrite setattr_single. apply IH.
Qed.

(** [delete_workflow] in closed form. *)
Lemma delete_workflow_fresh table acc clk id :
  delete_workflow id (open_session table acc clk) =
  match table !! id with
  | None => (Return false, open_session table acc clk)
  | Some r =>
      let r' := deleted (clk 0%nat) r in
      if acc r' then
        (Return true,
         {| session := {[ id := r' ]}; stored := <[id := r']> table;
            commits := [<[id := r']> table];
            accepts := acc; clock := clk; ticks := 1 |})
      else
        (Raise (Exception "IntegrityError"),
         {| session := {[ id := r' ]}; stored := table; commits := [];
            accepts := acc; clock := clk; ticks := 1 |})
  end.
Proof.
  unfold delete_workflow. unfold bind at 1. rewrite query_first_fresh.
  destruct (table !! id) as [r|]; [|done].
  unfold bind at 1. rewrite setattr_single.
  unfold bind at 1, utcnow at 1. cbn [session stored commits accepts clock ticks].
  unfold bind at 1. rewrite setattr_single.
  unfold bind at 1. rewrite commit_single. cbv zeta. unfold deleted.
  by destruct (acc _).
Qed.

Lemma deleted_twice now now' r : deleted now' (deleted now r) = deleted now' r.
Proof. done. Qed.

(** [delete_workflow] deletes softly.  For an id that the table does
    not hold it returns [False] and changes nothing.  For a workflow
    that exists it returns [True] and stores the row with [is_active]
    false and [updated_at] set to the time of the call; every other
    column of the row and every other row stay as they were, so the
    row is never removed.  It does not look at the flag it finds:
    deleting the same workflow again returns [True] again and only
    moves [updated_at]. *)
Theorem delete_is_soft
    (table : gmap Z Row) (acc : Row -> bool) (clk clk' : nat -> Z) (id : Z) :
  let run := delete_workflow id in
  (table !! id = None ->
     run (open_session table acc clk)
     = (Return false, open_session table acc clk)) /\
  (forall r, table !! id = Some r ->
     acc (deleted (clk 0%nat) r) = true ->
     acc (deleted (clk' 0%nat) r) = true ->
     let table' := stored (exec run (open_session table acc clk)) in
     let r' := deleted (clk 0%nat) r in
     outcome run (open_session table acc clk) = Return true /\
     table' = <[id := r']> table /\
     is_active r' = Some false /\ updated_at r' = Some (clk 0%nat) /\
     set_updated_at (updated_at r) (set_is_active (is_active r) r') = r /\
     (forall k, k <> id -> table' !! k = table !! k) /\
     outcome run (open_session table' acc clk') = Return true /\
     stored (exec run (open_session table' acc clk'))
     = <[id := deleted (clk' 0%nat) r]> table).
Proof.
  cbv zeta. split.
  - intros Hn. by rewrite delete_workflow_fresh, Hn.
  - intros r Hr Hacc Hacc'. unfold outcome, exec.
    rewrite !delete_workflow_fresh, Hr. cbv zeta. rewrite Hacc.
    cbn [fst snd stored]. rewrite lookup_insert_eq, deleted_twice, Hacc'.
    cbn [fst snd stored]. split; [done|]. split; [done|].
    split; [done|]. split; [done|]. split; [by destruct r|].
    split; [by intros k Hk; rewrite lookup_insert_ne|].
    split; [done|]. apply insert_insert_eq.
Qed.

Lemma delete_is_soft_witness :
  let r := {| name := Some "pipeline"; description := None;
              trigger_type := Some "manual"; trigger_config := Some ∅;
              steps := Some []; is_active := Some true;
              total_runs := 3; successful_runs := 2; failed_runs := 1;
              organization_id := 1; created_at := 0; updated_at := None |} in
  let table : gmap Z Row := {[ 5 := r ]} in
  let db := open_session table declared_not_null Scenarios.seconds in
  delete_workflow 6 db = (Return false, db) /\
  outcome (delete_workflow 5) db = Return true /\
  stored (exec (delete_workflow 5) db)
  = <[5 := deleted 0 r]> table /\
  total_runs (deleted 0 r) = 3.
Proof.
  cbv zeta.
  set (r := {| name := Some "pipeline"; description := None;
               trigger_type := Some "manual"; trigger_config := Some ∅;
               steps := Some []; is_active := Some true;
               total_runs := 3; successful_runs := 2; failed_runs := 1;
               organization_id := 1; created_at := 0; updated_at := None |}).
  split.
  - exact (proj1 (delete_is_soft {[ 5 := r ]} declared_not_null
                    Scenarios.seconds Scenarios.seconds 6) eq_refl).
  - assert (({[ 5 := r ]} : gmap Z Row) !! 5 = Some r) as Hr
      by reflexivity.
    destruct (proj2 (delete_is_soft {[ 5 := r ]} declared_not_null
                       Scenarios.seconds Scenarios.seconds 5)
                r Hr eq_refl eq_refl) as (H1 & H2 & _).
    split; [exact H1|]. split; [exact H2|reflexivity].
Defined.

Lemma comprehension_returns {A B} (f : A -> Outcome B) (xs : list A) :
  forall ys, comprehension f xs = Return ys ->
  Forall2 (fun x y => f x = Return y) xs ys.
Proof.
  induction xs as [|x xs IH]; intros ys; cbn [comprehension].
  - intros [= <-]. constructor.
  - destruct (f x) as [y|e] eqn:Hx; [|done].
    destruct (comprehension f xs) as [ys'|e]; [|done].
    intros [= <-]. constructor; [done|by apply IH].
Qed.

Lemma list_workflows_spec {R} (from_orm : Z -> Row -> Outcome R) db :
  list_workflows from_orm db
  = (comprehension (fun kr => from_orm kr.1 kr.2) (active_rows (stored db)),
     with_session (fun s => s ∪ list_to_map (active_rows (stored db))) db).
Proof. done. Qed.

Lemma get_workflow_fresh {R} (from_orm : Z -> Row -> Outcome R)
    table acc clk id :
  outcome (get_workflow from_orm id) (open_session table acc clk) =
  match table !! id with
  | None => Return None
  | Some r =>
      match from_orm id r with
      | Return x => Return (Some x)
      | Raise e => Raise e
      end
  end.
Proof.
  unfold outcome, get_workflow, bind. rewrite query_first_fresh.
  destruct (table !! id) as [r|]; [|done].
  unfold lift, ret. by destruct (from_orm id r).
Qed.

Lemma active_rows_lookup table k r :
  (k, r) ∈ active_rows table <-> table !! k = Some r /\ is_active r = Some true.
Proof.
  unfold active_rows. rewrite list_elem_of_filter, elem_of_map_to_list.
  unfold active; cbn. tauto.
Qed.

(** A deleted workflow is hidden, not gone.  After [delete_workflow]
    has returned [True], [list_workflows] selects the rows it would
    select if the row had been removed, so no response in its result
    carries the id; [get_workflow] still finds the row and returns
    the response made from it, with [is_active] false. *)
Theorem deleted_workflows_are_hidden_not_gone {R}
    (from_orm : Z -> Row -> Outcome R) (response_id : R -> Z)
    (table : gmap Z Row) (acc : Row -> bool) (clk clk1 clk2 : nat -> Z)
    (id : Z) (r : Row) :
  (forall k row x, from_orm k row = Return x -> response_id x = k) ->
  table !! id = Some r ->
  acc (deleted (clk 0%nat) r) = true ->
  let table' :=
    stored (exec (delete_workflow id) (open_session table acc clk)) in
  active_rows table' ≡ₚ active_rows (delete id table) /\
  (forall xs,
     outcome (list_workflows from_orm) (open_session table' acc clk1)
     = Return xs ->
     id ∉ response_id <$> xs) /\
  outcome (get_workflow from_orm id) (open_session table' acc clk2)
  = match from_orm id (deleted (clk 0%nat) r) with
    | Return x => Return (Some x)
    | Raise e => Raise e
    end.
Proof.
  intros Hid Hr Hacc. cbv zeta.
  assert (stored (exec (delete_workflow id) (open_session table acc clk))
          = <[id := deleted (clk 0%nat) r]> table) as ->.
  { unfold exec. rewrite delete_workflow_fresh, Hr. cbv zeta.
    by rewrite Hacc. }
  split; [|split].
  - unfold active_rows. rewrite <- insert_delete_eq.
    rewrite map_to_list_insert by apply lookup_delete_eq.
    by rewrite filter_cons_False.
  - intros xs Hxs. unfold outcome in Hxs.
    rewrite list_workflows_spec in Hxs. cbn [fst] in Hxs.
    apply comprehension_returns in Hxs.
    intros Hin. apply list_elem_of_fmap in Hin as (x & Hx & Hin).
    apply list_elem_of_lookup_1 in Hin as [i Hi].
    destruct (Forall2_lookup_r _ _ _ _ _ Hxs Hi) as ([k row] & Hrow & Hfrom).
    cbn [fst snd] in Hfrom. apply Hid in Hfrom.
    apply list_elem_of_lookup_2 in Hrow.
    apply active_rows_lookup in Hrow as [Hlook Hact].
    cbn [stored open_session] in Hlook.
    assert (k = id) as -> by congruence.
    rewrite lookup_insert_eq in Hlook. injection Hlook as <-.
    discriminate Hact.
  - rewrite get_workflow_fresh. by rewrite lookup_insert_eq.
Qed.

Lemma deleted_workflows_are_hidden_not_gone_witness :
  let r := {| name := Some "pipeline"; description := None;
              trigger_type := Some "manual"; trigger_config := Some ∅;
              steps := Some []; is_active := Some true;
              total_runs := 3; successful_runs := 2; failed_runs := 1;
              organization_id := 1; created_at := 0; updated_at := None |} in
  let from_orm := fun (k : Z) (row : Row) => Return (k, row) in
  let table' :=
    stored (exec (delete_workflow 5)
              (open_session {[ 5 := r ]} declared_not_null
                 Scenarios.seconds)) in
  (forall xs,
     outcome (list_workflows from_orm)
       (open_session table' declared_not_null Scenarios.seconds)
     = Return xs ->
     5 ∉ fst <$> xs) /\
  outcome (get_workflow from_orm 5)
    (open_session table' declared_not_null Scenarios.seconds)
  = Return (Some (5, deleted 0 r)).
Proof.
  cbv zeta.
  set (r := {| name := Some "pipeline"; description := None;
               trigger_type := Some "manual"; trigger_config := Some ∅;
               steps := Some []; is_active := Some true;
               total_runs := 3; successful_runs := 2; failed_runs := 1;
               organization_id := 1; created_at := 0; updated_at := None |}).
  assert (({[ 5 := r ]} : gmap Z Row) !! 5 = Some r) as Hr by reflexivity.
  assert (forall (k : Z) (row : Row) (x : Z * Row),
            Return (k, row) = Return x -> x.1 = k) as Hid.
  { intros k row x H. injection H as <-. reflexivity. }
  destruct (deleted_workflows_are_hidden_not_gone
              (fun (k : Z) (row : Row) => Return (k, row)) fst
              {[ 5 := r ]} declared_not_null
              Scenarios.seconds Scenarios.seconds Scenarios.seconds 5 r
              Hid Hr eq_refl) as (_ & Hlist & Hget).
  split; [exact Hlist|exact Hget].
Defined.

Lemma comprehension_dict_raises (l : list StepValue) (d : WorkflowService.StepData) :
  StepDict d ∈ l ->
  comprehension dict l
  = Raise (AttributeError "'dict' object has no attribute 'dict'").
Proof.
  induction l as [|x l IH]; intros Hin.
  - by apply elem_of_nil in Hin.
  - cbn [comprehension]. destruct x as [fields|fields]; [|done].
    cbn [dict]. rewrite IH; [done|].
    apply elem_of_cons in Hin as [Hin|Hin]; [discriminate|done].
Qed.

(** [update_workflow] in closed form. *)
Lemma update_workflow_fresh {R} (from_orm : Z -> Row -> Outcome R)
    table acc clk id u :
  update_workflow from_orm id u (open_session table acc clk) =
  match table !! id with
  | None => (Return None, open_session table acc clk)
  | Some r =>
      match convert_steps (upd_steps u) with
      | Raise e =>
          (Raise e,
           {| session := {[ id := r ]}; stored := table; commits := [];
              accepts := acc; clock := clk; ticks := 0 |})
      | Return steps =>
          let r' := updated u steps (clk 0%nat) r in
          if acc r' then
            (match from_orm id r' with
             | Return x => Return (Some x)
             | Raise e => Raise e
             end,
             {| session := {[ id := r' ]}; stored := <[id := r']> table;
                commits := [<[id := r']> table];
                accepts := acc; clock := clk; ticks := 1 |})
          else
            (Raise (Exception "IntegrityError"),
             {| session := {[ id := r' ]}; stored := table; commits := [];
                accepts := acc; clock := clk; ticks := 1 |})
      end
  end.
Proof.
  unfold update_workflow. unfold bind at 1. rewrite query_first_fresh.
  destruct (table !! id) as [r|]; [|done].
  unfold bind at 1, lift at 1.
  destruct (convert_steps (upd_steps u)) as [steps|e]; [|done].
  unfold bind at 1. rewrite for_items_single.
  unfold bind at 1, utcnow at 1. cbn [session stored commits accepts clock ticks].
  unfold bind at 1. rewrite setattr_single.
  unfold bind at 1. rewrite commit_single. cbv zeta. unfold updated.
  destruct (acc _); [|done].
  cbv beta iota zeta delta [bind loaded_object gets ret lift session].
  rewrite lookup_singleton_eq.
  by destruct (from_orm id _).
Qed.

(** An update that names a non-empty list of steps fails.  The
    service calls [step.dict()] on the elements of
    [update_data["steps"]]; as soon as one of them is already a plain
    dict, which is what [WorkflowUpdate.dict()] makes of every step,
    the call raises [AttributeError].  This happens before any
    attribute is assigned: the workflow is loaded but not changed,
    nothing is committed and the clock is not read, whatever else the
    update names. *)
Theorem update_with_steps_fails {R}
    (from_orm : Z -> Row -> Outcome R)
    (table : gmap Z Row) (acc : Row -> bool) (clk : nat -> Z)
    (id : Z) (r : Row) (u : UpdateData)
    (l : list StepValue) (d : WorkflowService.StepData) :
  table !! id = Some r ->
  upd_steps u = Some (Some l) ->
  StepDict d ∈ l ->
  let run := update_workflow from_orm id u in
  let db' := exec run (open_session table acc clk) in
  outcome run (open_session table acc clk)
  = Raise (AttributeError "'dict' object has no attribute 'dict'") /\
  stored db' = table /\ commits db' = [] /\
  session db' = {[ id := r ]} /\ ticks db' = 0%nat.
Proof.
  intros Hr Hu Hin. cbv zeta. unfold outcome, exec.
  rewrite update_workflow_fresh, Hr, Hu.
  unfold convert_steps. destruct l as [|x l']; [by apply elem_of_nil in Hin|].
  by rewrite (comprehension_dict_raises _ d Hin).
Qed.

Lemma update_with_steps_fails_witness :
  let r := {| name := Some "pipeline"; description := None;
              trigger_type := Some "manual"; trigger_config := Some ∅;
              steps := Some []; is_active := Some true;
              total_runs := 3; successful_runs := 2; failed_runs := 1;
              organization_id := 1; created_at := 0; updated_at := None |} in
  let step := Scenarios.step "s1" "notification" 1 in
  let u := {| upd_name := Some (Some "renamed"); upd_description := None;
              upd_trigger_type := None; upd_trigger_config := None;
              upd_steps := Some (Some [StepDict step]);
              upd_is_active := None |} in
  let from_orm := fun (k : Z) (row : Row) => Return (k, row) in
  let db := open_session {[ 5 := r ]} declared_not_null Scenarios.seconds in
  outcome (update_workflow from_orm 5 u) db
  = Raise (AttributeError "'dict' object has no attribute 'dict'") /\
  stored (exec (update_workflow from_orm 5 u) db) = {[ 5 := r ]}.
Proof.
  cbv zeta.
  set (r := {| name := Some "pipeline"; description := None;
               trigger_type := Some "manual"; trigger_config := Some ∅;
               steps := Some []; is_active := Some true;
               total_runs := 3; successful_runs := 2; failed_runs := 1;
               organization_id := 1; created_at := 0; updated_at := None |}).
  set (u := {| upd_name := Some (Some "renamed"); upd_description := None;
               upd_trigger_type := None; upd_trigger_config := None;
               upd_steps :=
                 Some (Some [StepDict (Scenarios.step "s1" "notification" 1)]);
               upd_is_active := None |}).
  assert (({[ 5 := r ]} : gmap Z Row) !! 5 = Some r) as Hr by reflexivity.
  assert (StepDict (Scenarios.step "s1" "notification" 1)
          ∈ [StepDict (Scenarios.step "s1" "notification" 1)]) as Hin
    by (apply elem_of_cons; left; reflexivity).
  destruct (update_with_steps_fails
              (fun (k : Z) (row : Row) => Return (k, row))
              {[ 5 := r ]} declared_not_null Scenarios.seconds 5 r u
              [StepDict (Scenarios.step "s1" "notification" 1)]
              (Scenarios.step "s1" "notification" 1) Hr eq_refl Hin)
    as (H1 & H2 & _).
  split; [exact H1|exact H2].
Defined.

Lemma updated_fields u steps now r :
  let r' := updated u steps now r in
  name r' = default (name r) (upd_name u) /\
  description r' = default (description r) (upd_description u) /\
  trigger_type r' = default (trigger_type r) (upd_trigger_type u) /\
  trigger_config r' = default (trigger_config r) (upd_trigger_config u) /\
  WorkflowAdmin.steps r' = default (WorkflowAdmin.steps r) steps /\
  is_active r' = default (is_active r) (upd_is_active u) /\
  total_runs r' = total_runs r /\
  successful_runs r' = successful_runs r /\
  failed_runs r' = failed_runs r /\
  organization_id r' = organization_id r /\
  created_at r' = created_at r /\
  updated_at r' = Some now.
Proof.
  cbv zeta. unfold updated, items.
  destruct (upd_name u), (upd_description u), (upd_trigger_type u),
    (upd_trigger_config u), steps, (upd_is_active u); by cbn.
Qed.

(** An update changes the fields it names and no others.  When the
    steps entry is absent, null or an empty list (or made of models
    that have a [dict] method), the row is written with every named
    field set to the given value, [None] included, every field that
    is not named kept, and [updated_at] set to the time of the call;
    the run counters, the organization and [created_at] cannot be
    named and never change.  The response is made from the row that
    was written.  When the database refuses the row, for instance a
    null name, the commit raises and the table stays as it was.  For
    an id that the table does not hold the result is [None] and
    nothing changes. *)
Theorem update_changes_named_fields_only {R}
    (from_orm : Z -> Row -> Outcome R)
    (table : gmap Z Row) (acc : Row -> bool) (clk : nat -> Z)
    (id : Z) (u : UpdateData) :
  let run := update_workflow from_orm id u in
  let db := open_session table acc clk in
  (table !! id = None -> run db = (Return None, db)) /\
  (forall r steps,
     table !! id = Some r ->
     convert_steps (upd_steps u) = Return steps ->
     let r' := updated u steps (clk 0%nat) r in
     (name r' = default (name r) (upd_name u) /\
      description r' = default (description r) (upd_description u) /\
      trigger_type r' = default (trigger_type r) (upd_trigger_type u) /\
      trigger_config r' = default (trigger_config r) (upd_trigger_config u) /\
      WorkflowAdmin.steps r' = default (WorkflowAdmin.steps r) steps /\
      is_active r' = default (is_active r) (upd_is_active u) /\
      total_runs r' = total_runs r /\
      successful_runs r' = successful_runs r /\
      failed_runs r' = failed_runs r /\
      organization_id r' = organization_id r /\
      created_at r' = created_at r /\
      updated_at r' = Some (clk 0%nat)) /\
     (acc r' = true ->
        stored (exec run db) = <[id := r']> table /\
        outcome run db
        = match from_orm id r' with
          | Return x => Return (Some x)
          | Raise e => Raise e
          end) /\
     (acc r' = false ->
        stored (exec run db) = table /\ commits (exec run db) = [] /\
        exists e, outcome run db = Raise e)).
Proof.
  cbv zeta. split.
  - intros Hn. by rewrite update_workflow_fresh, Hn.
  - intros r steps Hr Hs. split; [apply updated_fields|].
    unfold outcome, exec. rewrite update_workflow_fresh, Hr, Hs. cbv zeta.
    split; intros ->; cbn [fst snd stored commits]; [done|].
    split; [done|]. split; [done|]. by eexists.
Qed.

Lemma update_changes_named_fields_only_witness :
  let r := {| name := Some "pipeline"; description := None;
              trigger_type := Some "manual"; trigger_config := Some ∅;
              steps := Some []; is_active := Some true;
              total_runs := 3; successful_runs := 2; failed_runs := 1;
              organization_id := 1; created_at := 0; updated_at := None |} in
  let rename := {| upd_name := Some (Some "nightly");
                   upd_description := None; upd_trigger_type := None;
                   upd_trigger_config := None; upd_steps := None;
                   upd_is_active := None |} in
  let unname := {| upd_name := Some None;
                   upd_description := None; upd_trigger_type := None;
                   upd_trigger_config := None; upd_steps := None;
                   upd_is_active := None |} in
  let from_orm := fun (k : Z) (row : Row) => Return (k, row) in
  let db := open_session {[ 5 := r ]} declared_not_null Scenarios.seconds in
  stored (exec (update_workflow from_orm 5 rename) db)
  = <[5 := updated rename None 0 r]> {[ 5 := r ]} /\
  name (updated rename None 0 r) = Some "nightly" /\
  stored (exec (update_workflow from_orm 5 unname) db) = {[ 5 := r ]} /\
  exists e, outcome (update_workflow from_orm 5 unname) db = Raise e.
Proof.
  cbv zeta.
  set (r := {| name := Some "pipeline"; description := None;
               trigger_type := Some "manual"; trigger_config := Some ∅;
               steps := Some []; is_active := Some true;
               total_runs := 3; successful_runs := 2; failed_runs := 1;
               organization_id := 1; created_at := 0; updated_at := None |}).
  set (rename := {| upd_name := Some (Some "nightly");
                    upd_description := None; upd_trigger_type := None;
                    upd_trigger_config := None; upd_steps := None;
                    upd_is_active := None |}).
  set (unname := {| upd_name := Some None;
                    upd_description := None; upd_trigger_type := None;
                    upd_trigger_config := None; upd_steps := None;
                    upd_is_active := None |}).
  assert (({[ 5 := r ]} : gmap Z Row) !! 5 = Some r) as Hr by reflexivity.
  destruct (proj2 (update_changes_named_fields_only
                     (fun (k : Z) (row : Row) => Return (k, row))
                     {[ 5 := r ]} declared_not_null Scenarios.seconds 5
                     rename) r None Hr eq_refl) as (_ & Hok & _).
  destruct (proj2 (update_changes_named_fields_only
                     (fun (k : Z) (row : Row) => Return (k, row))
                     {[ 5 := r ]} declared_not_null Scenarios.seconds 5
                     unname) r None Hr eq_refl) as (_ & _ & Hbad).
  destruct (Hok eq_refl) as [H1 _].
  destruct (Hbad eq_refl) as (H2 & _ & H3).
  split; [exact H1|]. split; [reflexivity|]. split; [exact H2|exact H3].
Defined.

(** A soft delete can be undone by an update: deleting an active
    workflow and then updating it with [is_active] true alone gives
    back the row as it was, apart from [updated_at]. *)
Theorem update_can_undelete {R}
    (from_orm : Z -> Row -> Outcome R)
    (table : gmap Z Row) (acc : Row -> bool) (clk clk' : nat -> Z)
    (id : Z) (r : Row) :
  table !! id = Some r ->
  is_active r = Some true ->
  acc (deleted (clk 0%nat) r) = true ->
  acc (set_updated_at (Some (clk' 0%nat)) r) = true ->
  let restore :=
    {| upd_name := None; upd_description := None; upd_trigger_type := None;
       upd_trigger_config := None; upd_steps := None;
       upd_is_active := Some (Some true) |} in
  let table1 :=
    stored (exec (delete_workflow id) (open_session table acc clk)) in
  let table2 :=
    stored (exec (update_workflow from_orm id restore)
              (open_session table1 acc clk')) in
  (exists r1, table1 !! id = Some r1 /\ is_active r1 = Some false) /\
  table2 = <[id := set_updated_at (Some (clk' 0%nat)) r]> table.
Proof.
  intros Hr Hact Hacc Hacc'. cbv zeta.
  assert (stored (exec (delete_workflow id) (open_session table acc clk))
          = <[id := deleted (clk 0%nat) r]> table) as ->.
  { unfold exec. rewrite delete_workflow_fresh, Hr. cbv zeta.
    by rewrite Hacc. }
  split.
  { exists (deleted (clk 0%nat) r). by rewrite lookup_insert_eq. }
  unfold exec. rewrite update_workflow_fresh, lookup_insert_eq.
  cbn [convert_steps upd_steps]. cbv zeta.
  assert (updated
            {| upd_name := None; upd_description := None;
               upd_trigger_type := None; upd_trigger_config := None;
               upd_steps := None; upd_is_active := Some (Some true) |}
            None (clk' 0%nat) (deleted (clk 0%nat) r)
          = set_updated_at (Some (clk' 0%nat)) r) as ->.
  { unfold updated, items, deleted; cbn. destruct r; cbn in *.
    by rewrite Hact. }
  rewrite Hacc'. cbn [snd stored]. apply insert_insert_eq.
Qed.

Lemma update_can_undelete_witness :
  let r := {| name := Some "pipeline"; description := None;
              trigger_type := Some "manual"; trigger_config := Some ∅;
              steps := Some []; is_active := Some true;
              total_runs := 3; successful_runs := 2; failed_runs := 1;
              organization_id := 1; created_at := 0; updated_at := None |} in
  let restore :=
    {| upd_name := None; upd_description := None; upd_trigger_type := None;
       upd_trigger_config := None; upd_steps := None;
       upd_is_active := Some (Some true) |} in
  let from_orm := fun (k : Z) (row : Row) => Return (k, row) in
  let table1 :=
    stored (exec (delete_workflow 5)
              (open_session {[ 5 := r ]} declared_not_null
                 Scenarios.seconds)) in
  stored (exec (update_workflow from_orm 5 restore)
            (open_session table1 declared_not_null Scenarios.seconds))
  = <[5 := set_updated_at (Some 0) r]> {[ 5 := r ]}.
Proof.
  cbv zeta.
  set (r := {| name := Some "pipeline"; description := None;
               trigger_type := Some "manual"; trigger_config := Some ∅;
               steps := Some []; is_active := Some true;
               total_runs := 3; successful_runs := 2; failed_runs := 1;
               organization_id := 1; created_at := 0; updated_at := None |}).
  assert (({[ 5 := r ]} : gmap Z Row) !! 5 = Some r) as Hr by reflexivity.
  exact (proj2 (update_can_undelete
                  (fun (k : Z) (row : Row) => Return (k, row))
                  {[ 5 := r ]} declared_not_null
                  Scenarios.seconds Scenarios.seconds 5 r
                  Hr eq_refl eq_refl eq_refl)).
Defined.

End WorkflowAdminFacts.
